(** * namsan_dashboard: aggregation, scoring and sync logic

    A shallow embedding of the aggregation engine and the
    provisioning/sync code of the three dashboard variants
    ([app.py], [app_v2.py], [app_final.py]).

    Conventions of the embedding:
    - a pandas DataFrame with a fixed schema is a [list] of records, one
      record per row, in row order; the empty DataFrame is [[]];
    - a Python [dict] (a summary row, the weight mapping, the spreadsheet
      seen as a mapping from sheet title to rows) is a [gmap];
    - an [int] is a [Z].  A [float] is idealised to an exact rational
      ([Q]), with [round] as round-half-to-even on the exact value and
      [option Q] where a float can be nan or inf (a division by a count);
      what is stated on these definitions is about ranges, order and
      what a result depends on.  The number that
      [calculate_comprehensive_score] returns depends on the rounding of
      every float operation: module [Scoring64] embeds that function on
      IEEE 754 binary64 numbers (the primitive [float], whose operations
      are the hardware's), and the statement about the returned score is
      made there;
    - [str] is [string] (the UTF-8 bytes of the text);
    - a raised exception is the [None] of an option, and a function that
      reads or writes the spreadsheet threads a [World] explicitly. *)

From Stdlib Require Import PrimFloat SpecFloat FloatOps.
From Stdlib Require Import ZArith QArith Qround Lia Lqa List String Ascii Bool.
From Stdlib Require Import Sorted Permutation SetoidList SetoidPermutation.
From stdpp Require Import gmap strings fin_maps pretty.

Set Default Proof Using "Type".
Set Warnings "-inexact-float".
Local Open Scope string_scope.

(** ** Python and pandas primitives used by the source *)

Module Py.

(** *** [str] methods

    The needles the code searches for (['월'], ['년'], ['년 ']) are whole
    code points, so matching on UTF-8 bytes finds them exactly where
    Python finds them on code points. *)

(** [sub in s] *)
Fixpoint contains (sub s : string) : bool :=
  String.prefix sub s ||
  match s with
  | EmptyString => false
  | String _ s' => contains sub s'
  end.

Fixpoint replace_empty_aux (old : string) (skip : nat) (s : string) : string :=
  match s with
  | EmptyString => EmptyString
  | String c s' =>
      match skip with
      | S k => replace_empty_aux old k s'
      | O =>
          if String.prefix old s
          then replace_empty_aux old (String.length old - 1) s'
          else String c (replace_empty_aux old 0 s')
      end
  end.

(** [s.replace(old, '')] for a non-empty [old] *)
Definition replace_empty (old s : string) : string :=
  replace_empty_aux old 0 s.

Fixpoint drop (n : nat) (s : string) : string :=
  match n, s with
  | O, _ => s
  | S _, EmptyString => EmptyString
  | S k, String _ s' => drop k s'
  end.

(** the text after the first occurrence of [sep], if there is one *)
Fixpoint after (sep s : string) : option string :=
  if String.prefix sep s then Some (drop (String.length sep) s)
  else match s with
       | EmptyString => None
       | String _ s' => after sep s'
       end.

(** the text before the first occurrence of [sep] (all of [s] if none) *)
Fixpoint before (sep s : string) : string :=
  if String.prefix sep s then EmptyString
  else match s with
       | EmptyString => EmptyString
       | String c s' => String c (before sep s')
       end.

(** [s.split(sep)[1]]: [None] is the IndexError of a one-piece split *)
Definition split_item1 (sep s : string) : option string :=
  match after sep s with
  | None => None
  | Some rest => Some (before sep rest)
  end.

(** [a, b = s.split(sep)]: [None] is the ValueError of unpacking a list
    that has not exactly two pieces *)
Definition split_pair (sep s : string) : option (string * string) :=
  match after sep s with
  | None => None
  | Some rest => if contains sep rest then None else Some (before sep s, rest)
  end.

(** ASCII white space, as [str.strip] removes it (the non-ASCII white
    space of Unicode is not modelled) *)
Definition is_space (c : ascii) : bool :=
  let n := nat_of_ascii c in
  Nat.eqb n 32 || (Nat.leb 9 n && Nat.leb n 13) || (Nat.leb 28 n && Nat.leb n 31).

Fixpoint lstrip (s : string) : string :=
  match s with
  | EmptyString => EmptyString
  | String c s' => if is_space c then lstrip s' else s
  end.

Fixpoint rstrip (s : string) : string :=
  match s with
  | EmptyString => EmptyString
  | String c s' =>
      match rstrip s' with
      | EmptyString => if is_space c then EmptyString else String c EmptyString
      | r => String c r
      end
  end.

Definition strip (s : string) : string := rstrip (lstrip s).

(** [s.endswith(suffix)] *)
Definition endswith (s suffix : string) : bool :=
  let n := String.length s in
  let m := String.length suffix in
  Nat.leb m n && String.eqb (drop (n - m) s) suffix.

Definition digit_value (c : ascii) : option Z :=
  let n := nat_of_ascii c in
  if Nat.leb 48 n && Nat.leb n 57 then Some (Z.of_nat (n - 48)) else None.

Fixpoint int_digits (acc : Z) (after_digit : bool) (s : string) : option Z :=
  match s with
  | EmptyString => if after_digit then Some acc else None
  | String c s' =>
      match digit_value c with
      | Some d => int_digits (10 * acc + d) true s'
      | None =>
          if Ascii.eqb c "_" && after_digit then int_digits acc false s' else None
      end
  end.

(** [int(s)] on a [str]: surrounding white space, an optional sign, ASCII
    digits with single underscores between them.  [None] is ValueError.
    Digits outside ASCII, which Python also accepts, are not modelled. *)
Definition int (s : string) : option Z :=
  match strip s with
  | String "-" s' => option_map Z.opp (int_digits 0 false s')
  | String "+" s' => int_digits 0 false s'
  | s' => int_digits 0 false s'
  end.

(** *** numbers *)

(** [round(x)]: the nearest integer, ties to the even one *)
Definition round_half_even (x : Q) : Z :=
  let f := Qfloor x in
  match (x - inject_Z f ?= 1 # 2)%Q with
  | Lt => f
  | Gt => (f + 1)%Z
  | Eq => if Z.even f then f else (f + 1)%Z
  end.

(** [round(x, 1)]: one decimal place, as the fraction (tenths / 10) *)
Definition round1 (x : Q) : Q := round_half_even (x * 10) # 10.

(** [int(x)] on a float: truncation toward zero *)
Definition trunc (x : Q) : Z := Z.quot (Qnum x) (Zpos (Qden x)).

(** [a / b] on numpy numbers.  A float that is not a number of [Q] (the
    nan or inf that numpy gives for a zero divisor) is the [None] of
    [option Q]. *)
Definition true_divide (a b : Q) : option Q :=
  if Qeq_bool b 0 then None else Some (a / b)%Q.

(** [x * 100] on a float that may be nan or inf *)
Definition times100 (x : option Q) : option Q := option_map (fun q => (q * 100)%Q) x.

(** [round(x)] to an integer; [None] is the ValueError or OverflowError
    Python raises for nan and inf *)
Definition round_int (x : option Q) : option Z := option_map round_half_even x.

Definition sumZ (l : list Z) : Z := fold_right Z.add 0%Z l.

Definition sumQ (l : list Q) : Q := fold_right Qplus 0%Q l.

(** [Series.mean()] of an integer column with at least one row *)
Definition mean (l : list Z) : Q := inject_Z (sumZ l) / inject_Z (Z.of_nat (List.length l)).

Definition meanQ (l : list Q) : Q := sumQ l / inject_Z (Z.of_nat (List.length l)).

(** *** floats in binary64

    A Python [float] is an IEEE 754 binary64 number, here the primitive
    [float]: [+], [*] and [/] give the representable number nearest to
    the exact result, ties to the even one. *)

(** the number a float stands for; [None] for nan and the infinities *)
Definition float_value (x : float) : option Q :=
  match Prim2SF x with
  | S754_zero _ => Some 0%Q
  | S754_finite s m e =>
      Some ((if s then inject_Z (Zneg m) else inject_Z (Zpos m)) * Qpower 2 e)%Q
  | S754_infinity _ | S754_nan => None
  end.

(** the float nearest to an integer, ties to even *)
Definition nearest_float (z : Z) : float :=
  SF2Prim (binary_normalize prec emax z 0 false).

(** the [int] operand of a mixed [int * float]; [None] is the
    OverflowError of an int too large for a float *)
Definition float_of_int (z : Z) : option float :=
  let x := nearest_float z in
  if PrimFloat.is_infinity x then None else Some x.

(** [round(x, 1)] on a float: the number is written in decimal with one
    digit after the point, correctly rounded from its exact binary value
    (a tie goes to the even digit), and the decimal is read back as the
    nearest float.  nan and the infinities come back as they are. *)
Definition float_round1 (x : float) : float :=
  match Prim2SF x, float_value x with
  | S754_finite s _ _, Some q =>
      match round_half_even (q * 10) with
      | Z0 => SF2Prim (S754_zero s)
      | Zpos k | Zneg k =>
          SF2Prim (SFdiv prec emax (S754_finite s k 0) (S754_finite false 10 0))
      end
  | _, _ => x
  end.

(** *** sorting

    [DataFrame.sort_values(col, ascending=False)] takes the rows in the
    order [nargsort] computes from the key column alone.  pandas sorts
    with [kind='quicksort'] unless told otherwise, and that kind is not
    stable: every position of the column comes out once and the keys
    descend, but the order of rows with equal keys is not fixed by the
    code.  [sort_values_with] is the step for any argsort.
    [sort_values_desc] is one such sort, written out: the column is
    reversed, sorted ascending by insertion and reversed again, which
    leaves rows with equal keys in their original order; it is used
    where no statement depends on the order of equal keys. *)

(** [df.take(indexer)]: the rows at the positions of [indexer], in that
    order; [None] is the IndexError of a position outside the frame *)
Definition take {A : Type} (indexer : list nat) (df : list A) : option (list A) :=
  mapM (fun i => df !! i) indexer.

(** [df.sort_values(by, ascending=False)] with [argsort] for the
    positions [nargsort] returns for a key column *)
Definition sort_values_with {A : Type} (argsort : list Q -> list nat) (key : A -> Q)
    (df : list A) : option (list A) :=
  take (argsort (map key df)) df.

Section Sorting.
Context {A : Type} (leb : A -> A -> bool).

Fixpoint insert_asc (x : A) (l : list A) : list A :=
  match l with
  | [] => [x]
  | y :: l' => if leb x y then x :: l else y :: insert_asc x l'
  end.

Fixpoint sort_asc (l : list A) : list A :=
  match l with
  | [] => []
  | x :: l' => insert_asc x (sort_asc l')
  end.

Definition sort_values_desc (l : list A) : list A :=
  rev (sort_asc (rev l)).
End Sorting.

(** [Series.unique()]: the distinct values in order of first appearance *)
Fixpoint unique (l : list string) : list string :=
  match l with
  | [] => []
  | x :: l' => x :: List.filter (fun y => negb (String.eqb x y)) (unique l')
  end.

(** [x in xs] for a list of strings *)
Definition isin (x : string) (xs : list string) : bool :=
  existsb (String.eqb x) xs.

End Py.



(** ** Data model *)

(** The six 0/1 indicator columns of an activity row, in the order of the
    source's [indicators] list:
    전체출결, 대면출결, 마이심, 상시활동, 전도, 십일조. *)
Record Flags := {
  f_overall : Z;
  f_inperson : Z;
  f_mysim : Z;
  f_ongoing : Z;
  f_outreach : Z;
  f_tithe : Z
}.

Definition zero_flags : Flags :=
  {| f_overall := 0; f_inperson := 0; f_mysim := 0;
     f_ongoing := 0; f_outreach := 0; f_tithe := 0 |}.

(** every flag is 0 or 1 *)
Definition flags01 (f : Flags) : Prop :=
  Forall (fun v => v = 0%Z \/ v = 1%Z)
    [f_overall f; f_inperson f; f_mysim f; f_ongoing f; f_outreach f; f_tithe f].

(** A row of the roster sheet [Record_DB] of [app_final.py]:
    이름, 지역, 구역, 직분, 상태, 입회일. *)
Record Member := {
  m_name : string;
  m_region : string;
  m_zone : string;
  m_role : string;
  m_status : string;
  m_joined : string
}.

(** A row of a zone sheet of [app_final.py]:
    날짜 (a month label such as "11월"), 이름, 직분, 상태 and the flags. *)
Record ActivityRow := {
  r_date : string;
  r_name : string;
  r_role : string;
  r_status : string;
  r_flags : Flags
}.

(** A calendar date, the value of a parsed 날짜 cell in [app.py] and
    [app_v2.py]; [None] at type [option Date] is pandas' NaT. *)
Record Date := { year : Z; month : Z; day : Z }.

(** A row of a zone sheet of [app_v2.py], after [pd.to_datetime]. *)
Record DatedRow := {
  d_date : option Date;
  d_name : string;
  d_role : string;
  d_status : string;
  d_flags : Flags
}.

(** A row of the flat [Record_DB] table of [app.py], after [load_data]. *)
Record FlatRow := {
  x_date : option Date;
  x_name : string;
  x_region : string;
  x_zone : string;
  x_role : string;
  x_status : string;
  x_flags : Flags
}.

(** The dict [calculate_zone_summary] returns, one field per key:
    지역, 구역, 구역장, 재적, 전체출결, 대면출결, 마이심, 상시활동, 전도,
    한자율, 십일조. *)
Record ZoneSummary := {
  s_region : string;
  s_zone : string;
  s_leader : string;
  s_members : Z;
  s_overall : Z;
  s_inperson : Z;
  s_mysim : Z;
  s_ongoing : Z;
  s_outreach : Z;
  s_hanja : Z;
  s_tithe : Z
}.

(** A value stored under a key of a row: text or a number. *)
Inductive cell :=
| Text (s : string)
| Num (q : Q).

(** The summary as the mapping from its keys to its values. *)
Definition as_dict (s : ZoneSummary) : gmap string cell :=
  list_to_map
    [("지역", Text (s_region s)); ("구역", Text (s_zone s));
     ("구역장", Text (s_leader s)); ("재적", Num (inject_Z (s_members s)));
     ("전체출결", Num (inject_Z (s_overall s)));
     ("대면출결", Num (inject_Z (s_inperson s)));
     ("마이심", Num (inject_Z (s_mysim s)));
     ("상시활동", Num (inject_Z (s_ongoing s)));
     ("전도", Num (inject_Z (s_outreach s)));
     ("한자율", Num (inject_Z (s_hanja s)));
     ("십일조", Num (inject_Z (s_tithe s)))].

(** A row of [summary_df] once the 종합지표 column is there; 순위 is
    [None] until the ranking step fills it. *)
Record BoardRow := {
  b_summary : ZoneSummary;
  b_score : Q;
  b_rank : option Z
}.

(** ** Scoring and ranking, shared by [app_final.py] and [app_v2.py]
    (the two files have the same code for these steps)

    Here the score is an exact rational: the sum is not rounded term by
    term and [round(score, 1)] rounds the exact sum.  The number the
    code returns can be one tenth off this one (see [Scoring64] below);
    the statements made on this module are about what the score depends
    on, its range and the order of the board. *)

Module Scoring.

Definition indicators : list string :=
  ["전체출결"; "대면출결"; "마이심"; "상시활동"; "전도"; "십일조"].

(** One turn of the loop of [calculate_comprehensive_score]:
    [if ind in row and ind in weights: score += row[ind] * (weights[ind] / 100)].
    [None] is an exception: the TypeError of a text cell. *)
Definition score_step (row : gmap string cell) (weights : gmap string Q)
    (score : option Q) (ind : string) : option Q :=
  match score with
  | None => None
  | Some sc =>
      match row !! ind, weights !! ind with
      | Some c, Some w =>
          match c with
          | Num r => Some (sc + r * (w / 100))%Q
          | Text _ => None
          end
      | _, _ => Some sc
      end
  end.

Definition calculate_comprehensive_score (row : gmap string cell)
    (weights : gmap string Q) : option Q :=
  option_map Py.round1 (fold_left (score_step row weights) indicators (Some 0%Q)).

(** [summary_df['종합지표'] = summary_df.apply(lambda row: ..., axis=1)] *)
Fixpoint add_scores (summary_list : list ZoneSummary) (weights : gmap string Q)
    : option (list BoardRow) :=
  match summary_list with
  | [] => Some []
  | s :: rest =>
      match calculate_comprehensive_score (as_dict s) weights, add_scores rest weights with
      | Some sc, Some rows =>
          Some ({| b_summary := s; b_score := sc; b_rank := None |} :: rows)
      | _, _ => None
      end
  end.

Definition score_leb (a b : BoardRow) : bool := Qle_bool (b_score a) (b_score b).

(** [summary_df['순위'] = range(1, len(summary_df) + 1)] *)
Definition assign_ranks (df : list BoardRow) : list BoardRow :=
  map (fun ir : nat * BoardRow =>
         {| b_summary := b_summary (snd ir); b_score := b_score (snd ir);
            b_rank := Some (Z.of_nat (fst ir)) |})
      (combine (seq 1 (List.length df)) df).

(** The ranking step:
    [summary_df = summary_df.sort_values('종합지표', ascending=False)]
    followed by the assignment of 순위, with the insertion sort for the
    sort. *)
Definition rank_zones (df : list BoardRow) : list BoardRow :=
  assign_ranks (Py.sort_values_desc score_leb df).

(** The ranking step for any argsort of the 종합지표 column. *)
Definition rank_zones_with (argsort : list Q -> list nat) (df : list BoardRow)
    : option (list BoardRow) :=
  option_map assign_ranks (Py.sort_values_with argsort b_score df).

(** [summary_df[summary_df['지역'] == region]] *)
Definition region_rows (df : list BoardRow) (region : string) : list BoardRow :=
  List.filter (fun r => String.eqb (s_region (b_summary r)) region) df.

End Scoring.

(** ** The composite score on binary64 numbers

    [calculate_comprehensive_score] once more, with Python's numbers as
    they are: the rates of a summary are the [int]s that [round] returned
    (in the rows that [DataFrame.apply] hands over as well as in the dict
    of the zone-detail tab), the slider weights and the score are
    [float]s, and [round(score, 1)] is the [round] of a [float].  The two
    objects of the call are held in a state that every step returns, so
    that what the function does to its arguments is part of what it
    computes. *)

Module Scoring64.

(** a value under a key of the row: the summary holds text and [int]s *)
Inductive value :=
| Str (s : string)
| Int (z : Z).

(** the two objects the function is called with *)
Record Args := {
  row : gmap string value;
  weights : gmap string float
}.

(** A step of the function: the two objects as it leaves them and,
    unless it raised, its value. *)
Definition Step (A : Type) : Type := Args -> option A * Args.

Definition ret {A : Type} (a : A) : Step A := fun args => (Some a, args).

Definition bind {A B : Type} (m : Step A) (k : A -> Step B) : Step B :=
  fun args => match m args with
              | (Some a, args') => k a args'
              | (None, args') => (None, args')
              end.

(** [ind in row] *)
Definition in_row (ind : string) : Step bool :=
  fun args => (Some (match row args !! ind with Some _ => true | None => false end), args).

(** [ind in weights] *)
Definition in_weights (ind : string) : Step bool :=
  fun args => (Some (match weights args !! ind with Some _ => true | None => false end), args).

(** [row[ind]]; [None] is KeyError *)
Definition row_item (ind : string) : Step value :=
  fun args => (row args !! ind, args).

(** [weights[ind]] *)
Definition weights_item (ind : string) : Step float :=
  fun args => (weights args !! ind, args).

(** [v * x] for a cell [v] and a float [x]; [None] is the TypeError of a
    text cell or the OverflowError of an int that no float holds *)
Definition times (v : value) (x : float) : Step float :=
  fun args =>
    (match v with
     | Int z => option_map (fun r => (r * x)%float) (Py.float_of_int z)
     | Str _ => None
     end, args).

Definition indicators : list string :=
  ["전체출결"; "대면출결"; "마이심"; "상시활동"; "전도"; "십일조"].

(** the body of the loop:
    [if ind in row and ind in weights: score += row[ind] * (weights[ind] / 100)] *)
Definition loop_body (score : float) (ind : string) : Step float :=
  bind (in_row ind) (fun has_rate =>
  if has_rate then
    bind (in_weights ind) (fun has_weight =>
    if has_weight then
      bind (row_item ind) (fun v =>
      bind (weights_item ind) (fun w =>
      bind (times v (w / 100)) (fun term =>
      ret (score + term)%float)))
    else ret score)
  else ret score).

(** [for ind in inds: ...] *)
Fixpoint for_each (inds : list string) (score : float) : Step float :=
  match inds with
  | [] => ret score
  | ind :: rest => bind (loop_body score ind) (for_each rest)
  end.

(** [score = 0.0], the loop over [indicators], [return round(score, 1)] *)
Definition calculate_comprehensive_score : Step float :=
  bind (for_each indicators 0%float) (fun score => ret (Py.float_round1 score)).

(** the dict of a summary, its counts and rates the [int]s that [round] returned *)
Definition as_row (s : ZoneSummary) : gmap string value :=
  list_to_map
    [("지역", Str (s_region s)); ("구역", Str (s_zone s));
     ("구역장", Str (s_leader s)); ("재적", Int (s_members s));
     ("전체출결", Int (s_overall s));
     ("대면출결", Int (s_inperson s));
     ("마이심", Int (s_mysim s));
     ("상시활동", Int (s_ongoing s));
     ("전도", Int (s_outreach s));
     ("한자율", Int (s_hanja s));
     ("십일조", Int (s_tithe s))].

End Scoring64.

(** ** The spreadsheet and the read cache of [app_final.py] *)

(** The state the provisioning and sync code works on: the zone sheets
    of the spreadsheet (sheet title to rows), and the memo table of the
    [@st.cache_data] decorator on [load_zone_data] (zone name to the
    DataFrame it returned).  An entry of the memo table lives until it
    expires or [st.cache_data.clear()] runs; both are [cache_clear]. *)
Record World := {
  sheets : gmap string (list ActivityRow);
  cache : gmap string (list ActivityRow)
}.

(** A computation on the spreadsheet that may raise: the state it leaves
    and, unless it raised, its value. *)
Definition IO (A : Type) : Type := World -> option A * World.

Definition ret {A : Type} (a : A) : IO A := fun w => (Some a, w).

Definition bind {A B : Type} (m : IO A) (k : A -> IO B) : IO B :=
  fun w => match m w with
           | (Some a, w') => k a w'
           | (None, w') => (None, w')
           end.

(** a pure step that may raise *)
Definition lift {A : Type} (o : option A) : IO A := fun w => (o, w).

Notation "'let*' x := m 'in' k" := (bind m (fun x => k))
  (at level 10, x name, m at level 100, k at level 200).

(** [try: ... except Exception: return False] around a body *)
Definition try_except (body : IO bool) (w : World) : bool * World :=
  match body w with
  | (Some b, w') => (b, w')
  | (None, w') => (false, w')
  end.

Definition cache_clear (w : World) : World :=
  {| sheets := sheets w; cache := ∅ |}.

Module AppFinal.

(** What [load_zone_data] builds from the sheet itself: no rows for a
    missing or empty sheet, and the rows with an empty 날짜 cell dropped. *)
Definition read_worksheet (w : World) (zone_name : string) : list ActivityRow :=
  match sheets w !! zone_name with
  | None => []
  | Some data => List.filter (fun r => negb (String.eqb (r_date r) "")) data
  end.

Definition load_zone_data (zone_name : string) : IO (list ActivityRow) :=
  fun w =>
    match cache w !! zone_name with
    | Some df => (Some df, w)
    | None =>
        let df := read_worksheet w zone_name in
        (Some df, {| sheets := sheets w; cache := <[zone_name := df]> (cache w) |})
    end.

(** [worksheet.clear()] then [worksheet.update(header + rows)] *)
Definition save_zone_data (zone_name : string) (df : list ActivityRow) : IO bool :=
  fun w => (Some true, {| sheets := <[zone_name := df]> (sheets w); cache := cache w |}).

(** The normalisation of [target_month] at the head of
    [create_monthly_records]. *)
Definition normalize_month (target_month : string) : option string :=
  if Py.contains "년" target_month then
    match Py.split_item1 "년 " target_month with
    | None => None
    | Some piece => Some (Py.strip (Py.replace_empty "월" piece) ++ "월")
    end
  else
    Some (if Py.endswith target_month "월" then target_month else target_month ++ "월").

(** [lambda x: int(x.replace('월', '')) if isinstance(x, str) and '월' in x else 0] *)
Definition month_sort_key (x : string) : option Z :=
  if Py.contains "월" x then Py.int (Py.replace_empty "월" x) else Some 0%Z.

(** [df['_sort_key'] = df['날짜'].apply(...)]: every row with its key,
    or the ValueError of a label that is no number *)
Fixpoint with_sort_key (df : list ActivityRow) : option (list (Z * ActivityRow)) :=
  match df with
  | [] => Some []
  | r :: df' =>
      match month_sort_key (r_date r), with_sort_key df' with
      | Some k, Some rest => Some ((k, r) :: rest)
      | _, _ => None
      end
  end.

Definition key_leb (a b : Z * ActivityRow) : bool := (fst a <=? fst b)%Z.

(** add the key column, [sort_values('_sort_key', ascending=False)], drop it *)
Definition sort_by_month (df : list ActivityRow) : option (list ActivityRow) :=
  option_map (fun keyed => map snd (Py.sort_values_desc key_leb keyed)) (with_sort_key df).

Definition new_record (date_str : string) (member : Member) : ActivityRow :=
  {| r_date := date_str; r_name := m_name member; r_role := m_role member;
     r_status := m_status member; r_flags := zero_flags |}.

(** The body of the loop [for zone in zones] of [create_monthly_records]. *)
Definition provision_zone (filtered_df : list Member) (date_str : string)
    (success_count : Z) (zone : string) : IO Z :=
  if String.eqb zone "" then ret success_count
  else
    let zone_members :=
      List.filter (fun m => String.eqb (m_zone m) zone && String.eqb (m_status m) "재적")
                  filtered_df in
    match zone_members with
    | [] => ret success_count
    | _ :: _ =>
        let* existing_df := load_zone_data zone in
        let new_df := map (new_record date_str) zone_members in
        let combined_df :=
          match existing_df with
          | [] => new_df
          | _ :: _ => (new_df ++ existing_df)%list
          end in
        let* combined_df := lift (sort_by_month combined_df) in
        let* saved := save_zone_data zone combined_df in
        ret (if saved then (success_count + 1)%Z else success_count)
    end.

Fixpoint for_zones (body : Z -> string -> IO Z) (success_count : Z) (zones : list string)
    : IO Z :=
  match zones with
  | [] => ret success_count
  | zone :: rest => let* n := body success_count zone in for_zones body n rest
  end.

Definition create_monthly_records (master_df : list Member) (target_month : string)
    (region_filter : string) : World -> bool * World :=
  try_except
    (let* date_str := lift (normalize_month target_month) in
     let filtered_df :=
       if negb (String.eqb region_filter "전체")
       then List.filter (fun m => String.eqb (m_region m) region_filter) master_df
       else master_df in
     let zones := Py.unique (map m_zone filtered_df) in
     let* success_count := for_zones (provision_zone filtered_df date_str) 0%Z zones in
     ret (0 <? success_count)%Z).

(** The handler of the button of [render_monthly_generation_tab]: on
    success the read cache is cleared before the page is run again. *)
Definition monthly_generation_button (master_df : list Member) (target_month : string)
    (region_filter : string) (w : World) : World :=
  match create_monthly_records master_df target_month region_filter w with
  | (true, w') => cache_clear w'
  | (false, w') => w'
  end.

(** [old_df.loc[old_df['이름'] == member_name, '상태'] = '제외'] *)
Definition exclude (member_name : string) (r : ActivityRow) : ActivityRow :=
  if String.eqb (r_name r) member_name
  then {| r_date := r_date r; r_name := r_name r; r_role := r_role r;
          r_status := "제외"; r_flags := r_flags r |}
  else r.

(** the 날짜 of the first row that has the largest key ([idxmax]) *)
Fixpoint first_max (best : Z * ActivityRow) (keyed : list (Z * ActivityRow))
    : Z * ActivityRow :=
  match keyed with
  | [] => best
  | kr :: rest => if (fst best <? fst kr)%Z then first_max kr rest else first_max best rest
  end.

Definition latest_date (keyed : list (Z * ActivityRow)) : string :=
  match keyed with
  | [] => ""
  | kr :: rest => r_date (snd (first_max kr rest))
  end.

Definition is_member_at (latest member_name : string) (r : ActivityRow) : bool :=
  String.eqb (r_date r) latest && String.eqb (r_name r) member_name.

(** the test [old_zone and old_zone != new_zone] *)
Definition zone_changed (old_zone : option string) (new_zone : string) : option string :=
  match old_zone with
  | Some oz => if negb (String.eqb oz "") && negb (String.eqb oz new_zone) then Some oz else None
  | None => None
  end.

(** The block "이전 구역에서 제외 처리" of [sync_member_to_zones]. *)
Definition exclude_from_old_zone (member_name new_zone : string)
    (old_zone : option string) : IO bool :=
  match zone_changed old_zone new_zone with
  | Some oz =>
      let* old_df := load_zone_data oz in
      match old_df with
      | [] => ret true
      | _ :: _ => save_zone_data oz (map (exclude member_name) old_df)
      end
  | None => ret true
  end.

(** the record [new_record] that [sync_member_to_zones] appends *)
Definition fresh_record (latest member_name : string) (member_info : Member) : ActivityRow :=
  {| r_date := latest; r_name := member_name; r_role := m_role member_info;
     r_status := "재적"; r_flags := zero_flags |}.

(** The block "새 구역에 추가 (가장 최근 월 데이터에)" of
    [sync_member_to_zones]. *)
Definition add_to_new_zone (member_info : Member) (member_name new_zone : string)
    : IO bool :=
  let* new_df := load_zone_data new_zone in
  match new_df with
  | [] => ret true
  | _ :: _ =>
      let* keyed := lift (with_sort_key new_df) in
      let latest := latest_date keyed in
      match List.filter (is_member_at latest member_name) new_df with
      | [] =>
          save_zone_data new_zone
            (new_df ++ [fresh_record latest member_name member_info])%list
      | _ :: _ => ret true
      end
  end.

Definition sync_member_to_zones (master_df : list Member) (member_name new_zone : string)
    (old_zone : option string) : World -> bool * World :=
  try_except
    (let* member_info :=
       lift (head (List.filter (fun m => String.eqb (m_name m) member_name) master_df)) in
     let* _ := exclude_from_old_zone member_name new_zone old_zone in
     let* _ := add_to_new_zone member_info member_name new_zone in
     ret true).

(** *** Aggregation of [app_final.py] *)

Definition column_sum (col : Flags -> Z) (df : list ActivityRow) : Z :=
  Py.sumZ (map (fun r => col (r_flags r)) df).

(** An entry of the [indicators] dict of [calculate_zone_summary]:
    [sum / total_members * 100 if total_members > 0 else 0]. *)
Definition indicator_rate (flag_sum total_members : Z) : option Q :=
  if (0 <? total_members)%Z
  then Py.times100 (Py.true_divide (inject_Z flag_sum) (inject_Z total_members))
  else Some 0%Q.

(** [calculate_zone_summary] of [app_final.py].  The outer [None] is an
    exception; [Some None] is the [None] the function returns when there
    is no data. *)
Definition calculate_zone_summary (zone_df : list ActivityRow)
    (month zone_name region : string) : option (option ZoneSummary) :=
  match zone_df with
  | [] => Some None
  | _ :: _ =>
      match List.filter (fun r => String.eqb (r_date r) month) zone_df with
      | [] => Some None
      | (_ :: _) as month_df =>
          match List.filter (fun r => String.eqb (r_status r) "재적") month_df with
          | [] => Some None
          | (_ :: _) as active_df =>
              let leader :=
                map r_name
                    (List.filter (fun r => Py.isin (r_role r) ["리더"; "구역장"; "간사"])
                                 active_df) in
              let leader_name := match leader with n :: _ => n | [] => "-" end in
              let total_members := Z.of_nat (List.length active_df) in
              let indicator col := indicator_rate (column_sum col active_df) total_members in
              overall ← Py.round_int (indicator f_overall);
              inperson ← Py.round_int (indicator f_inperson);
              mysim ← Py.round_int (indicator f_mysim);
              ongoing ← Py.round_int (indicator f_ongoing);
              outreach ← Py.round_int (indicator f_outreach);
              hanja ← Py.round_int (indicator f_outreach);
              tithe ← Py.round_int (indicator f_tithe);
              Some (Some {| s_region := region;
                            s_zone := zone_name;
                            s_leader := leader_name;
                            s_members := total_members;
                            s_overall := overall;
                            s_inperson := inperson;
                            s_mysim := mysim;
                            s_ongoing := ongoing;
                            s_outreach := outreach;
                            s_hanja := hanja;
                            s_tithe := tithe |})
          end
      end
  end.

(** The row [total_row] of [render_scoreboard_tab] (지역 총합), with the
    percentages as the integers that are printed. *)
Record TotalRow := {
  t_zone : string;
  t_members : Z;
  t_overall : Z;
  t_inperson : Z;
  t_mysim : Z;
  t_ongoing : Z;
  t_outreach : Z;
  t_hanja : Z;
  t_tithe : Z
}.

(** [region_df[col].mean()] *)
Definition column_mean (col : ZoneSummary -> Z) (region_df : list BoardRow) : Q :=
  Py.mean (map (fun r => col (b_summary r)) region_df).

Definition total_row (region : string) (region_df : list BoardRow) : TotalRow :=
  {| t_zone := region ++ "지역 총합";
     t_members := Py.sumZ (map (fun r => s_members (b_summary r)) region_df);
     t_overall := Py.trunc (column_mean s_overall region_df);
     t_inperson := Py.trunc (column_mean s_inperson region_df);
     t_mysim := Py.trunc (column_mean s_mysim region_df);
     t_ongoing := Py.trunc (column_mean s_ongoing region_df);
     t_outreach := Py.trunc (column_mean s_outreach region_df);
     t_hanja := Py.trunc (column_mean s_hanja region_df);
     t_tithe := Py.trunc (column_mean s_tithe region_df) |}.

(** The loop [for region in sorted(regions)] of [render_scoreboard_tab],
    keeping the total row of every region that is shown. *)
Definition region_totals (summary_df : list BoardRow) : list TotalRow :=
  flat_map
    (fun region =>
       match Scoring.region_rows summary_df region with
       | [] => []
       | (_ :: _) as region_df => [total_row region region_df]
       end)
    (Py.sort_asc String.leb (Py.unique (map (fun r => s_region (b_summary r)) summary_df))).

(** [zone_region_map] of [render_scoreboard_tab] *)
Definition zone_region_map : gmap string string :=
  list_to_map
    [("1구역", "도원"); ("2구역", "도원"); ("3구역", "도원"); ("4구역", "도원");
     ("5구역", "새신"); ("6구역", "새신"); ("7구역", "새신");
     ("8구역", "청암"); ("9구역", "청암")].

(** the loop of [render_scoreboard_tab] that fills [summary_list] *)
Fixpoint summary_list (all_zones : list string) (selected_month : string)
    : IO (list ZoneSummary) :=
  match all_zones with
  | [] => ret []
  | zone :: rest =>
      let* zone_df := load_zone_data zone in
      match zone_df with
      | [] => summary_list rest selected_month
      | _ :: _ =>
          let region := default "기타" (zone_region_map !! zone) in
          let* summary := lift (calculate_zone_summary zone_df selected_month zone region) in
          let* summaries := summary_list rest selected_month in
          ret (match summary with
               | Some s => s :: summaries
               | None => summaries
               end)
      end
  end.

(** the frame [summary_df] of [render_scoreboard_tab] after the ranking
    step (no frame when there is no summary) *)
Definition scoreboard (all_zones : list string) (selected_month : string)
    (weights : gmap string Q) : IO (list BoardRow) :=
  let* summaries := summary_list all_zones selected_month in
  match summaries with
  | [] => ret []
  | _ :: _ =>
      let* summary_df := lift (Scoring.add_scores summaries weights) in
      ret (Scoring.rank_zones summary_df)
  end.

(** an entry of [actual_numbers] of [render_scoreboard_tab]:
    [int(region_df['재적'].sum() * region_df[col].mean() / 100)] *)
Definition actual_number (col : ZoneSummary -> Z) (region_df : list BoardRow) : Z :=
  Py.trunc (inject_Z (Py.sumZ (map (fun r => s_members (b_summary r)) region_df))
            * column_mean col region_df / 100).

(** *** The month lists and the editing tabs of [app_final.py] *)

(** the inner loop of [get_available_months]:
    [if isinstance(date_val, str) and '월' in date_val: all_dates.add(date_val)] *)
Definition add_month_labels (all_dates : gset string) (data : list ActivityRow)
    : gset string :=
  fold_left (fun acc date_val => if Py.contains "월" date_val then {[ date_val ]} ∪ acc else acc)
            (map r_date data) all_dates.

(** The loop over the zones of [get_available_months].  It reads the
    sheets themselves (not the frames of the read cache); a zone without
    a name and a zone without a sheet are passed over. *)
Fixpoint collect_months (w : World) (all_zones : list string) (all_dates : gset string)
    : gset string :=
  match all_zones with
  | [] => all_dates
  | zone :: rest =>
      if String.eqb zone "" then collect_months w rest all_dates
      else match sheets w !! zone with
           | None => collect_months w rest all_dates
           | Some data => collect_months w rest (add_month_labels all_dates data)
           end
  end.

(** the sort key [lambda x: int(x.replace('월', ''))] *)
Definition month_number (x : string) : option Z := Py.int (Py.replace_empty "월" x).

(** every label with its key, or the ValueError of a label that is no
    number *)
Fixpoint with_month_number (labels : list string) : option (list (Z * string)) :=
  match labels with
  | [] => Some []
  | x :: labels' =>
      match month_number x, with_month_number labels' with
      | Some k, Some rest => Some ((k, x) :: rest)
      | _, _ => None
      end
  end.

Definition number_leb (a b : Z * string) : bool := (fst a <=? fst b)%Z.

(** [get_available_months]: the labels of the set in the order
    [sorted(..., key=..., reverse=True)] gives them, a stable sort; the
    order in which a set hands out its elements is that of [elements].
    A ValueError of the key is caught by the outer handler, which
    returns the empty list. *)
Definition get_available_months (w : World) (all_zones : list string) : list string :=
  let all_dates := collect_months w all_zones ∅ in
  match elements all_dates with
  | [] => []
  | (_ :: _) as labels =>
      match with_month_number labels with
      | Some keyed => map snd (Py.sort_values_desc number_leb keyed)
      | None => []
      end
  end.

(** The save handler of [render_data_input_tab], from the load of the
    zone's frame on.  [editor] is what the user does to the rows of the
    month in the data editor.  The value tells whether a sheet was
    saved; a label that is no month number raises in the sort. *)
Definition render_data_input_save (selected_zone selected_month : string)
    (editor : list ActivityRow -> list ActivityRow) : IO bool :=
  let* zone_df := load_zone_data selected_zone in
  match zone_df with
  | [] => ret false
  | _ :: _ =>
      match List.filter (fun r => String.eqb (r_date r) selected_month) zone_df with
      | [] => ret false
      | (_ :: _) as month_df =>
          let edited_df := editor month_df in
          let zone_df_updated :=
            (List.filter (fun r => negb (String.eqb (r_date r) selected_month)) zone_df
             ++ edited_df)%list in
          let* zone_df_updated := lift (sort_by_month zone_df_updated) in
          let* saved := save_zone_data selected_zone zone_df_updated in
          if saved then (fun w => (Some true, cache_clear w)) else ret false
      end
  end.

(** [render_zone_detail_tab]: the label of the month the selected month
    is compared with; [None] is the ValueError of [int] *)
Definition previous_month (selected_month : string) : option string :=
  match Py.int (Py.replace_empty "월" selected_month) with
  | None => None
  | Some current_month_num =>
      let previous_month_num := (current_month_num - 1)%Z in
      let previous_month_num :=
        if (previous_month_num <? 1)%Z then 12%Z else previous_month_num in
      Some (pretty previous_month_num ++ "월")
  end.

(** the columns of the roster, the index of a row of [edited_df] *)
Definition roster_columns : list string := ["이름"; "지역"; "구역"; "직분"; "상태"; "입회일"].

Definition member_eqb (a b : Member) : bool :=
  String.eqb (m_name a) (m_name b) && String.eqb (m_region a) (m_region b)
  && String.eqb (m_zone a) (m_zone b) && String.eqb (m_role a) (m_role b)
  && String.eqb (m_status a) (m_status b) && String.eqb (m_joined a) (m_joined b).

(** [master_df.equals(edited_df)] *)
Fixpoint roster_equals (master_df edited_df : list Member) : bool :=
  match master_df, edited_df with
  | [], [] => true
  | a :: master_df', b :: edited_df' => member_eqb a b && roster_equals master_df' edited_df'
  | _, _ => false
  end.

(** The body of the loop of the save handler of
    [render_member_management_tab], for a row of the edited roster and
    the row of the old roster at its position:
    [if 'name' in row and row['이름'] == old_row['이름']: if row['구역'] != old_row['구역']: sync_member_to_zones(...)].
    ['name' in row] asks whether the row has a column of that name. *)
Definition sync_if_moved (edited_df : list Member) (w : World) (rows : Member * Member)
    : World :=
  let old_row := fst rows in
  let row := snd rows in
  if Py.isin "name" roster_columns && String.eqb (m_name row) (m_name old_row)
  then
    if negb (String.eqb (m_zone row) (m_zone old_row))
    then snd (sync_member_to_zones edited_df (m_name row) (m_zone row)
                (Some (m_zone old_row)) w)
    else w
  else w.

(** The save handler of [render_member_management_tab], as far as the
    zone sheets and the read cache go (the roster itself is written to
    [Record_DB], which is no zone sheet). *)
Definition save_roster (master_df edited_df : list Member) (w : World) : World :=
  cache_clear
    (if negb (roster_equals master_df edited_df)
     then fold_left (sync_if_moved edited_df) (combine master_df edited_df) w
     else w).

End AppFinal.

(** ** [app_v2.py] *)

Module AppV2.

Definition column_sum (col : Flags -> Z) (df : list DatedRow) : Z :=
  Py.sumZ (map (fun r => col (d_flags r)) df).

Definition in_month (y m : Z) (r : DatedRow) : bool :=
  match d_date r with
  | Some d => (year d =? y)%Z && (month d =? m)%Z
  | None => false
  end.

(** [calculate_zone_summary] of [app_v2.py].  The outer [None] is an
    exception (for one, [month] is not of the form "<year>년 <month>월");
    [Some None] is the [None] the function returns when there is no
    data. *)
Definition calculate_zone_summary (zone_df : list DatedRow)
    (month zone_name region : string) : option (option ZoneSummary) :=
  match zone_df with
  | [] => Some None
  | _ :: _ =>
      match Py.split_pair "년 " month with
      | None => None
      | Some (year_s, month_num) =>
          let month_num := Py.strip (Py.replace_empty "월" month_num) in
          match Py.int year_s, Py.int month_num with
          | Some y, Some m =>
              match List.filter (in_month y m) zone_df with
              | [] => Some None
              | (_ :: _) as month_df =>
                  match List.filter (fun r => String.eqb (d_status r) "재적") month_df with
                  | [] => Some None
                  | (_ :: _) as active_df =>
                      let leader :=
                        map d_name
                            (List.filter
                               (fun r => Py.isin (d_role r) ["리더"; "구역장"; "간사"])
                               active_df) in
                      let leader_name := match leader with n :: _ => n | [] => "-" end in
                      let total_members :=
                        Z.of_nat (List.length (Py.unique (map d_name active_df))) in
                      let indicator col :=
                        Py.times100
                          (Py.true_divide (inject_Z (column_sum col active_df))
                                          (inject_Z total_members)) in
                      let han_ja_rate := indicator f_outreach in
                      overall ← Py.round_int (indicator f_overall);
                      inperson ← Py.round_int (indicator f_inperson);
                      mysim ← Py.round_int (indicator f_mysim);
                      ongoing ← Py.round_int (indicator f_ongoing);
                      outreach ← Py.round_int (indicator f_outreach);
                      hanja ← Py.round_int han_ja_rate;
                      tithe ← Py.round_int (indicator f_tithe);
                      Some (Some
                        {| s_region := region;
                           s_zone := zone_name;
                           s_leader := leader_name;
                           s_members := total_members;
                           s_overall := overall;
                           s_inperson := inperson;
                           s_mysim := mysim;
                           s_ongoing := ongoing;
                           s_outreach := outreach;
                           s_hanja := hanja;
                           s_tithe := tithe |})
                  end
              end
          | _, _ => None
          end
      end
  end.

(** A row of [region_summary] in [render_monthly_summary_table]:
    [groupby('지역').agg(...)] followed by [round(1)]. *)
Record RegionSummary := {
  g_region : string;
  g_members : Z;
  g_overall : Q;
  g_inperson : Q;
  g_mysim : Q;
  g_ongoing : Q;
  g_outreach : Q;
  g_tithe : Q;
  g_score : Q
}.

Definition group_mean (col : ZoneSummary -> Z) (group : list BoardRow) : Q :=
  Py.round1 (Py.mean (map (fun r => col (b_summary r)) group)).

Definition region_group (region : string) (group : list BoardRow) : RegionSummary :=
  {| g_region := region;
     g_members := Py.sumZ (map (fun r => s_members (b_summary r)) group);
     g_overall := group_mean s_overall group;
     g_inperson := group_mean s_inperson group;
     g_mysim := group_mean s_mysim group;
     g_ongoing := group_mean s_ongoing group;
     g_outreach := group_mean s_outreach group;
     g_tithe := group_mean s_tithe group;
     g_score := Py.round1 (Py.meanQ (map b_score group)) |}.

(** one row per region, the regions in ascending order *)
Definition region_summary (summary_df : list BoardRow) : list RegionSummary :=
  map (fun region => region_group region (Scoring.region_rows summary_df region))
      (Py.sort_asc String.leb (Py.unique (map (fun r => s_region (b_summary r)) summary_df))).

End AppV2.

(** ** [app.py] *)

Module App.

Definition pad2 (n : Z) : string :=
  if (0 <=? n)%Z && (n <? 10)%Z then "0" ++ pretty n else pretty n.

(** [strftime('%Y년 %m월')] *)
Definition strftime_month (d : Date) : string :=
  pretty (year d) ++ "년 " ++ pad2 (month d) ++ "월".

(** [strftime('%Y-%m-%d')] *)
Definition strftime_day (d : Date) : string :=
  pretty (year d) ++ "-" ++ pad2 (month d) ++ "-" ++ pad2 (day d).

(** [filter_data(df, month, region, zone)]; [month] is [None] when the
    sidebar has no month to offer. *)
Definition filter_data (df : list FlatRow) (month : option string)
    (region zone : string) : list FlatRow :=
  let by_month :=
    match month, df with
    | Some m, _ :: _ =>
        if String.eqb m "" then df
        else List.filter
               (fun r => match x_date r with
                         | Some d => String.eqb (strftime_month d) m
                         | None => false
                         end) df
    | _, _ => df
    end in
  let by_region :=
    if negb (String.eqb region "전체")
    then List.filter (fun r => String.eqb (x_region r) region) by_month
    else by_month in
  if negb (String.eqb zone "전체")
  then List.filter (fun r => String.eqb (x_zone r) zone) by_region
  else by_region.

Definition is_active (r : FlatRow) : bool := String.eqb (x_status r) "재적".

Definition calculate_active_members (df : list FlatRow) : Z :=
  match df with
  | [] => 0%Z
  | _ :: _ => Z.of_nat (List.length (Py.unique (map x_name (List.filter is_active df))))
  end.

Definition column_sum (col : Flags -> Z) (df : list FlatRow) : Z :=
  Py.sumZ (map (fun r => col (x_flags r)) df).

(** [calculate_attendance_rate]; the value is a float, [None] if it is
    nan or inf. *)
Definition calculate_attendance_rate (df : list FlatRow) : option Q :=
  match df with
  | [] => Some 0%Q
  | _ :: _ =>
      match List.filter is_active df with
      | [] => Some 0%Q
      | (_ :: _) as active_df =>
          Py.times100
            (Py.true_divide (inject_Z (column_sum f_overall active_df))
                            (inject_Z (Z.of_nat (List.length active_df))))
      end
  end.

Definition calculate_evangelism_rate (df : list FlatRow) : option Q :=
  match df with
  | [] => Some 0%Q
  | _ :: _ =>
      match List.filter is_active df with
      | [] => Some 0%Q
      | (_ :: _) as active_df =>
          Py.times100
            (Py.true_divide (inject_Z (column_sum f_outreach active_df))
                            (inject_Z (Z.of_nat (List.length active_df))))
      end
  end.

Definition date_leb (a b : Date) : bool :=
  (year a <? year b)%Z
  || ((year a =? year b)%Z
      && ((month a <? month b)%Z
          || ((month a =? month b)%Z && (day a <=? day b)%Z))).

Definition row_date_leb (a b : Date * FlatRow) : bool := date_leb (fst a) (fst b).

(** the rows that have a date, each with its date *)
Fixpoint dated (df : list FlatRow) : list (Date * FlatRow) :=
  match df with
  | [] => []
  | r :: df' =>
      match x_date r with
      | Some d => (d, r) :: dated df'
      | None => dated df'
      end
  end.

(** [df.sort_values('날짜', ascending=False)['날짜']]: the dates, latest
    first, the rows without a date (NaT) last *)
Definition dates_latest_first (df : list FlatRow) : list (option Date) :=
  (map (fun dr => Some (fst dr)) (Py.sort_values_desc row_date_leb (dated df))
   ++ map x_date (List.filter (fun r => match x_date r with None => true | Some _ => false end) df))%list.

(** A row of the table of absentees (미참석자 명단): 이름, 지역, 구역, 직분,
    최근 출석일. *)
Record MissingEntry := {
  e_name : string;
  e_region : string;
  e_zone : string;
  e_role : string;
  e_last_attendance : string
}.

(** What [render_missing_sheep] shows: a notice that there is no data, a
    notice that everybody attended, or the table of absentees. *)
Inductive MissingView :=
| NoData
| AllAttended
| MissingTable (missing_list : list MissingEntry).

(** the 최근 출석일 cell for one absentee, computed from [df]; [None] is the
    ValueError of [NaT.strftime] *)
Definition last_attendance (df : list FlatRow) (row : FlatRow) : option string :=
  let person_history :=
    List.filter (fun r => String.eqb (x_name r) (x_name row)
                          && (f_overall (x_flags r) =? 1)%Z) df in
  match dates_latest_first person_history with
  | [] => Some "기록 없음"
  | Some d :: _ => Some (strftime_day d)
  | None :: _ => None
  end.

Fixpoint missing_entries (df : list FlatRow) (missing : list FlatRow)
    : option (list MissingEntry) :=
  match missing with
  | [] => Some []
  | row :: rest =>
      match last_attendance df row, missing_entries df rest with
      | Some last, Some entries =>
          Some ({| e_name := x_name row; e_region := x_region row; e_zone := x_zone row;
                   e_role := x_role row; e_last_attendance := last |} :: entries)
      | _, _ => None
      end
  end.

Definition render_missing_sheep (df : list FlatRow) : option MissingView :=
  match df with
  | [] => Some NoData
  | _ :: _ =>
      let active_df := List.filter is_active df in
      match List.filter (fun r => (f_overall (x_flags r) =? 0)%Z) active_df with
      | [] => Some AllAttended
      | (_ :: _) as missing => option_map MissingTable (missing_entries df missing)
      end
  end.

(** The second tab of [main]: the absentees are computed from
    [filtered_df = filter_data(df, selected_month, selected_region, selected_zone)]. *)
Definition main_missing_sheep (df : list FlatRow) (selected_month : option string)
    (selected_region selected_zone : string) : option MissingView :=
  render_missing_sheep (filter_data df selected_month selected_region selected_zone).

(** *** The ranking of [app.py] *)

(** the flag columns in the order of the list [indicators] *)
Definition flag_columns : list (Flags -> Z) :=
  [f_overall; f_inperson; f_mysim; f_ongoing; f_outreach; f_tithe].

(** A row of [zone_stats], the frame [calculate_zone_scores] returns:
    the index 구역, 재적수, the six sums, the six _비율 columns, 종합점수,
    순위 and 지역.  A cell that holds a float is an [option Q], with
    [None] for nan and inf. *)
Record ZoneScore := {
  z_zone : string;
  z_count : Z;
  z_sums : list Z;
  z_rates : list (option Q);
  z_score : option Q;
  z_rank : option Z;
  z_region : string
}.

(** [zone_stats['종합점수'] += zone_stats[f'{ind}_비율'] * weight] with
    [weight = weights.get(ind, 0) / 100] *)
Definition score_add (weights : gmap string Q) (score : option Q)
    (ind_rate : string * option Q) : option Q :=
  match score, snd ind_rate with
  | Some sc, Some rate => Some (sc + rate * (default 0 (weights !! fst ind_rate) / 100))%Q
  | _, _ => None
  end.

(** the row of [zone_stats] for one group of [groupby('구역')] *)
Definition zone_stat (weights : gmap string Q) (active_df : list FlatRow) (zone : string)
    : ZoneScore :=
  let group := List.filter (fun r => String.eqb (x_zone r) zone) active_df in
  let count := Z.of_nat (List.length group) in
  let sums := map (fun col => column_sum col group) flag_columns in
  let rates :=
    map (fun s => option_map Py.round1
                    (Py.times100 (Py.true_divide (inject_Z s) (inject_Z count))))
        sums in
  let score := fold_left (score_add weights) (combine Scoring.indicators rates) (Some 0%Q) in
  {| z_zone := zone;
     z_count := count;
     z_sums := sums;
     z_rates := rates;
     z_score := option_map Py.round1 score;
     z_rank := None;
     z_region := match group with r :: _ => x_region r | [] => "" end |}.

Definition stat_leb (a b : Q * ZoneScore) : bool := Qle_bool (fst a) (fst b).

(** the rows that have a score, each with its score *)
Fixpoint scored (zone_stats : list ZoneScore) : list (Q * ZoneScore) :=
  match zone_stats with
  | [] => []
  | z :: rest =>
      match z_score z with
      | Some q => (q, z) :: scored rest
      | None => scored rest
      end
  end.

(** [zone_stats.sort_values('종합점수', ascending=False)]: the rows
    without a score (nan) come last *)
Definition sort_by_score (zone_stats : list ZoneScore) : list ZoneScore :=
  (map snd (Py.sort_values_desc stat_leb (scored zone_stats))
   ++ List.filter (fun z => match z_score z with None => true | Some _ => false end)
                  zone_stats)%list.

Definition set_rank (i : nat) (z : ZoneScore) : ZoneScore :=
  {| z_zone := z_zone z; z_count := z_count z; z_sums := z_sums z; z_rates := z_rates z;
     z_score := z_score z; z_rank := Some (Z.of_nat i); z_region := z_region z |}.

(** [zone_stats['순위'] = range(1, len(zone_stats) + 1)], from [i] on *)
Fixpoint rank_from (i : nat) (zone_stats : list ZoneScore) : list ZoneScore :=
  match zone_stats with
  | [] => []
  | z :: rest => set_rank i z :: rank_from (S i) rest
  end.

(** [calculate_zone_scores]; the groups of [groupby] come in ascending
    order of the zone label *)
Definition calculate_zone_scores (df : list FlatRow) (weights : gmap string Q)
    : list ZoneScore :=
  match df with
  | [] => []
  | _ :: _ =>
      match List.filter is_active df with
      | [] => []
      | (_ :: _) as active_df =>
          let zone_stats :=
            map (zone_stat weights active_df)
                (Py.sort_asc String.leb (Py.unique (map x_zone active_df))) in
          rank_from 1 (sort_by_score zone_stats)
      end
  end.

(** *** Writing edits back, [app.py] *)

(** A row of the sheet [Record_DB] as [get_all_records] returns it: the
    날짜 cell is text. *)
Record SheetRow := {
  w_date : string;
  w_name : string;
  w_region : string;
  w_zone : string;
  w_role : string;
  w_status : string;
  w_flags : Flags
}.

(** a row of [df_to_update], whose 날짜 is the text [d] *)
Definition to_sheet_row (d : string) (r : FlatRow) : SheetRow :=
  {| w_date := d; w_name := x_name r; w_region := x_region r; w_zone := x_zone r;
     w_role := x_role r; w_status := x_status r; w_flags := x_flags r |}.

(** the [mask] of [update_data_to_gsheet] at a row of [all_df] *)
Definition matches (d : string) (r : FlatRow) (a : SheetRow) : bool :=
  String.eqb (w_date a) d && String.eqb (w_name a) (x_name r)
  && String.eqb (w_region a) (x_region r) && String.eqb (w_zone a) (x_zone r).

(** [if mask.any(): all_df.loc[all_df[mask].index[0]] = row] *)
Fixpoint replace_first (d : string) (r : FlatRow) (all_df : list SheetRow) : list SheetRow :=
  match all_df with
  | [] => []
  | a :: rest =>
      if matches d r a then to_sheet_row d r :: rest else a :: replace_first d r rest
  end.

(** One turn of the loop over the edited rows.  The 날짜 of a row
    without a date is NaN after [strftime], which equals no cell. *)
Definition update_row (all_df : list SheetRow) (r : FlatRow) : list SheetRow :=
  match x_date r with
  | Some d => replace_first (strftime_day d) r all_df
  | None => all_df
  end.

(** [update_data_to_gsheet]: the rows written back to the sheet, from
    the edited frame [df] and the rows [all_df] read from the sheet.
    (For a sheet without rows and an edited frame with rows the source
    raises on the missing 날짜 column and writes nothing; the rows of the
    sheet are the empty list then as well.) *)
Definition update_data_to_gsheet (df : list FlatRow) (all_df : list SheetRow)
    : list SheetRow :=
  fold_left update_row df all_df.

End App.

(** ** Vocabulary of the statements *)

(** the seven percentages of a summary *)
Definition summary_rates (s : ZoneSummary) : list Z :=
  [s_overall s; s_inperson s; s_mysim s; s_ongoing s; s_outreach s; s_hanja s; s_tithe s].

(** the six indicator rates of a summary, in the order of [Scoring.indicators] *)
Definition indicator_rates (s : ZoneSummary) : list Z :=
  [s_overall s; s_inperson s; s_mysim s; s_ongoing s; s_outreach s; s_tithe s].

(** A zone summary the engine produces: a value returned by one of the
    two [calculate_zone_summary] functions. *)
Inductive produced (s : ZoneSummary) : Prop :=
| produced_final (zone_df : list ActivityRow) (month zone_name region : string) :
    AppFinal.calculate_zone_summary zone_df month zone_name region = Some (Some s) ->
    produced s
| produced_v2 (zone_df : list DatedRow) (month zone_name region : string) :
    AppV2.calculate_zone_summary zone_df month zone_name region = Some (Some s) ->
    produced s.

(** The composite score as the specification words it: the sum over the
    six indicators of rate times weight over 100, rounded to one decimal
    place. *)
Definition composite_score_spec (rates : list Z) (ws : list Q) : Q :=
  Py.round1 (Py.sumQ (map (fun rw : Z * Q => (inject_Z (fst rw) * snd rw / 100)%Q)
                          (combine rates ws))).

(** The sum the loop of the score leaves in [score], written out for the
    six indicators 전체출결, 대면출결, 마이심, 상시활동, 전도, 십일조: from
    [0.0], one term [rate * (weight / 100)] after the other, every
    operation a binary64 operation. *)
Definition score_sum64 (s : ZoneSummary) (w1 w2 w3 w4 w5 w6 : float) : float :=
  (0 + Py.nearest_float (s_overall s) * (w1 / 100)
     + Py.nearest_float (s_inperson s) * (w2 / 100)
     + Py.nearest_float (s_mysim s) * (w3 / 100)
     + Py.nearest_float (s_ongoing s) * (w4 / 100)
     + Py.nearest_float (s_outreach s) * (w5 / 100)
     + Py.nearest_float (s_tithe s) * (w6 / 100))%float.

(** The formula of the specification evaluated in binary64 in the order
    of its words, [round(sum(rate * weight / 100), 1)]. *)
Definition score_as_worded64 (rates : list Z) (ws : list float) : float :=
  Py.float_round1
    (fold_left (fun acc rw => (acc + Py.nearest_float (fst rw) * snd rw / 100)%float)
               (combine rates ws) 0%float).

(** the weight of an indicator in a weight mapping that has it *)
Definition weight_of (weights : gmap string Q) (ind : string) : Q :=
  default 0%Q (weights !! ind).

(** every indicator with the same weight *)
Definition uniform_weights (w : Q) : gmap string Q :=
  list_to_map (map (fun ind => (ind, w)) Scoring.indicators).

(** a row of the score board without its rank *)
Definition unranked (r : BoardRow) : ZoneSummary * Q := (b_summary r, b_score r).

(** What [nargsort] gives for [ascending=False] whatever the sort kind:
    every position of the key column once, in an order in which the keys
    descend.  Nothing is said about positions with equal keys. *)
Definition argsort_desc (argsort : list Q -> list nat) : Prop :=
  forall keys : list Q,
    Permutation (argsort keys) (seq 0 (List.length keys))
    /\ StronglySorted (fun i j => (nth j keys 0 <= nth i keys 0)%Q) (argsort keys).

(** no two rows of the frame have the same score *)
Definition no_ties (df : list BoardRow) : Prop :=
  NoDupA Qeq (map b_score df).

(** The tie-break the specification asks of the ranking: of two rows with
    the same score, the one with the smaller zone label comes first
    (labels compared as Python compares [str]; on the UTF-8 bytes this is
    the order of the code points). *)
Definition ties_by_zone_label (out : list BoardRow) : Prop :=
  forall (i j : nat) (a b : BoardRow),
    (i < j)%nat -> nth_error out i = Some a -> nth_error out j = Some b ->
    (b_score a == b_score b)%Q ->
    String.leb (s_zone (b_summary a)) (s_zone (b_summary b)) = true.

(** The arithmetic mean of the rates of the zones, every zone counted
    once. *)
Definition unweighted_mean (rates : list Z) : Q :=
  (inject_Z (Py.sumZ rates) / inject_Z (Z.of_nat (List.length rates)))%Q.

(** The mean of the rates with every zone counted once per member. *)
Definition member_weighted_mean (rates counts : list Z) : Q :=
  (inject_Z (Py.sumZ (map (fun rc : Z * Z => (fst rc * snd rc)%Z) (combine rates counts)))
   / inject_Z (Py.sumZ counts))%Q.

(** the percentage columns of a summary: the seven the total row of
    [app_final.py] shows, and the six [app_v2.py] averages *)
Definition rate_columns : list (ZoneSummary -> Z) :=
  [s_overall; s_inperson; s_mysim; s_ongoing; s_outreach; s_hanja; s_tithe].

Definition indicator_columns : list (ZoneSummary -> Z) :=
  [s_overall; s_inperson; s_mysim; s_ongoing; s_outreach; s_tithe].

Definition column_of (col : ZoneSummary -> Z) (zones : list BoardRow) : list Z :=
  map (fun r => col (b_summary r)) zones.

Definition total_rates (t : AppFinal.TotalRow) : list Z :=
  [AppFinal.t_overall t; AppFinal.t_inperson t; AppFinal.t_mysim t; AppFinal.t_ongoing t;
   AppFinal.t_outreach t; AppFinal.t_hanja t; AppFinal.t_tithe t].

Definition group_rates (g : AppV2.RegionSummary) : list Q :=
  [AppV2.g_overall g; AppV2.g_inperson g; AppV2.g_mysim g; AppV2.g_ongoing g;
   AppV2.g_outreach g; AppV2.g_tithe g].

(** *** The spreadsheet seen through the read cache *)

(** the frame [load_zone_data] returns for a zone *)
Definition loaded (w : World) (zone : string) : list ActivityRow :=
  match cache w !! zone with
  | Some df => df
  | None => AppFinal.read_worksheet w zone
  end.

(** the state after a read of a zone: its frame is in the cache *)
Definition remember (zone : string) (w : World) : World :=
  {| sheets := sheets w; cache := <[zone := loaded w zone]> (cache w) |}.

(** the state after a sheet has been rewritten *)
Definition write (zone : string) (df : list ActivityRow) (w : World) : World :=
  {| sheets := <[zone := df]> (sheets w); cache := cache w |}.

(** every cached frame is what a read of the sheet would return now *)
Definition coherent (w : World) : Prop :=
  forall zone df, cache w !! zone = Some df -> df = AppFinal.read_worksheet w zone.

(** the rows of the sheet of a zone (none if there is no such sheet) *)
Definition table (w : World) (zone : string) : list ActivityRow :=
  default [] (sheets w !! zone).

(** the rows of a frame for a member in a period *)
Definition records_of (period member_name : string) (df : list ActivityRow)
    : list ActivityRow :=
  List.filter (AppFinal.is_member_at period member_name) df.

(** the state the block [exclude_from_old_zone] leaves, in terms of the
    frame it reads *)
Definition after_exclude (member_name new_zone : string) (old_zone : option string)
    (w : World) : World :=
  match AppFinal.zone_changed old_zone new_zone with
  | Some oz =>
      match loaded w oz with
      | [] => remember oz w
      | (_ :: _) as old_df => write oz (map (AppFinal.exclude member_name) old_df) (remember oz w)
      end
  | None => w
  end.

(** the outcome of the block [add_to_new_zone], in terms of the frame it
    reads *)
Definition after_add (member_info : Member) (member_name new_zone : string)
    (w : World) : option bool * World :=
  match loaded w new_zone with
  | [] => (Some true, remember new_zone w)
  | (_ :: _) as new_df =>
      match AppFinal.with_sort_key new_df with
      | None => (None, remember new_zone w)
      | Some keyed =>
          match records_of (AppFinal.latest_date keyed) member_name new_df with
          | [] =>
              (Some true,
               write new_zone
                 (new_df ++ [AppFinal.fresh_record (AppFinal.latest_date keyed)
                                                   member_name member_info])%list
                 (remember new_zone w))
          | _ :: _ => (Some true, remember new_zone w)
          end
      end
  end.

(** the active rows of a frame for a member in a period *)
Definition active_records_of (period member_name : string) (df : list ActivityRow)
    : list ActivityRow :=
  List.filter (fun r => String.eqb (r_status r) "재적") (records_of period member_name df).

(** a spreadsheet without sheets and an empty cache *)
Definition empty_world : World := {| sheets := ∅; cache := ∅ |}.

(** *** Rows and months of a zone sheet *)

(** the rows of a frame that carry a 날짜 label *)
Definition rows_of_month (label : string) (df : list ActivityRow) : list ActivityRow :=
  List.filter (fun r => String.eqb (r_date r) label) df.

(** In a sheet with the latest month on top, [a] may stand above [b]:
    both labels have a sort key and the key of [a] is not the smaller. *)
Definition not_before (a b : ActivityRow) : Prop :=
  match AppFinal.month_sort_key (r_date a), AppFinal.month_sort_key (r_date b) with
  | Some ka, Some kb => (kb <= ka)%Z
  | _, _ => False
  end.

(** the members of the roster that are active in a zone and lie in the
    selected region ("전체" selects every region) *)
Definition provisioned_members (master_df : list Member) (region_filter zone : string)
    : list Member :=
  List.filter
    (fun m => (String.eqb region_filter "전체" || String.eqb (m_region m) region_filter)
              && String.eqb (m_zone m) zone && String.eqb (m_status m) "재적")
    master_df.

(** *** The rows a summary is computed from *)

(** the rows [calculate_zone_summary] of [app_final.py] counts: the rows
    of the month that are active *)
Definition active_rows (month : string) (zone_df : list ActivityRow) : list ActivityRow :=
  List.filter (fun r => String.eqb (r_status r) "재적")
              (List.filter (fun r => String.eqb (r_date r) month) zone_df).

(** the share of the rows of a frame that have a flag, as a percentage
    rounded to an integer *)
Definition rounded_share (col : Flags -> Z) (active_df : list ActivityRow) : Z :=
  Py.round_half_even
    (inject_Z (AppFinal.column_sum col active_df)
     / inject_Z (Z.of_nat (List.length active_df)) * 100).

(** [v] is an integer nearest to the percentage [100 * sum / n] *)
Definition nearest_percent (sum n v : Z) : Prop :=
  (2 * Z.abs (v * n - 100 * sum) <= n)%Z.

(** the roles that make a member the leader of a zone *)
Definition leader_roles : list string := ["리더"; "구역장"; "간사"].

(** the name of the first row with a leader's role, "-" without one *)
Definition first_leader (active_df : list ActivityRow) : string :=
  match List.find (fun r => Py.isin (r_role r) leader_roles) active_df with
  | Some r => r_name r
  | None => "-"
  end.

(** the flag columns behind the seven percentages of a summary, in the
    order of [summary_rates] (한자율 is computed from 전도) *)
Definition rate_sources : list (Flags -> Z) :=
  [f_overall; f_inperson; f_mysim; f_ongoing; f_outreach; f_outreach; f_tithe].

(** *** The score board *)

(** the region [render_scoreboard_tab] files a zone under *)
Definition region_of (zone : string) : string :=
  default "기타" (AppFinal.zone_region_map !! zone).

(** the summaries the score board has for a month: that of every listed
    zone for which [calculate_zone_summary] returns one from the frame
    the cache serves, in the order of the list *)
Definition board_summaries (w : World) (month : string) (all_zones : list string)
    : list ZoneSummary :=
  flat_map
    (fun zone =>
       match AppFinal.calculate_zone_summary (loaded w zone) month zone (region_of zone) with
       | Some (Some s) => [s]
       | _ => []
       end)
    all_zones.

(** the zone has an active row in the month *)
Definition has_active_row (w : World) (month zone : string) : bool :=
  match active_rows month (loaded w zone) with
  | [] => false
  | _ :: _ => true
  end.

(** *** The flat table of [app.py] *)

(** a row passes the three filters of the sidebar; a filter set to
    "전체", no month and the empty month let every row pass *)
Definition passes (month : option string) (region zone : string) (r : FlatRow) : bool :=
  match month with
  | Some m =>
      String.eqb m ""
      || match x_date r with
         | Some d => String.eqb (App.strftime_month d) m
         | None => false
         end
  | None => true
  end
  && (String.eqb region "전체" || String.eqb (x_region r) region)
  && (String.eqb zone "전체" || String.eqb (x_zone r) zone).

(** the rows the table of absentees has a line for: active, 전체출결 0 *)
Definition absentees (df : list FlatRow) : list FlatRow :=
  List.filter (fun r => (f_overall (x_flags r) =? 0)%Z) (List.filter App.is_active df).

(** the rows of a frame in which a member is marked present *)
Definition attended_rows (df : list FlatRow) (member_name : string) : list FlatRow :=
  List.filter (fun r => String.eqb (x_name r) member_name && (f_overall (x_flags r) =? 1)%Z)
              df.

(** the columns of a line of the table of absentees that are copied from
    the row *)
Definition entry_identity (e : App.MissingEntry) : string * string * string * string :=
  (App.e_name e, App.e_region e, App.e_zone e, App.e_role e).

Definition row_identity (r : FlatRow) : string * string * string * string :=
  (x_name r, x_region r, x_zone r, x_role r).

(** the 최근 출석일 cell is right for a frame: "기록 없음" when the member
    is nowhere marked present, else the day of a row that marks the
    member present and that no other such row is later than *)
Definition latest_attendance_in (df : list FlatRow) (e : App.MissingEntry) : Prop :=
  match attended_rows df (App.e_name e) with
  | [] => App.e_last_attendance e = "기록 없음"
  | (_ :: _) as history =>
      exists r d,
        In r history /\ x_date r = Some d
        /\ App.e_last_attendance e = App.strftime_day d
        /\ Forall (fun r' => forall d', x_date r' = Some d' -> App.date_leb d' d = true)
                  history
  end.

(** *** Months of [app_v2.py] *)

(** the year and the month number [calculate_zone_summary] of
    [app_v2.py] reads from its [month] argument *)
Definition v2_month (month : string) : option (Z * Z) :=
  match Py.split_pair "년 " month with
  | None => None
  | Some (year_s, month_num) =>
      match Py.int year_s, Py.int (Py.strip (Py.replace_empty "월" month_num)) with
      | Some y, Some m => Some (y, m)
      | _, _ => None
      end
  end.

(** the rows [calculate_zone_summary] of [app_v2.py] counts *)
Definition v2_active_rows (y m : Z) (zone_df : list DatedRow) : list DatedRow :=
  List.filter (fun r => String.eqb (d_status r) "재적")
              (List.filter (AppV2.in_month y m) zone_df).

(** *** Month labels of the sheets *)

(** a 날짜 cell of a row of the sheet of a listed zone that has a name *)
Definition listed_label (w : World) (all_zones : list string) (label : string) : Prop :=
  exists (zone : string) (data : list ActivityRow) (r : ActivityRow),
    In zone all_zones /\ zone <> "" /\ sheets w !! zone = Some data
    /\ In r data /\ r_date r = label.

(** [a] may stand before [b] in a list of months with the latest first *)
Definition month_not_before (a b : string) : Prop :=
  match AppFinal.month_number a, AppFinal.month_number b with
  | Some ka, Some kb => (kb <= ka)%Z
  | _, _ => False
  end.

(** *** The ranking and the write-back of [app.py] *)

(** [a] may stand above [b] in a ranking: both have a score, and that of
    [a] is not the smaller *)
Definition outranks (a b : App.ZoneScore) : Prop :=
  match App.z_score a, App.z_score b with
  | Some sa, Some sb => (sb <= sa)%Q
  | _, _ => False
  end.

(** a cell holds a percentage *)
Definition is_percentage (rate : option Q) : Prop :=
  exists q, rate = Some q /\ (0 <= q <= 100)%Q.

(** the columns a row of [Record_DB] is found by *)
Definition sheet_key (a : App.SheetRow) : string * string * string * string :=
  (App.w_date a, App.w_name a, App.w_region a, App.w_zone a).

(** [b] is what the write-back can leave at the place of [a]: the row
    itself, or an edited row of [df] that has a date and the key of [a] *)
Definition written_over (df : list FlatRow) (a b : App.SheetRow) : Prop :=
  b = a
  \/ exists r d, In r df /\ x_date r = Some d
                 /\ App.matches (App.strftime_day d) r a = true
                 /\ b = App.to_sheet_row (App.strftime_day d) r.

(** ** Sample data *)

Definition flags (a b c d e f : Z) : Flags :=
  {| f_overall := a; f_inperson := b; f_mysim := c;
     f_ongoing := d; f_outreach := e; f_tithe := f |}.

(** the sheet of zone "3구역" for two months *)
Definition sample_zone_df : list ActivityRow :=
  [ {| r_date := "11월"; r_name := "김민준"; r_role := "리더"; r_status := "재적";
       r_flags := flags 1 1 1 0 1 1 |};
    {| r_date := "11월"; r_name := "이서윤"; r_role := "청년"; r_status := "재적";
       r_flags := flags 1 0 0 0 0 1 |};
    {| r_date := "11월"; r_name := "박지호"; r_role := "청년"; r_status := "재적";
       r_flags := flags 0 0 1 0 0 0 |};
    {| r_date := "11월"; r_name := "최하은"; r_role := "청년"; r_status := "제외";
       r_flags := flags 1 1 1 1 1 1 |};
    {| r_date := "10월"; r_name := "김민준"; r_role := "리더"; r_status := "재적";
       r_flags := flags 1 1 0 0 0 1 |};
    {| r_date := "10월"; r_name := "이서윤"; r_role := "청년"; r_status := "재적";
       r_flags := flags 0 0 0 0 0 0 |} ].

(** the flat table of [app.py]: one member, present in October and
    absent in November *)
Definition sample_flat_df : list FlatRow :=
  [ {| x_date := Some {| year := 2024; month := 10; day := 6 |}; x_name := "김민준";
       x_region := "도원"; x_zone := "3구역"; x_role := "청년"; x_status := "재적";
       x_flags := flags 1 1 0 0 0 0 |};
    {| x_date := Some {| year := 2024; month := 11; day := 3 |}; x_name := "김민준";
       x_region := "도원"; x_zone := "3구역"; x_role := "청년"; x_status := "재적";
       x_flags := flags 0 0 0 0 0 0 |} ].

(** a summary with every rate at 100 *)
Definition full_summary (zone_name : string) : ZoneSummary :=
  {| s_region := "도원"; s_zone := zone_name; s_leader := "-"; s_members := 4;
     s_overall := 100; s_inperson := 100; s_mysim := 100; s_ongoing := 100;
     s_outreach := 100; s_hanja := 100; s_tithe := 100 |}.

(** two zones with the same score, in the order of the roster *)
Definition tied_board : list BoardRow :=
  [ {| b_summary := full_summary "2구역"; b_score := 100; b_rank := None |};
    {| b_summary := full_summary "1구역"; b_score := 100; b_rank := None |} ].

(** three zones with three different scores *)
Definition three_scores : list BoardRow :=
  [ {| b_summary := full_summary "1구역"; b_score := 50; b_rank := None |};
    {| b_summary := full_summary "2구역"; b_score := 100; b_rank := None |};
    {| b_summary := full_summary "3구역"; b_score := 0; b_rank := None |} ].


Definition position_leb (a b : nat * Q) : bool := Qle_bool (snd a) (snd b).

(** an argsort that leaves equal keys in the order of the column *)
Definition stable_argsort (keys : list Q) : list nat :=
  map fst (Py.sort_values_desc position_leb (combine (seq 0 (List.length keys)) keys)).

(** an argsort that turns equal keys around *)
Definition reversing_argsort (keys : list Q) : list nat :=
  map fst (rev (Py.sort_asc position_leb (combine (seq 0 (List.length keys)) keys))).

(** a summary of a zone with the given size and the same rate in every
    column *)
Definition flat_summary (zone_name : string) (members rate : Z) : ZoneSummary :=
  {| s_region := "도원"; s_zone := zone_name; s_leader := "-"; s_members := members;
     s_overall := rate; s_inperson := rate; s_mysim := rate; s_ongoing := rate;
     s_outreach := rate; s_hanja := rate; s_tithe := rate |}.

(** a region with a zone of 2 members at 50% and a zone of 10 at 51% *)
Definition unequal_region : list BoardRow :=
  [ {| b_summary := flat_summary "1구역" 2 50; b_score := 50; b_rank := Some 2%Z |};
    {| b_summary := flat_summary "2구역" 10 51; b_score := 51; b_rank := Some 1%Z |} ].

(** the roster: four active members of zone "3구역" and one excluded *)
Definition sample_roster : list Member :=
  [ {| m_name := "김민준"; m_region := "도원"; m_zone := "3구역"; m_role := "리더";
       m_status := "재적"; m_joined := "2024-01-01" |};
    {| m_name := "이서윤"; m_region := "도원"; m_zone := "3구역"; m_role := "청년";
       m_status := "재적"; m_joined := "2024-01-01" |};
    {| m_name := "박지호"; m_region := "도원"; m_zone := "3구역"; m_role := "청년";
       m_status := "재적"; m_joined := "2024-01-01" |};
    {| m_name := "정도윤"; m_region := "도원"; m_zone := "3구역"; m_role := "청년";
       m_status := "재적"; m_joined := "2024-01-01" |};
    {| m_name := "최하은"; m_region := "도원"; m_zone := "3구역"; m_role := "청년";
       m_status := "제외"; m_joined := "2024-01-01" |} ].

(** a spreadsheet with the sheet of zone "3구역" and a sheet of zone
    "5구역" that has one row, nothing cached *)
Definition sample_world : World :=
  {| sheets :=
       <["3구역" := sample_zone_df]>
         (<["5구역" := [ {| r_date := "11월"; r_name := "한지우"; r_role := "리더";
                           r_status := "재적"; r_flags := flags 1 1 1 1 1 1 |} ]]> ∅);
     cache := ∅ |}.

(** the member "이서윤" was in zone "5구역" before: her row of "11월" is
    there, excluded *)
Definition returning_world : World :=
  {| sheets :=
       <["3구역" := sample_zone_df]>
         (<["5구역" := [ {| r_date := "11월"; r_name := "한지우"; r_role := "리더";
                           r_status := "재적"; r_flags := flags 1 1 1 1 1 1 |};
                        {| r_date := "11월"; r_name := "이서윤"; r_role := "청년";
                           r_status := "제외"; r_flags := flags 1 0 0 0 0 0 |} ]]> ∅);
     cache := ∅ |}.

(** three zones of four active members each, for one month; the number
    of members with every flag at 1 is 0, 4 and 2 *)
Definition member_row (member_name : string) (v : Z) : ActivityRow :=
  {| r_date := "11월"; r_name := member_name; r_role := "청년"; r_status := "재적";
     r_flags := flags v v v v v v |}.

Definition three_zones : World :=
  {| sheets :=
       list_to_map
         [ ("3구역", [member_row "가" 0; member_row "나" 0; member_row "다" 0;
                     member_row "라" 0]);
           ("1구역", [member_row "마" 1; member_row "바" 1; member_row "사" 1;
                     member_row "아" 1]);
           ("2구역", [member_row "자" 1; member_row "차" 0; member_row "카" 1;
                     member_row "타" 0]) ];
     cache := ∅ |}.

(** the sheet of zone "5구역" carries a label that is no month number *)
Definition garbled_world : World :=
  {| sheets :=
       <["3구역" := sample_zone_df]>
         (<["5구역" := [ {| r_date := "십일월"; r_name := "한지우"; r_role := "리더";
                           r_status := "재적"; r_flags := flags 1 1 1 1 1 1 |} ]]> ∅);
     cache := ∅ |}.

(** a summary and slider weights (they add up to 100) whose exact
    weighted sum, 71.95, lies half way between two tenths *)
Definition boundary_summary : ZoneSummary :=
  {| s_region := "도원"; s_zone := "3구역"; s_leader := "-"; s_members := 12;
     s_overall := 67; s_inperson := 100; s_mysim := 67; s_ongoing := 100;
     s_outreach := 50; s_hanja := 50; s_tithe := 40 |}.

Definition boundary_weights : gmap string float :=
  list_to_map [("전체출결", 15%float); ("대면출결", 15%float); ("마이심", 20%float);
               ("상시활동", 20%float); ("전도", 15%float); ("십일조", 15%float)].

(** the same weights as exact numbers and as floats, in the order of the
    indicators *)
Definition boundary_weights_exact : list Q := [15; 15; 20; 20; 15; 15]%Q.

Definition boundary_weights_float : list float := [15; 15; 20; 20; 15; 15]%float.

(** * Checks of the primitives on concrete values *)

Example ex_contains : Py.contains "월" "11월" = true /\ Py.contains "월" "11" = false.
Proof. split; reflexivity. Qed.

Example ex_replace : Py.replace_empty "월" "11월" = "11" /\ Py.replace_empty "월" "월1월1" = "11".
Proof. split; reflexivity. Qed.

Example ex_split : Py.split_item1 "년 " "2024년 11월" = Some "11월"
  /\ Py.split_item1 "년 " "2024년11월" = None
  /\ Py.split_pair "년 " "2024년 11월" = Some ("2024", "11월").
Proof. repeat split; reflexivity. Qed.

Example ex_int : Py.int " 11 " = Some 11%Z /\ Py.int "-1_0" = Some (-10)%Z
  /\ Py.int "" = None /\ Py.int "1__0" = None /\ Py.int "x" = None.
Proof. repeat split; reflexivity. Qed.

Example ex_round : Py.round_half_even (5 # 2) = 2%Z /\ Py.round_half_even (7 # 2) = 4%Z
  /\ Py.round_half_even (-(5 # 2)) = (-2)%Z /\ Py.round1 (1667 # 100) = (167 # 10)%Q
  /\ Py.trunc (-(5 # 2)) = (-2)%Z /\ Py.trunc (101 # 2) = 50%Z.
Proof. repeat split; reflexivity. Qed.

Example ex_unique_isin :
  Py.unique ["3구역"; "1구역"; "3구역"; "2구역"; "1구역"] = ["3구역"; "1구역"; "2구역"]
  /\ Py.isin "간사" ["리더"; "구역장"; "간사"] = true
  /\ Py.isin "청년" ["리더"; "구역장"; "간사"] = false
  /\ Py.endswith "11월" "월" = true /\ Py.endswith "11" "월" = false.
Proof. repeat split; reflexivity. Qed.

Example ex_strftime :
  App.strftime_month {| year := 2024; month := 9; day := 1 |} = "2024년 09월"
  /\ App.strftime_day {| year := 2024; month := 11; day := 3 |} = "2024-11-03".
Proof. split; vm_compute; reflexivity. Qed.

Example ex_sort : Py.sort_values_desc (fun a b => (fst a <=? fst b)%Z)
    [(1, "a"); (3, "b"); (1, "c"); (3, "d"); (2, "e")]%Z
  = [(3, "b"); (3, "d"); (2, "e"); (1, "a"); (1, "c")]%Z.
Proof. reflexivity. Qed.

(** [0.1 + 0.2], [9 * (15 / 100)], and [round(x, 1)] at values where the
    binary number is not the decimal one reads *)
Example ex_float_arith :
  (0.1 + 0.2 = 0.30000000000000004)%float
  /\ (9 * (15 / 100) = 1.3499999999999999)%float
  /\ (33 * (5 / 100) = 1.6500000000000001)%float.
Proof. repeat split; reflexivity. Qed.

Example ex_float_round1 :
  Py.float_round1 0.25 = 0.2%float
  /\ Py.float_round1 0.35 = 0.3%float
  /\ Py.float_round1 2.675 = 2.7%float
  /\ Py.float_round1 0.15 = 0.1%float
  /\ Py.float_round1 1.6500000000000001 = 1.7%float
  /\ Py.float_round1 (-0.04) = (-0)%float
  /\ Py.float_round1 1.0000000000000002e16 = 1.0000000000000002e16%float
  /\ Py.float_round1 infinity = infinity.
Proof. repeat split; vm_compute; reflexivity. Qed.

Example ex_float_of_int :
  Py.float_of_int 67 = Some 67%float
  /\ Py.float_of_int (2 ^ 53 + 1) = Some 9007199254740992%float
  /\ Py.float_of_int (2 ^ 1024) = None.
Proof. repeat split; vm_compute; reflexivity. Qed.

(** * Facts about the primitives *)

Lemma round_half_even_comp (x y : Q) :
  (x == y)%Q -> Py.round_half_even x = Py.round_half_even y.
Proof.
  intros Hxy. unfold Py.round_half_even.
  rewrite (Qfloor_comp x y Hxy).
  assert (Hd : (x - inject_Z (Qfloor y) == y - inject_Z (Qfloor y))%Q)
    by (rewrite Hxy; reflexivity).
  now rewrite (Qcompare_comp _ _ Hd (1 # 2) (1 # 2) (Qeq_refl _)).
Qed.

Lemma round1_comp (x y : Q) : (x == y)%Q -> Py.round1 x = Py.round1 y.
Proof.
  intros Hxy. unfold Py.round1. f_equal.
  apply round_half_even_comp. now rewrite Hxy.
Qed.

(** rounding to the nearest integer never leaves an interval with
    integer end points *)
Lemma round_half_even_bounds (a b : Z) (x : Q) :
  (inject_Z a <= x)%Q -> (x <= inject_Z b)%Q ->
  (a <= Py.round_half_even x <= b)%Z.
Proof.
  intros Ha Hb. unfold Py.round_half_even.
  pose proof (Qfloor_le x) as Hfl.
  assert (Haf : (a <= Qfloor x)%Z).
  { rewrite <- (Qfloor_Z a). now apply Qfloor_resp_le. }
  assert (Hfb : (Qfloor x <= b)%Z).
  { rewrite <- (Qfloor_Z b). now apply Qfloor_resp_le. }
  assert (Hup : (1 # 2 <= x - inject_Z (Qfloor x))%Q -> (Qfloor x + 1 <= b)%Z).
  { intros Hhalf.
    assert (Hlt : (inject_Z (Qfloor x) < inject_Z b)%Q) by lra.
    rewrite <- Zlt_Qlt in Hlt. lia. }
  destruct (Qcompare_spec (x - inject_Z (Qfloor x)) (1 # 2)) as [He | Hl | Hg].
  - destruct (Z.even (Qfloor x)); [lia |].
    split; [lia |]. apply Hup. rewrite He. apply Qle_refl.
  - lia.
  - split; [lia |]. apply Hup. now apply Qlt_le_weak.
Qed.

(** a share of a positive total, as a percentage *)
Lemma percentage_bounds (s n : Z) :
  (0 <= s <= n)%Z -> (0 < n)%Z ->
  (0 <= inject_Z s / inject_Z n * 100 /\ inject_Z s / inject_Z n * 100 <= 100)%Q.
Proof.
  intros [Hs Hsn] Hn.
  assert (Hn' : (0 < inject_Z n)%Q) by (change 0%Q with (inject_Z 0); now rewrite <- Zlt_Qlt).
  assert (Hs' : (0 <= inject_Z s)%Q) by (change 0%Q with (inject_Z 0); now rewrite <- Zle_Qle).
  assert (Hsn' : (inject_Z s <= inject_Z n)%Q) by now rewrite <- Zle_Qle.
  assert (H0 : (0 <= inject_Z s / inject_Z n)%Q).
  { apply Qle_shift_div_l; [exact Hn' | lra]. }
  assert (H1 : (inject_Z s / inject_Z n <= 1)%Q).
  { apply Qle_shift_div_r; [exact Hn' | lra]. }
  split; lra.
Qed.

Lemma sumZ_flag_bounds {A : Type} (col : A -> Z) (l : list A) :
  Forall (fun r => col r = 0%Z \/ col r = 1%Z) l ->
  (0 <= Py.sumZ (map col l) <= Z.of_nat (List.length l))%Z.
Proof.
  induction 1 as [| r l Hr _ IH]; simpl.
  - lia.
  - unfold Py.sumZ in *. simpl. destruct Hr as [-> | ->]; lia.
Qed.

(** * Rates: bounds and the zero guard *)

Lemma true_divide_positive (s n : Z) :
  (0 < n)%Z ->
  Py.true_divide (inject_Z s) (inject_Z n) = Some (inject_Z s / inject_Z n)%Q.
Proof.
  intros Hn. unfold Py.true_divide.
  destruct (Qeq_bool (inject_Z n) 0) eqn:E; [| reflexivity].
  apply Qeq_bool_eq in E. unfold Qeq in E. simpl in E. lia.
Qed.

(** the guarded rate is always a number, and a percentage when the sum
    is a share of the total *)
Lemma indicator_rate_defined (flag_sum total_members : Z) :
  exists q, AppFinal.indicator_rate flag_sum total_members = Some q
            /\ ((0 <= flag_sum <= total_members)%Z -> (0 <= q <= 100)%Q).
Proof.
  unfold AppFinal.indicator_rate.
  destruct (Z.ltb_spec 0 total_members) as [Hpos | Hle].
  - rewrite (true_divide_positive _ _ Hpos). simpl. eexists. split; [reflexivity |].
    intros Hs. now apply percentage_bounds.
  - exists 0%Q. split; [reflexivity |]. intros _. split; lra.
Qed.

Lemma Forall_filter_bool {A : Type} (P : A -> Prop) (f : A -> bool) (l : list A) :
  Forall P l -> Forall P (List.filter f l).
Proof.
  induction 1 as [| x l Hx _ IH]; simpl; [constructor |].
  destruct (f x); [constructor |]; assumption.
Qed.

Lemma flags01_col (f : Flags) :
  flags01 f ->
  (f_overall f = 0 \/ f_overall f = 1)%Z /\ (f_inperson f = 0 \/ f_inperson f = 1)%Z /\
  (f_mysim f = 0 \/ f_mysim f = 1)%Z /\ (f_ongoing f = 0 \/ f_ongoing f = 1)%Z /\
  (f_outreach f = 0 \/ f_outreach f = 1)%Z /\ (f_tithe f = 0 \/ f_tithe f = 1)%Z.
Proof.
  unfold flags01. intros H.
  repeat match goal with
         | H : Forall _ (_ :: _) |- _ => inversion H; subst; clear H
         end.
  tauto.
Qed.

(** one rounded percentage of [calculate_zone_summary] *)
Lemma final_rate_defined (col : Flags -> Z) (active_df : list ActivityRow) :
  exists v,
    Py.round_int (AppFinal.indicator_rate (AppFinal.column_sum col active_df)
                                          (Z.of_nat (List.length active_df))) = Some v
    /\ (Forall (fun r => col (r_flags r) = 0%Z \/ col (r_flags r) = 1%Z) active_df ->
        (0 <= v <= 100)%Z).
Proof.
  destruct (indicator_rate_defined (AppFinal.column_sum col active_df)
                                   (Z.of_nat (List.length active_df))) as (q & Hq & Hrange).
  rewrite Hq. simpl. eexists. split; [reflexivity |].
  intros Hflags.
  destruct (Hrange (sumZ_flag_bounds (fun r => col (r_flags r)) active_df Hflags)).
  now apply round_half_even_bounds.
Qed.

(** [calculate_zone_summary] of [app_final.py] never raises, and with 0/1
    flags the percentages of the summary it returns are in range *)
Lemma final_summary_defined (zone_df : list ActivityRow)
    (month zone_name region : string) :
  exists r,
    AppFinal.calculate_zone_summary zone_df month zone_name region = Some r
    /\ (Forall (fun r => flags01 (r_flags r)) zone_df ->
        forall s, r = Some s -> Forall (fun v => (0 <= v <= 100)%Z) (summary_rates s)).
Proof.
  unfold AppFinal.calculate_zone_summary.
  destruct zone_df as [| r0 rest]; [exists None; split; [reflexivity | discriminate] |].
  set (zone_df := r0 :: rest).
  destruct (List.filter (fun r => String.eqb (r_date r) month) zone_df)
    as [| m0 month_rest] eqn:Hmonth; [exists None; split; [reflexivity | discriminate] |].
  destruct (List.filter (fun r => String.eqb (r_status r) "재적") (m0 :: month_rest))
    as [| a0 active_rest] eqn:Hactive; [exists None; split; [reflexivity | discriminate] |].
  cbv zeta.
  destruct (final_rate_defined f_overall (a0 :: active_rest)) as (v1 & -> & H1).
  destruct (final_rate_defined f_inperson (a0 :: active_rest)) as (v2 & -> & H2).
  destruct (final_rate_defined f_mysim (a0 :: active_rest)) as (v3 & -> & H3).
  destruct (final_rate_defined f_ongoing (a0 :: active_rest)) as (v4 & -> & H4).
  destruct (final_rate_defined f_outreach (a0 :: active_rest)) as (v5 & -> & H5).
  destruct (final_rate_defined f_tithe (a0 :: active_rest)) as (v6 & -> & H6).
  simpl. eexists. split; [reflexivity |].
  intros Hflags s [= <-].
  assert (Hact : Forall (fun r => flags01 (r_flags r)) (a0 :: active_rest)).
  { rewrite <- Hactive, <- Hmonth. now do 2 apply Forall_filter_bool. }
  assert (Hcol : forall col : Flags -> Z,
             (forall f, flags01 f -> col f = 0%Z \/ col f = 1%Z) ->
             Forall (fun r => col (r_flags r) = 0%Z \/ col (r_flags r) = 1%Z)
                    (a0 :: active_rest)).
  { intros col Hc. eapply List.Forall_impl; [| exact Hact]. intros r Hr. now apply Hc. }
  unfold summary_rates. simpl.
  repeat (apply List.Forall_cons;
          [ first [apply H1 | apply H2 | apply H3 | apply H4 | apply H5 | apply H6];
            apply Hcol; intros f Hf; apply flags01_col in Hf; tauto | ]).
  apply List.Forall_nil.
Qed.

(** a rate of [app.py] over a frame of active rows that is not empty *)
Lemma app_rate_defined (col : Flags -> Z) (active_df : list FlatRow) :
  active_df <> [] ->
  Forall (fun r => col (x_flags r) = 0%Z \/ col (x_flags r) = 1%Z) active_df ->
  exists q,
    Py.times100 (Py.true_divide (inject_Z (App.column_sum col active_df))
                                (inject_Z (Z.of_nat (List.length active_df)))) = Some q
    /\ (0 <= q <= 100)%Q.
Proof.
  intros Hne Hflags.
  assert (Hpos : (0 < Z.of_nat (List.length active_df))%Z)
    by (destruct active_df; [contradiction | simpl; lia]).
  rewrite (true_divide_positive _ _ Hpos). simpl. eexists. split; [reflexivity |].
  apply percentage_bounds; [| exact Hpos].
  apply (sumZ_flag_bounds (fun r => col (x_flags r))). exact Hflags.
Qed.

(** C5. With 0/1 flags, the attendance and outreach rates of [app.py] are
    numbers (not nan, not inf) between 0 and 100, and exactly 0 when there
    is no active member; [calculate_zone_summary] of [app_final.py] never
    raises, the seven percentages of a summary it returns lie between 0
    and 100, with no active member in the month it returns [None], and
    its guarded rate expression is exactly 0 for a total of 0. *)
Theorem indicator_rates_in_range (df : list FlatRow) (zone_df : list ActivityRow)
    (month zone_name region : string) :
  Forall (fun r => flags01 (x_flags r)) df ->
  Forall (fun r => flags01 (r_flags r)) zone_df ->
  (exists q, App.calculate_attendance_rate df = Some q /\ (0 <= q <= 100)%Q)
  /\ (exists q, App.calculate_evangelism_rate df = Some q /\ (0 <= q <= 100)%Q)
  /\ (App.calculate_active_members df = 0%Z ->
      App.calculate_attendance_rate df = Some 0%Q
      /\ App.calculate_evangelism_rate df = Some 0%Q)
  /\ (exists r,
        AppFinal.calculate_zone_summary zone_df month zone_name region = Some r
        /\ forall s, r = Some s -> Forall (fun v => (0 <= v <= 100)%Z) (summary_rates s))
  /\ (List.filter (fun r => String.eqb (r_status r) "재적")
        (List.filter (fun r => String.eqb (r_date r) month) zone_df) = [] ->
      AppFinal.calculate_zone_summary zone_df month zone_name region = Some None)
  /\ (forall flag_sum, AppFinal.indicator_rate flag_sum 0 = Some 0%Q).
Proof.
  intros Hdf Hzone.
  assert (Hactive : Forall (fun r => flags01 (x_flags r)) (List.filter App.is_active df))
    by now apply Forall_filter_bool.
  assert (Hzero : exists q, Some 0%Q = Some q /\ (0 <= q <= 100)%Q)
    by (exists 0%Q; split; [reflexivity | split; lra]).
  split.
  { unfold App.calculate_attendance_rate. destruct df as [| r0 df']; [exact Hzero |].
    destruct (List.filter App.is_active (r0 :: df')) as [| a0 active]; [exact Hzero |].
    apply app_rate_defined; [discriminate |].
    eapply List.Forall_impl; [| exact Hactive].
    intros r Hr. apply flags01_col in Hr. tauto. }
  split.
  { unfold App.calculate_evangelism_rate. destruct df as [| r0 df']; [exact Hzero |].
    destruct (List.filter App.is_active (r0 :: df')) as [| a0 active]; [exact Hzero |].
    apply app_rate_defined; [discriminate |].
    eapply List.Forall_impl; [| exact Hactive].
    intros r Hr. apply flags01_col in Hr. tauto. }
  split.
  { intros Hcount.
    unfold App.calculate_active_members, App.calculate_attendance_rate,
      App.calculate_evangelism_rate in *.
    destruct df as [| r0 df']; [split; reflexivity |].
    destruct (List.filter App.is_active (r0 :: df')); [split; reflexivity |].
    simpl in Hcount. lia. }
  split.
  { destruct (final_summary_defined zone_df month zone_name region) as (r & Hr & Hrange).
    exists r. split; [exact Hr | now apply Hrange]. }
  split.
  { intros Hnone. unfold AppFinal.calculate_zone_summary.
    destruct zone_df as [| r0 rest]; [reflexivity |].
    destruct (List.filter (fun r => String.eqb (r_date r) month) (r0 :: rest));
      [reflexivity |].
    now rewrite Hnone. }
  intros flag_sum. reflexivity.
Qed.

(** closes [Forall (fun r => flags01 ...) rows] for a literal list of rows *)
Ltac solve_flags01 :=
  repeat (apply List.Forall_cons;
          [ cbv; repeat (apply List.Forall_cons; [lia |]); apply List.Forall_nil | ]);
  apply List.Forall_nil.

Lemma indicator_rates_in_range_witness :
  Forall (fun r => flags01 (x_flags r)) sample_flat_df
  /\ Forall (fun r => flags01 (r_flags r)) sample_zone_df
  /\ (exists q, App.calculate_attendance_rate sample_flat_df = Some q /\ (0 <= q <= 100)%Q)
  /\ (exists r,
        AppFinal.calculate_zone_summary sample_zone_df "11월" "3구역" "도원" = Some r
        /\ forall s, r = Some s -> Forall (fun v => (0 <= v <= 100)%Z) (summary_rates s)).
Proof.
  assert (H1 : Forall (fun r => flags01 (x_flags r)) sample_flat_df).
  { unfold sample_flat_df. solve_flags01. }
  assert (H2 : Forall (fun r => flags01 (r_flags r)) sample_zone_df).
  { unfold sample_zone_df. solve_flags01. }
  destruct (indicator_rates_in_range sample_flat_df sample_zone_df "11월" "3구역" "도원" H1 H2)
    as (Hatt & _ & _ & Hsum & _).
  repeat split; assumption.
Defined.

Example ex_zone_summary :
  AppFinal.calculate_zone_summary sample_zone_df "11월" "3구역" "도원"
  = Some (Some {| s_region := "도원"; s_zone := "3구역"; s_leader := "김민준";
                  s_members := 3; s_overall := 67; s_inperson := 33; s_mysim := 67;
                  s_ongoing := 0; s_outreach := 33; s_hanja := 33; s_tithe := 67 |})
  /\ AppFinal.calculate_zone_summary sample_zone_df "9월" "3구역" "도원" = Some None.
Proof. split; reflexivity. Qed.

Example ex_attendance_rate :
  App.calculate_attendance_rate sample_flat_df = Some (100 # 2)%Q
  /\ App.calculate_attendance_rate [] = Some 0%Q.
Proof. split; reflexivity. Qed.

(** In [app_v2.py] the flag sums run over all rows of the month and the
    total is the number of distinct names: a member with two rows in the
    month, both with every flag at 1, gives a rate of 200. *)
Example ex_v2_rate_above_100 :
  AppV2.calculate_zone_summary
    [ {| d_date := Some {| year := 2024; month := 9; day := 1 |}; d_name := "김민준";
         d_role := "리더"; d_status := "재적"; d_flags := flags 1 1 1 1 1 1 |};
      {| d_date := Some {| year := 2024; month := 9; day := 8 |}; d_name := "김민준";
         d_role := "리더"; d_status := "재적"; d_flags := flags 1 1 1 1 1 1 |} ]
    "2024년 09월" "1구역" "도원"
  = Some (Some {| s_region := "도원"; s_zone := "1구역"; s_leader := "김민준";
                  s_members := 1; s_overall := 200; s_inperson := 200; s_mysim := 200;
                  s_ongoing := 200; s_outreach := 200; s_hanja := 200; s_tithe := 200 |}).
Proof. reflexivity. Qed.

(** * 한자율 *)

(** C10. In every summary that [calculate_zone_summary] returns (in
    [app_final.py] and in [app_v2.py]) the 한자율 entry is the 전도 entry:
    both are the rounded outreach rate. *)
Theorem hanja_is_outreach (s : ZoneSummary) :
  produced s ->
  s_hanja s = s_outreach s
  /\ as_dict s !! "한자율" = Some (Num (inject_Z (s_outreach s)))
  /\ as_dict s !! "전도" = Some (Num (inject_Z (s_outreach s))).
Proof.
  intros Hs.
  assert (Heq : s_hanja s = s_outreach s).
  { destruct Hs as [zone_df month zone_name region Hs | zone_df month zone_name region Hs].
    - unfold AppFinal.calculate_zone_summary in Hs.
      destruct zone_df as [| r0 rest]; [discriminate |].
      destruct (List.filter _ (r0 :: rest)) as [| m0 month_rest]; [discriminate |].
      destruct (List.filter _ (m0 :: month_rest)) as [| a0 active_rest]; [discriminate |].
      cbv zeta in Hs.
      repeat match type of Hs with
             | context [Py.round_int ?x] => destruct (Py.round_int x); simpl in Hs
             end;
        try discriminate.
      injection Hs as <-. reflexivity.
    - unfold AppV2.calculate_zone_summary in Hs.
      destruct zone_df as [| r0 rest]; [discriminate |].
      destruct (Py.split_pair _ _) as [[year_s month_num] |]; [| discriminate].
      destruct (Py.int year_s); [| discriminate].
      destruct (Py.int _); [| discriminate].
      destruct (List.filter _ (r0 :: rest)) as [| m0 month_rest]; [discriminate |].
      destruct (List.filter _ (m0 :: month_rest)) as [| a0 active_rest]; [discriminate |].
      cbv zeta in Hs.
      repeat match type of Hs with
             | context [Py.round_int ?x] => destruct (Py.round_int x); simpl in Hs
             end;
        try discriminate.
      injection Hs as <-. reflexivity. }
  split; [exact Heq |].
  split; [rewrite <- Heq |]; reflexivity.
Qed.

Lemma hanja_is_outreach_witness :
  produced {| s_region := "도원"; s_zone := "3구역"; s_leader := "김민준"; s_members := 3;
              s_overall := 67; s_inperson := 33; s_mysim := 67; s_ongoing := 0;
              s_outreach := 33; s_hanja := 33; s_tithe := 67 |}
  /\ as_dict {| s_region := "도원"; s_zone := "3구역"; s_leader := "김민준"; s_members := 3;
                s_overall := 67; s_inperson := 33; s_mysim := 67; s_ongoing := 0;
                s_outreach := 33; s_hanja := 33; s_tithe := 67 |} !! "한자율"
     = Some (Num (inject_Z 33)).
Proof.
  assert (Hp : produced {| s_region := "도원"; s_zone := "3구역"; s_leader := "김민준";
                           s_members := 3; s_overall := 67; s_inperson := 33;
                           s_mysim := 67; s_ongoing := 0; s_outreach := 33;
                           s_hanja := 33; s_tithe := 67 |}).
  { apply (produced_final _ sample_zone_df "11월" "3구역" "도원"). reflexivity. }
  split; [exact Hp |].
  exact (proj1 (proj2 (hanja_is_outreach _ Hp))).
Defined.

(** * The composite score *)

Lemma as_dict_indicators (s : ZoneSummary) :
  as_dict s !! "전체출결" = Some (Num (inject_Z (s_overall s)))
  /\ as_dict s !! "대면출결" = Some (Num (inject_Z (s_inperson s)))
  /\ as_dict s !! "마이심" = Some (Num (inject_Z (s_mysim s)))
  /\ as_dict s !! "상시활동" = Some (Num (inject_Z (s_ongoing s)))
  /\ as_dict s !! "전도" = Some (Num (inject_Z (s_outreach s)))
  /\ as_dict s !! "십일조" = Some (Num (inject_Z (s_tithe s))).
Proof. repeat split; reflexivity. Qed.

(** ** The returned score, in binary64 *)

Lemma float_of_int_nearest (z : Z) :
  is_Some (Py.float_of_int z) -> Py.float_of_int z = Some (Py.nearest_float z).
Proof.
  unfold Py.float_of_int. destruct (is_infinity (Py.nearest_float z)).
  - intros [x Hx]. discriminate Hx.
  - reflexivity.
Qed.

Lemma loop_body_reads (score : float) (ind : string) (args : Scoring64.Args) :
  snd (Scoring64.loop_body score ind args) = args.
Proof.
  destruct (Scoring64.row args !! ind) as [v |] eqn:Hr;
    destruct (Scoring64.weights args !! ind) as [w |] eqn:Hw;
    unfold Scoring64.loop_body, Scoring64.bind, Scoring64.in_row, Scoring64.in_weights,
      Scoring64.row_item, Scoring64.weights_item, Scoring64.times, Scoring64.ret;
    cbv beta iota; rewrite ?Hr, ?Hw; cbv beta iota; rewrite ?Hr, ?Hw; cbv beta iota;
    rewrite ?Hr, ?Hw; try reflexivity.
  destruct v as [t | z]; try reflexivity.
  destruct (Py.float_of_int z); reflexivity.
Qed.

Lemma for_each_reads (inds : list string) (score : float) (args : Scoring64.Args) :
  snd (Scoring64.for_each inds score args) = args.
Proof.
  revert score. induction inds as [| ind inds IH]; intros score; [reflexivity |].
  cbn [Scoring64.for_each]. unfold Scoring64.bind.
  pose proof (loop_body_reads score ind args) as Hb.
  destruct (Scoring64.loop_body score ind args) as [[sc |] args']; simpl in Hb; subst args'.
  - apply IH.
  - reflexivity.
Qed.

(** the function only reads its arguments, whatever they hold and also
    when it raises *)
Lemma score_reads_only (args : Scoring64.Args) :
  snd (Scoring64.calculate_comprehensive_score args) = args.
Proof.
  unfold Scoring64.calculate_comprehensive_score, Scoring64.bind.
  pose proof (for_each_reads Scoring64.indicators 0%float args) as Hf.
  destruct (Scoring64.for_each Scoring64.indicators 0%float args) as [[sc |] args'];
    simpl in Hf; subst args'; reflexivity.
Qed.

Lemma loop_body_term (score : float) (ind : string) (args : Scoring64.Args) (z : Z) (w : float) :
  Scoring64.row args !! ind = Some (Scoring64.Int z) ->
  Scoring64.weights args !! ind = Some w ->
  is_Some (Py.float_of_int z) ->
  Scoring64.loop_body score ind args
  = (Some (score + Py.nearest_float z * (w / 100))%float, args).
Proof.
  intros Hr Hw Hz.
  unfold Scoring64.loop_body, Scoring64.bind, Scoring64.in_row, Scoring64.in_weights,
    Scoring64.row_item, Scoring64.weights_item, Scoring64.times, Scoring64.ret.
  cbv beta iota; rewrite ?Hr, ?Hw; cbv beta iota; rewrite ?Hr, ?Hw; cbv beta iota;
    rewrite ?Hr, ?Hw; cbv beta iota.
  rewrite (float_of_int_nearest z Hz). reflexivity.
Qed.

Lemma for_each_term (score : float) (ind : string) (rest : list string)
    (args : Scoring64.Args) (z : Z) (w : float) :
  Scoring64.row args !! ind = Some (Scoring64.Int z) ->
  Scoring64.weights args !! ind = Some w ->
  is_Some (Py.float_of_int z) ->
  Scoring64.for_each (ind :: rest) score args
  = Scoring64.for_each rest (score + Py.nearest_float z * (w / 100))%float args.
Proof.
  intros Hr Hw Hz. cbn [Scoring64.for_each]. unfold Scoring64.bind.
  now rewrite (loop_body_term score ind args z w Hr Hw Hz).
Qed.

(** C1, as amended.  For a summary row (its six rates [int]s that a
    float holds) and a weight mapping that has the six indicators,
    [calculate_comprehensive_score] returns, and does not raise,
    [round(score, 1)] of the sum it accumulates in binary64: from 0.0, the
    terms rate * (weight / 100) of exactly the six indicators 전체출결,
    대면출결, 마이심, 상시활동, 전도, 십일조, in this order, each product,
    quotient and sum rounded to the nearest float.  The call leaves the
    row and the weights as they were, and a second call on them returns
    the same score. *)
Theorem composite_score_binary64 (s : ZoneSummary) (weights : gmap string float)
    (w1 w2 w3 w4 w5 w6 : float) :
  Forall (fun z => is_Some (Py.float_of_int z)) (indicator_rates s) ->
  weights !! "전체출결" = Some w1 ->
  weights !! "대면출결" = Some w2 ->
  weights !! "마이심" = Some w3 ->
  weights !! "상시활동" = Some w4 ->
  weights !! "전도" = Some w5 ->
  weights !! "십일조" = Some w6 ->
  let args := {| Scoring64.row := Scoring64.as_row s; Scoring64.weights := weights |} in
  Scoring64.calculate_comprehensive_score args
  = (Some (Py.float_round1 (score_sum64 s w1 w2 w3 w4 w5 w6)), args)
  /\ Scoring64.calculate_comprehensive_score
       (snd (Scoring64.calculate_comprehensive_score args))
     = Scoring64.calculate_comprehensive_score args.
Proof.
  intros Hz H1 H2 H3 H4 H5 H6 args.
  split; [| now rewrite score_reads_only].
  unfold indicator_rates in Hz.
  repeat match goal with
         | H : Forall _ (_ :: _) |- _ => inversion H; subst; clear H
         | H : Forall _ [] |- _ => clear H
         end.
  unfold Scoring64.calculate_comprehensive_score, Scoring64.indicators, Scoring64.bind.
  rewrite (for_each_term _ _ _ args (s_overall s) w1); [| reflexivity | exact H1 | assumption].
  rewrite (for_each_term _ _ _ args (s_inperson s) w2); [| reflexivity | exact H2 | assumption].
  rewrite (for_each_term _ _ _ args (s_mysim s) w3); [| reflexivity | exact H3 | assumption].
  rewrite (for_each_term _ _ _ args (s_ongoing s) w4); [| reflexivity | exact H4 | assumption].
  rewrite (for_each_term _ _ _ args (s_outreach s) w5); [| reflexivity | exact H5 | assumption].
  rewrite (for_each_term _ _ _ args (s_tithe s) w6); [| reflexivity | exact H6 | assumption].
  reflexivity.
Qed.

Lemma composite_score_binary64_witness :
  Forall (fun z => is_Some (Py.float_of_int z)) (indicator_rates boundary_summary)
  /\ (let args := {| Scoring64.row := Scoring64.as_row boundary_summary;
                     Scoring64.weights := boundary_weights |} in
      Scoring64.calculate_comprehensive_score args
      = (Some (Py.float_round1 (score_sum64 boundary_summary 15 15 20 20 15 15)), args)
      /\ Scoring64.calculate_comprehensive_score
           (snd (Scoring64.calculate_comprehensive_score args))
         = Scoring64.calculate_comprehensive_score args).
Proof.
  assert (H : Forall (fun z => is_Some (Py.float_of_int z))
                     (indicator_rates boundary_summary)).
  { unfold indicator_rates.
    repeat (apply List.Forall_cons; [eexists; vm_compute; reflexivity |]).
    apply List.Forall_nil. }
  split; [exact H |].
  apply (composite_score_binary64 boundary_summary boundary_weights 15 15 20 20 15 15 H);
    reflexivity.
Defined.

(** a text cell under an indicator raises; an indicator that the row or
    the weights lack is skipped *)
Example ex_score64_cases :
  fst (Scoring64.calculate_comprehensive_score
         {| Scoring64.row := <["마이심" := Scoring64.Str "-"]> (Scoring64.as_row boundary_summary);
            Scoring64.weights := boundary_weights |}) = None
  /\ fst (Scoring64.calculate_comprehensive_score
            {| Scoring64.row := delete "전체출결" (Scoring64.as_row boundary_summary);
               Scoring64.weights := delete "십일조" boundary_weights |}) = Some 55.9%float
  /\ fst (Scoring64.calculate_comprehensive_score
            {| Scoring64.row := Scoring64.as_row boundary_summary; Scoring64.weights := ∅ |})
     = Some 0%float.
Proof. repeat split; vm_compute; reflexivity. Qed.

(** C1, as stated, fails.  With the rates 67, 100, 67, 100, 50, 40 and
    the weights 15, 15, 20, 20, 15, 15 the code returns 71.9.  The weighted
    sum of the claim is 71.95 exactly, which rounds to 72.0 (to the even
    tenth, and upwards as well); evaluated in binary64 in the order of the
    claim's words it is 72.0 too.  The sum the code accumulates is
    71.94999999999999. *)
Lemma score_misses_the_exact_sum :
  fst (Scoring64.calculate_comprehensive_score
         {| Scoring64.row := Scoring64.as_row boundary_summary;
            Scoring64.weights := boundary_weights |}) = Some 71.9%float
  /\ score_sum64 boundary_summary 15 15 20 20 15 15 = 71.94999999999999%float
  /\ (Py.sumQ (map (fun rw : Z * Q => inject_Z (fst rw) * snd rw / 100)
                   (combine (indicator_rates boundary_summary) boundary_weights_exact))
      == 7195 # 100)%Q
  /\ composite_score_spec (indicator_rates boundary_summary) boundary_weights_exact
     = (720 # 10)%Q
  /\ score_as_worded64 (indicator_rates boundary_summary) boundary_weights_float
     = 72%float
  /\ 71.9%float <> 72%float.
Proof.
  repeat split; try (vm_compute; reflexivity).
  intros H. discriminate H.
Qed.

Example ex_score_full :
  Scoring.calculate_comprehensive_score (as_dict (full_summary "1구역"))
    (uniform_weights (50 # 3)) = Some (1000 # 10)%Q
  /\ Scoring.calculate_comprehensive_score (as_dict (full_summary "1구역"))
       (uniform_weights 10) = Some (600 # 10)%Q.
Proof. split; vm_compute; reflexivity. Qed.

(** a weight mapping without an indicator: the indicator is skipped *)
Example ex_score_missing_weight :
  Scoring.calculate_comprehensive_score (as_dict (full_summary "1구역"))
    (delete "전도" (uniform_weights 10)) = Some (500 # 10)%Q.
Proof. vm_compute; reflexivity. Qed.

(** * Sorting *)

Section SortFacts.
Context {A : Type} (leb : A -> A -> bool).
Hypothesis leb_total : forall a b, leb a b = true \/ leb b a = true.
Hypothesis leb_trans : forall a b c, leb a b = true -> leb b c = true -> leb a c = true.

Local Abbreviation asc := (fun a b : A => leb a b = true).
Local Abbreviation desc := (fun a b : A => leb b a = true).

Lemma insert_asc_perm (x : A) (l : list A) :
  Permutation (Py.insert_asc leb x l) (x :: l).
Proof using Type.
  induction l as [| y l IH]; simpl; [reflexivity |].
  destruct (leb x y); [reflexivity |].
  rewrite IH. apply perm_swap.
Qed.

Lemma sort_asc_perm (l : list A) : Permutation (Py.sort_asc leb l) l.
Proof using Type.
  induction l as [| x l IH]; simpl; [reflexivity |].
  rewrite insert_asc_perm. now constructor.
Qed.

Lemma sort_values_desc_perm (l : list A) :
  Permutation (Py.sort_values_desc leb l) l.
Proof using Type.
  unfold Py.sort_values_desc.
  rewrite <- Permutation_rev, sort_asc_perm, <- Permutation_rev. reflexivity.
Qed.

Lemma insert_asc_sorted (x : A) (l : list A) :
  StronglySorted asc l -> StronglySorted asc (Py.insert_asc leb x l).
Proof using leb_total leb_trans.
  induction 1 as [| y l Hl IH Hy]; simpl.
  - repeat constructor.
  - destruct (leb x y) eqn:Hxy.
    + constructor; [now constructor |].
      constructor; [exact Hxy |].
      eapply List.Forall_impl; [| exact Hy]. intros z Hz. simpl in *. eauto.
    + constructor; [exact IH |].
      assert (Hyx : leb y x = true) by (destruct (leb_total x y); congruence).
      eapply Permutation_Forall; [symmetry; apply insert_asc_perm |].
      now constructor.
Qed.

Lemma sort_asc_sorted (l : list A) : StronglySorted asc (Py.sort_asc leb l).
Proof using leb_total leb_trans.
  induction l as [| x l IH]; simpl; [constructor |].
  now apply insert_asc_sorted.
Qed.

Lemma strongly_sorted_app (R : A -> A -> Prop) (l1 l2 : list A) :
  StronglySorted R l1 -> StronglySorted R l2 ->
  (forall a b, In a l1 -> In b l2 -> R a b) ->
  StronglySorted R (l1 ++ l2).
Proof using Type.
  intros H1 H2 H12. induction H1 as [| x l1 Hl1 IH Hx]; simpl; [exact H2 |].
  constructor.
  - apply IH. intros a b Ha Hb. apply H12; [now right | exact Hb].
  - apply Forall_app. split; [exact Hx |].
    apply List.Forall_forall. intros b Hb. apply H12; [now left | exact Hb].
Qed.

Lemma strongly_sorted_rev (R : A -> A -> Prop) (l : list A) :
  StronglySorted R l -> StronglySorted (fun a b => R b a) (rev l).
Proof using Type.
  induction 1 as [| x l Hl IH Hx]; simpl; [constructor |].
  apply strongly_sorted_app; [exact IH | repeat constructor |].
  intros a b Ha [<- | []]. apply in_rev in Ha.
  rewrite List.Forall_forall in Hx. now apply Hx.
Qed.

Lemma sort_values_desc_sorted (l : list A) :
  StronglySorted desc (Py.sort_values_desc leb l).
Proof using leb_total leb_trans.
  unfold Py.sort_values_desc.
  apply (strongly_sorted_rev asc). apply sort_asc_sorted.
Qed.

End SortFacts.

Lemma strongly_sorted_map {A B : Type} (R : A -> A -> Prop) (R' : B -> B -> Prop)
    (P : A -> Prop) (f : A -> B) (l : list A) :
  (forall a b, P a -> P b -> R a b -> R' (f a) (f b)) ->
  Forall P l -> StronglySorted R l -> StronglySorted R' (map f l).
Proof.
  intros HR HP Hl. induction Hl as [| x l Hl IH Hx]; simpl; [constructor |].
  inversion HP as [| ? ? Px Pl]; subst.
  constructor; [now apply IH |].
  rewrite List.Forall_forall in *. intros y Hy.
  apply in_map_iff in Hy as [a [<- Ha]]. apply HR; auto.
Qed.

Lemma filter_perm {A : Type} (f : A -> bool) (l1 l2 : list A) :
  Permutation l1 l2 -> Permutation (List.filter f l1) (List.filter f l2).
Proof.
  induction 1 as [| x l1 l2 _ IH | x y l | l1 l2 l3 _ IH1 _ IH2]; simpl.
  - constructor.
  - destruct (f x); [now constructor | exact IH].
  - destruct (f x), (f y); try reflexivity. apply perm_swap.
  - now transitivity (List.filter f l2).
Qed.

(** * Ranking *)

Lemma score_leb_total (a b : BoardRow) :
  Scoring.score_leb a b = true \/ Scoring.score_leb b a = true.
Proof.
  unfold Scoring.score_leb. rewrite !Qle_bool_iff.
  destruct (Qlt_le_dec (b_score b) (b_score a)) as [H | H]; [right | left]; lra.
Qed.

Lemma score_leb_trans (a b c : BoardRow) :
  Scoring.score_leb a b = true -> Scoring.score_leb b c = true ->
  Scoring.score_leb a c = true.
Proof. unfold Scoring.score_leb. rewrite !Qle_bool_iff. lra. Qed.

(** the assignment of 순위, with the first rank as a parameter *)
Lemma assign_ranks_cons (k : nat) (r : BoardRow) (l : list BoardRow) :
  map (fun ir : nat * BoardRow =>
         {| b_summary := b_summary (snd ir); b_score := b_score (snd ir);
            b_rank := Some (Z.of_nat (fst ir)) |})
      (combine (seq k (List.length (r :: l))) (r :: l))
  = {| b_summary := b_summary r; b_score := b_score r; b_rank := Some (Z.of_nat k) |}
      :: map (fun ir : nat * BoardRow =>
                {| b_summary := b_summary (snd ir); b_score := b_score (snd ir);
                   b_rank := Some (Z.of_nat (fst ir)) |})
             (combine (seq (S k) (List.length l)) l).
Proof. reflexivity. Qed.

Section AssignRanks.
Local Abbreviation assign_from k l :=
  (map (fun ir : nat * BoardRow =>
          {| b_summary := b_summary (snd ir); b_score := b_score (snd ir);
             b_rank := Some (Z.of_nat (fst ir)) |})
       (combine (seq k (List.length l)) l)).

Lemma assign_from_unranked (k : nat) (l : list BoardRow) :
  map unranked (assign_from k l) = map unranked l.
Proof.
  revert k. induction l as [| r l IH]; intros k; [reflexivity |].
  rewrite assign_ranks_cons. cbn [map]. now rewrite IH.
Qed.

Lemma assign_from_ranks (k : nat) (l : list BoardRow) :
  map b_rank (assign_from k l)
  = map (fun i => Some (Z.of_nat i)) (seq k (List.length l)).
Proof.
  revert k. induction l as [| r l IH]; intros k; [reflexivity |].
  rewrite assign_ranks_cons. cbn [map List.length seq b_rank]. now rewrite IH.
Qed.

Lemma assign_from_again (k : nat) (l : list BoardRow) :
  assign_from k (assign_from k l) = assign_from k l.
Proof.
  revert k. induction l as [| r l IH]; intros k; [reflexivity |].
  rewrite (assign_ranks_cons k r l), assign_ranks_cons. f_equal. apply IH.
Qed.

Lemma assign_from_Forall (P : Q -> Prop) (k : nat) (l : list BoardRow) :
  Forall (fun r => P (b_score r)) l -> Forall (fun r => P (b_score r)) (assign_from k l).
Proof.
  revert k. induction l as [| r l IH]; intros k Hl; [constructor |].
  rewrite assign_ranks_cons. inversion Hl; subst.
  constructor; [assumption | now apply IH].
Qed.

Lemma assign_from_sorted (k : nat) (l : list BoardRow) :
  StronglySorted (fun a b => Scoring.score_leb b a = true) l ->
  StronglySorted (fun a b => Scoring.score_leb b a = true) (assign_from k l).
Proof.
  intros Hl. revert k.
  induction Hl as [| r l Hl IH Hr]; intros k; [constructor |].
  rewrite assign_ranks_cons. constructor; [apply IH |].
  apply (assign_from_Forall (fun q => Qle_bool q (b_score r) = true)). exact Hr.
Qed.
End AssignRanks.

Lemma rank_zones_sorted (df : list BoardRow) :
  StronglySorted (fun a b => Scoring.score_leb b a = true) (Scoring.rank_zones df).
Proof.
  unfold Scoring.rank_zones, Scoring.assign_ranks.
  apply assign_from_sorted.
  apply sort_values_desc_sorted; [apply score_leb_total | apply score_leb_trans].
Qed.

Example ex_rank_zones :
  map (fun r => (s_zone (b_summary r), b_rank r))
      (Scoring.rank_zones
         [ {| b_summary := full_summary "1구역"; b_score := 50; b_rank := None |};
           {| b_summary := full_summary "2구역"; b_score := 100; b_rank := None |};
           {| b_summary := full_summary "3구역"; b_score := 0; b_rank := None |} ])
  = [("2구역", Some 1%Z); ("1구역", Some 2%Z); ("3구역", Some 3%Z)].
Proof. reflexivity. Qed.

(** End to end, from the sheets to the ranked frame: zones with rates 0,
    100 and 50 in every column, equal weights of 100/6: the scores are the
    rates, and the ranking is "1구역", "2구역", "3구역". *)
Example ex_end_to_end :
  option_map (map (fun r => (s_zone (b_summary r), b_score r, b_rank r)))
    (fst (AppFinal.scoreboard ["3구역"; "1구역"; "2구역"] "11월"
            (uniform_weights (100 # 6)) three_zones))
  = Some [("1구역", 1000 # 10, Some 1); ("2구역", 500 # 10, Some 2);
          ("3구역", 0 # 10, Some 3)]%Z%Q.
Proof. vm_compute. reflexivity. Qed.

(** * Ranking, whatever the sort does with equal keys *)

Lemma take_in_range {A : Type} (d : A) (indexer : list nat) (df : list A) :
  Forall (fun i => (i < List.length df)%nat) indexer ->
  Py.take indexer df = Some (map (fun i => nth i df d) indexer).
Proof.
  intros H. unfold Py.take. apply mapM_Some.
  induction H as [| i indexer Hi _ IH]; simpl; constructor; [| exact IH].
  destruct (lookup_lt_is_Some_2 df i Hi) as [x Hx].
  rewrite Hx. f_equal. symmetry. now apply nth_lookup_Some with (d := d) in Hx.
Qed.

Lemma map_nth_seq {A : Type} (d : A) (l : list A) :
  map (fun i => nth i l d) (seq 0 (List.length l)) = l.
Proof.
  induction l as [| x l IH]; [reflexivity |].
  cbn [List.length seq map nth]. f_equal.
  rewrite <- seq_shift, map_map. exact IH.
Qed.

Lemma positions_in_range (indexer : list nat) (n : nat) :
  Permutation indexer (seq 0 n) -> Forall (fun i => (i < n)%nat) indexer.
Proof.
  intros H. apply List.Forall_forall. intros i Hi.
  apply (Permutation_in _ H), in_seq in Hi. lia.
Qed.

(** the rows taken at the positions of an argsort: all the rows, the keys descending *)
Lemma sort_values_with_spec {A : Type} (argsort : list Q -> list nat) (key : A -> Q)
    (df : list A) :
  argsort_desc argsort ->
  exists sorted,
    Py.sort_values_with argsort key df = Some sorted
    /\ Permutation sorted df
    /\ StronglySorted (fun a b => (key b <= key a)%Q) sorted.
Proof.
  intros Hsort. unfold Py.sort_values_with.
  destruct (Hsort (map key df)) as [Hperm Hdesc].
  rewrite length_map in Hperm.
  destruct df as [| d df'] eqn:Edf.
  { simpl in Hperm. apply Permutation_sym, Permutation_nil in Hperm. simpl. rewrite Hperm.
    exists []. repeat split; constructor. }
  rewrite <- Edf in *. clear Edf df'.
  pose proof (positions_in_range _ _ Hperm) as Hrange.
  rewrite (take_in_range d _ _ Hrange).
  eexists. split; [reflexivity |]. split.
  - rewrite <- (map_nth_seq d df) at 2. now apply Permutation_map.
  - clear Hperm. induction Hdesc as [| i l Hl IH Hi]; simpl; [constructor |].
    inversion Hrange as [| ? ? Hir Hlr]; subst.
    constructor; [now apply IH |].
    rewrite List.Forall_forall in *. intros b Hb.
    apply in_map_iff in Hb as [j [<- Hj]].
    specialize (Hi j Hj). simpl in Hi.
    rewrite (nth_indep _ 0%Q (key d)) in Hi by (rewrite length_map; auto).
    rewrite (nth_indep _ 0%Q (key d)) in Hi by (rewrite length_map; auto).
    now rewrite !map_nth in Hi.
Qed.

(** ** The two sample sorts are sorts *)

Lemma position_leb_total (a b : nat * Q) :
  position_leb a b = true \/ position_leb b a = true.
Proof.
  unfold position_leb. rewrite !Qle_bool_iff.
  destruct (Qlt_le_dec (snd b) (snd a)) as [H | H]; [right | left]; lra.
Qed.

Lemma position_leb_trans (a b c : nat * Q) :
  position_leb a b = true -> position_leb b c = true -> position_leb a c = true.
Proof. unfold position_leb. rewrite !Qle_bool_iff. lra. Qed.

Lemma fst_combine_seq {A : Type} (k : nat) (l : list A) :
  map fst (combine (seq k (List.length l)) l) = seq k (List.length l).
Proof.
  revert k. induction l as [| x l IH]; intros k; [reflexivity |].
  simpl. f_equal. apply IH.
Qed.

Lemma combine_seq_nth (k i : nat) (q : Q) (l : list Q) :
  In (i, q) (combine (seq k (List.length l)) l) ->
  (k <= i)%nat /\ nth (i - k) l 0%Q = q.
Proof.
  revert k. induction l as [| x l IH]; intros k; simpl; [tauto |].
  intros [[= <- <-] | H].
  - rewrite Nat.sub_diag. split; [lia | reflexivity].
  - destruct (IH _ H) as [Hk Hq]. split; [lia |].
    replace (i - k)%nat with (S (i - S k)) by lia. exact Hq.
Qed.

(** positions paired with their keys, in an order in which the keys
    descend: the positions are an argsort *)
Lemma positions_of_sorted_pairs (keys : list Q) (ps : list (nat * Q)) :
  Permutation ps (combine (seq 0 (List.length keys)) keys) ->
  StronglySorted (fun a b => position_leb b a = true) ps ->
  Permutation (map fst ps) (seq 0 (List.length keys))
  /\ StronglySorted (fun i j => (nth j keys 0 <= nth i keys 0)%Q) (map fst ps).
Proof.
  intros Hperm Hsorted. split.
  - rewrite <- (fst_combine_seq 0 keys). now apply Permutation_map.
  - apply (strongly_sorted_map (fun a b => position_leb b a = true) _
             (fun p => nth (fst p) keys 0%Q = snd p)).
    + intros a b Ha Hb Hab. rewrite Ha, Hb. now apply Qle_bool_iff.
    + apply List.Forall_forall. intros [i q] Hin.
      apply (Permutation_in _ Hperm), combine_seq_nth in Hin as [_ Hq].
      simpl. now rewrite Nat.sub_0_r in Hq.
    + exact Hsorted.
Qed.

Lemma stable_argsort_desc : argsort_desc stable_argsort.
Proof.
  intros keys. apply positions_of_sorted_pairs.
  - apply sort_values_desc_perm.
  - apply sort_values_desc_sorted; [apply position_leb_total | apply position_leb_trans].
Qed.

Lemma reversing_argsort_desc : argsort_desc reversing_argsort.
Proof.
  intros keys. apply positions_of_sorted_pairs.
  - rewrite <- Permutation_rev. apply sort_asc_perm.
  - apply (strongly_sorted_rev (fun a b => position_leb a b = true)).
    apply sort_asc_sorted; [apply position_leb_total | apply position_leb_trans].
Qed.

(** ** The insertion sort is one of the sorts *)

Lemma insert_asc_map {A B : Type} (leb : A -> A -> bool) (leb' : B -> B -> bool)
    (f : A -> B) (x : A) (l : list A) :
  (forall a b, leb' (f a) (f b) = leb a b) ->
  map f (Py.insert_asc leb x l) = Py.insert_asc leb' (f x) (map f l).
Proof.
  intros Hleb. induction l as [| y l IH]; [reflexivity |].
  cbn [Py.insert_asc map]. rewrite Hleb.
  destruct (leb x y); [reflexivity |]. cbn [map]. now rewrite IH.
Qed.

Lemma sort_values_desc_map {A B : Type} (leb : A -> A -> bool) (leb' : B -> B -> bool)
    (f : A -> B) (l : list A) :
  (forall a b, leb' (f a) (f b) = leb a b) ->
  map f (Py.sort_values_desc leb l) = Py.sort_values_desc leb' (map f l).
Proof.
  intros Hleb. unfold Py.sort_values_desc. rewrite map_rev, <- (map_rev f l).
  f_equal. induction (rev l) as [| x k IH]; [reflexivity |].
  cbn [Py.sort_asc map]. now rewrite (insert_asc_map leb leb' f), IH.
Qed.

Lemma combine_seq_lookup {A : Type} (k i : nat) (x : A) (l : list A) :
  In (i, x) (combine (seq k (List.length l)) l) ->
  (k <= i)%nat /\ l !! (i - k)%nat = Some x.
Proof.
  revert k. induction l as [| y l IH]; intros k; simpl; [tauto |].
  intros [[= <- <-] | H].
  - rewrite Nat.sub_diag. split; [lia | reflexivity].
  - destruct (IH _ H) as [Hk Hx]. split; [lia |].
    replace (i - k)%nat with (S (i - S k)) by lia. exact Hx.
Qed.

Lemma snd_combine_seq {A : Type} (k : nat) (l : list A) :
  map snd (combine (seq k (List.length l)) l) = l.
Proof.
  revert k. induction l as [| x l IH]; intros k; [reflexivity |].
  simpl. f_equal. apply IH.
Qed.

Lemma keys_combine_seq {A : Type} (key : A -> Q) (k : nat) (l : list A) :
  map (fun p : nat * A => (fst p, key (snd p))) (combine (seq k (List.length l)) l)
  = combine (seq k (List.length (map key l))) (map key l).
Proof.
  revert k. induction l as [| x l IH]; intros k; [reflexivity |].
  simpl. f_equal. apply IH.
Qed.

(** [sort_values_desc] on a score is [sort_values_with] for the stable
    argsort *)
Lemma sort_values_desc_is_a_sort {A : Type} (key : A -> Q) (df : list A) :
  Py.sort_values_with stable_argsort key df
  = Some (Py.sort_values_desc (fun a b => Qle_bool (key a) (key b)) df).
Proof.
  set (pairs := combine (seq 0 (List.length df)) df).
  set (leb := fun a b : nat * A => Qle_bool (key (snd a)) (key (snd b))).
  assert (Hrows : map snd (Py.sort_values_desc leb pairs)
                  = Py.sort_values_desc (fun a b => Qle_bool (key a) (key b)) df).
  { rewrite (sort_values_desc_map leb (fun a b => Qle_bool (key a) (key b)) snd)
      by reflexivity.
    unfold pairs. now rewrite snd_combine_seq. }
  assert (Hpos : stable_argsort (map key df) = map fst (Py.sort_values_desc leb pairs)).
  { unfold stable_argsort. rewrite <- keys_combine_seq. fold pairs.
    rewrite <- (sort_values_desc_map leb position_leb
                  (fun p : nat * A => (fst p, key (snd p)))) by reflexivity.
    rewrite map_map. reflexivity. }
  unfold Py.sort_values_with, Py.take. rewrite Hpos, <- Hrows.
  apply mapM_Some.
  assert (Hin : Forall (fun p => In p pairs) (Py.sort_values_desc leb pairs)).
  { apply List.Forall_forall. intros p Hp.
    now apply (Permutation_in _ (sort_values_desc_perm leb pairs)). }
  clear Hrows Hpos.
  induction Hin as [| p l Hp _ IH]; simpl; [constructor |].
  constructor; [| exact IH].
  destruct p as [i x]. apply combine_seq_lookup in Hp as [_ Hx].
  simpl. now rewrite Nat.sub_0_r in Hx.
Qed.

(** ** Two orderings of the same rows *)

(** rows in an order [R] that no two different rows tie in: there is only
    one such order *)
Lemma sorted_perm_unique {A : Type} (R : A -> A -> Prop) (l1 l2 : list A) :
  Permutation l1 l2 ->
  (forall a b, In a l1 -> In b l1 -> R a b -> R b a -> a = b) ->
  StronglySorted R l1 -> StronglySorted R l2 ->
  l1 = l2.
Proof.
  intros Hperm Hanti H1. revert l2 Hperm Hanti.
  induction H1 as [| x l1 Hl1 IH Hx]; intros l2 Hperm Hanti H2.
  - apply Permutation_nil in Hperm. now subst.
  - destruct l2 as [| y l2].
    { apply Permutation_sym, Permutation_nil in Hperm. discriminate. }
    inversion H2 as [| ? ? Hl2 Hy]; subst.
    rewrite List.Forall_forall in Hx, Hy.
    assert (Hxy : x = y).
    { assert (Hin : In x (y :: l2)) by (apply (Permutation_in _ Hperm); now left).
      destruct Hin as [<- | Hin]; [reflexivity |].
      assert (Hin' : In y (x :: l1))
        by (apply (Permutation_in _ (Permutation_sym Hperm)); now left).
      destruct Hin' as [-> | Hin']; [reflexivity |].
      apply Hanti; [now left | now right | now apply Hx | now apply Hy]. }
    subst y. f_equal. apply IH; [| | exact Hl2].
    + now apply Permutation_cons_inv in Hperm.
    + intros a b Ha Hb. apply Hanti; now right.
Qed.

(** lists of the same numbers, both descending, agree place by place *)
Lemma descending_keys_agree (l1 l2 : list Q) :
  Permutation l1 l2 ->
  StronglySorted (fun a b => (b <= a)%Q) l1 ->
  StronglySorted (fun a b => (b <= a)%Q) l2 ->
  Forall2 Qeq l1 l2.
Proof.
  intros Hperm H1 H2.
  assert (Hred : map Qred l1 = map Qred l2).
  { apply (sorted_perm_unique (fun a b => (b <= a)%Q)).
    - now apply Permutation_map.
    - intros a b Ha Hb Hab Hba.
      apply in_map_iff in Ha as [a0 [<- _]], Hb as [b0 [<- _]].
      apply Qred_complete. rewrite !Qred_correct in *. now apply Qle_antisym.
    - apply (strongly_sorted_map (fun a b => (b <= a)%Q) _ (fun _ => True));
        [| now apply List.Forall_forall | exact H1].
      intros a b _ _. now rewrite !Qred_correct.
    - apply (strongly_sorted_map (fun a b => (b <= a)%Q) _ (fun _ => True));
        [| now apply List.Forall_forall | exact H2].
      intros a b _ _. now rewrite !Qred_correct. }
  clear Hperm H1 H2. revert l2 Hred.
  induction l1 as [| x l1 IH]; intros [| y l2] Hred; try discriminate; [constructor |].
  injection Hred as Hxy Hrest.
  constructor; [now apply Qred_eq_iff | now apply IH].
Qed.

(** in a frame without ties a score names its row *)
Lemma no_ties_row (df : list BoardRow) (a b : BoardRow) :
  no_ties df -> In a df -> In b df -> (b_score a == b_score b)%Q -> a = b.
Proof.
  unfold no_ties. induction df as [| x df IH]; simpl; [tauto |].
  intros Hnd Ha Hb Hab. inversion Hnd as [| ? ? Hx Hnd']; subst.
  destruct Ha as [<- | Ha], Hb as [<- | Hb]; auto.
  - exfalso. apply Hx, InA_alt. exists (b_score b). split; [exact Hab | now apply in_map].
  - exfalso. apply Hx, InA_alt. exists (b_score a).
    split; [now symmetry | now apply in_map].
Qed.

Lemma no_ties_perm (l1 l2 : list BoardRow) :
  Permutation (map b_score l1) (map b_score l2) -> no_ties l1 -> no_ties l2.
Proof.
  unfold no_ties. intros Hperm Hnd.
  eapply (PermutationA_preserves_NoDupA Q_Setoid); [| exact Hnd].
  now apply (Permutation_PermutationA Q_Setoid).
Qed.

(** ** The assignment of 순위 *)

Lemma assign_ranks_unranked (l : list BoardRow) :
  map unranked (Scoring.assign_ranks l) = map unranked l.
Proof. unfold Scoring.assign_ranks. apply assign_from_unranked. Qed.

Lemma assign_ranks_scores (l : list BoardRow) :
  map b_score (Scoring.assign_ranks l) = map b_score l.
Proof.
  pose proof (f_equal (map snd) (assign_ranks_unranked l)) as H.
  now rewrite !map_map in H.
Qed.

Lemma assign_ranks_length (l : list BoardRow) :
  List.length (Scoring.assign_ranks l) = List.length l.
Proof.
  pose proof (f_equal (@List.length Q) (assign_ranks_scores l)) as H.
  now rewrite !length_map in H.
Qed.

Lemma assign_ranks_ranks (l : list BoardRow) :
  map b_rank (Scoring.assign_ranks l)
  = map (fun i => Some (Z.of_nat i)) (seq 1 (List.length l)).
Proof. unfold Scoring.assign_ranks. apply assign_from_ranks. Qed.

Lemma assign_ranks_again (l : list BoardRow) :
  Scoring.assign_ranks (Scoring.assign_ranks l) = Scoring.assign_ranks l.
Proof. unfold Scoring.assign_ranks. apply assign_from_again. Qed.

Lemma descending_scores (l : list BoardRow) :
  StronglySorted (fun a b => (b_score b <= b_score a)%Q) l <->
  StronglySorted (fun a b => (b <= a)%Q) (map b_score l).
Proof.
  induction l as [| x l IH]; simpl; [split; constructor |].
  split; intros H; inversion H as [| ? ? Hl Hx]; subst; constructor;
    try (now apply IH); rewrite List.Forall_forall in *.
  - intros q Hq. apply in_map_iff in Hq as [b [<- Hb]]. now apply Hx.
  - intros b Hb. apply Hx. now apply in_map.
Qed.

Lemma assign_ranks_descending (l : list BoardRow) :
  StronglySorted (fun a b => (b_score b <= b_score a)%Q) l ->
  StronglySorted (fun a b => (b_score b <= b_score a)%Q) (Scoring.assign_ranks l).
Proof. rewrite !descending_scores, assign_ranks_scores. auto. Qed.

(** the ranking step for an argsort: what it returns *)
Lemma rank_zones_with_sorted (argsort : list Q -> list nat) (df : list BoardRow) :
  argsort_desc argsort ->
  exists sorted,
    Scoring.rank_zones_with argsort df = Some (Scoring.assign_ranks sorted)
    /\ Permutation sorted df
    /\ StronglySorted (fun a b => (b_score b <= b_score a)%Q) sorted.
Proof.
  intros Hsort. unfold Scoring.rank_zones_with.
  destruct (sort_values_with_spec argsort b_score df Hsort) as (sorted & -> & Hp & Hs).
  exists sorted. auto.
Qed.

(** the ranking step with the insertion sort is the ranking step for the
    stable argsort *)
Lemma rank_zones_is_a_ranking (df : list BoardRow) :
  Scoring.rank_zones_with stable_argsort df = Some (Scoring.rank_zones df).
Proof.
  unfold Scoring.rank_zones_with, Scoring.rank_zones.
  now rewrite (sort_values_desc_is_a_sort b_score df).
Qed.

(** C2, as amended.  Whatever the sort does with equal keys, the ranking
    step returns the rows it was given (it only fills in 순위), in
    descending order of 종합지표, numbered 1..N without gap or repetition.
    Ranking the result again gives the same scores and the same ranks
    place by place.  When no two zones have the same score the order is
    the only one there is: ranking again changes nothing, and every sort
    gives the same frame.  Nothing orders the zones of equal score. *)
Theorem rank_zones_spec (argsort : list Q -> list nat) (df : list BoardRow) :
  argsort_desc argsort ->
  exists ranked,
    Scoring.rank_zones_with argsort df = Some ranked
    /\ Permutation (map unranked ranked) (map unranked df)
    /\ StronglySorted (fun a b => (b_score b <= b_score a)%Q) ranked
    /\ map b_rank ranked = map (fun i => Some (Z.of_nat i)) (seq 1 (List.length df))
    /\ (exists again,
          Scoring.rank_zones_with argsort ranked = Some again
          /\ Forall2 Qeq (map b_score again) (map b_score ranked)
          /\ map b_rank again = map b_rank ranked
          /\ (no_ties df -> again = ranked))
    /\ (no_ties df ->
        forall argsort', argsort_desc argsort' ->
          Scoring.rank_zones_with argsort' df = Some ranked).
Proof.
  intros Hsort.
  destruct (rank_zones_with_sorted argsort df Hsort) as (sorted & Hrun & Hperm & Hdesc).
  exists (Scoring.assign_ranks sorted).
  split; [exact Hrun |]. split; [| split; [| split; [| split]]].
  - rewrite assign_ranks_unranked. now apply Permutation_map.
  - now apply assign_ranks_descending.
  - rewrite assign_ranks_ranks. now rewrite (Permutation_length Hperm).
  - destruct (rank_zones_with_sorted argsort (Scoring.assign_ranks sorted) Hsort)
      as (sorted2 & Hrun2 & Hperm2 & Hdesc2).
    exists (Scoring.assign_ranks sorted2).
    split; [exact Hrun2 |]. split; [| split].
    + rewrite assign_ranks_scores. apply descending_keys_agree.
      * now apply Permutation_map.
      * now apply descending_scores.
      * now apply descending_scores, assign_ranks_descending.
    + rewrite !assign_ranks_ranks.
      now rewrite (Permutation_length Hperm2), assign_ranks_length.
    + intros Hties.
      assert (Hsame : Scoring.assign_ranks sorted = sorted2).
      { apply (sorted_perm_unique (fun a b => (b_score b <= b_score a)%Q)).
        - now symmetry.
        - intros a b Ha Hb Hab Hba.
          apply (no_ties_row (Scoring.assign_ranks sorted)); auto.
          + apply (no_ties_perm df); [| exact Hties].
            rewrite assign_ranks_scores. now apply Permutation_map, Permutation_sym.
          + now apply Qle_antisym.
        - now apply assign_ranks_descending.
        - exact Hdesc2. }
      rewrite <- Hsame. apply assign_ranks_again.
  - intros Hties argsort' Hsort'.
    destruct (rank_zones_with_sorted argsort' df Hsort') as (sorted' & Hrun' & Hperm' & Hdesc').
    rewrite Hrun'. do 2 f_equal.
    apply (sorted_perm_unique (fun a b => (b_score b <= b_score a)%Q)); auto.
    + now rewrite Hperm.
    + intros a b Ha Hb Hab Hba.
      apply (no_ties_row df); auto.
      * now apply (Permutation_in _ Hperm').
      * now apply (Permutation_in _ Hperm').
      * now apply Qle_antisym.
Qed.

Lemma rank_zones_spec_witness :
  argsort_desc stable_argsort
  /\ exists ranked,
       Scoring.rank_zones_with stable_argsort three_scores = Some ranked
       /\ Permutation (map unranked ranked) (map unranked three_scores)
       /\ StronglySorted (fun a b => (b_score b <= b_score a)%Q) ranked
       /\ map b_rank ranked
          = map (fun i => Some (Z.of_nat i)) (seq 1 (List.length three_scores))
       /\ (exists again,
             Scoring.rank_zones_with stable_argsort ranked = Some again
             /\ Forall2 Qeq (map b_score again) (map b_score ranked)
             /\ map b_rank again = map b_rank ranked
             /\ (no_ties three_scores -> again = ranked))
       /\ (no_ties three_scores ->
           forall argsort', argsort_desc argsort' ->
             Scoring.rank_zones_with argsort' three_scores = Some ranked).
Proof.
  split; [exact stable_argsort_desc |].
  apply (rank_zones_spec stable_argsort three_scores stable_argsort_desc).
Defined.

Example ex_rank_zones_with :
  no_ties three_scores
  /\ option_map (map (fun r => (s_zone (b_summary r), b_rank r)))
       (Scoring.rank_zones_with stable_argsort three_scores)
     = Some [("2구역", Some 1%Z); ("1구역", Some 2%Z); ("3구역", Some 3%Z)]
  /\ Scoring.rank_zones_with reversing_argsort three_scores
     = Scoring.rank_zones_with stable_argsort three_scores.
Proof.
  split; [| split; vm_compute; reflexivity].
  unfold no_ties, three_scores. cbn [map b_score].
  repeat constructor; intros H;
    repeat match goal with
           | H : InA _ _ _ |- _ => inversion H; subst; clear H
           end;
    match goal with E : (_ == _)%Q |- _ => vm_compute in E; discriminate E end.
Qed.

(** C2, as stated, fails.  The sort sees the score column only: given two
    zones with the same score, and given them again the other way round,
    it makes the same move both times, so one of the two results is not in
    the order of the zone labels, whatever the sort.  And a sort is free
    to turn rows of equal score around: with such a sort, ranking the
    ranked frame again changes the order of its rows. *)
Lemma tied_zones_have_no_order :
  (forall argsort : list Q -> list nat,
     argsort_desc argsort ->
     exists ranked ranked',
       Scoring.rank_zones_with argsort tied_board = Some ranked
       /\ Scoring.rank_zones_with argsort (rev tied_board) = Some ranked'
       /\ (ties_by_zone_label ranked -> ties_by_zone_label ranked' -> False))
  /\ option_map (map (fun r => s_zone (b_summary r)))
       (Scoring.rank_zones_with stable_argsort tied_board)
     = Some ["2구역"; "1구역"]
  /\ (exists ranked again,
        Scoring.rank_zones_with reversing_argsort tied_board = Some ranked
        /\ Scoring.rank_zones_with reversing_argsort ranked = Some again
        /\ map (fun r => s_zone (b_summary r)) ranked = ["1구역"; "2구역"]
        /\ map (fun r => s_zone (b_summary r)) again = ["2구역"; "1구역"]).
Proof.
  split; [| split].
  - intros argsort Hsort.
    destruct (Hsort [100; 100]%Q) as [Hperm _].
    apply Permutation_sym, Permutation_length_2_inv in Hperm.
    unfold Scoring.rank_zones_with, Py.sort_values_with.
    change (map b_score tied_board) with [100; 100]%Q.
    change (map b_score (rev tied_board)) with [100; 100]%Q.
    destruct Hperm as [-> | ->]; do 2 eexists;
      (split; [reflexivity |]); (split; [reflexivity |]); intros H1 H2.
    + specialize (H1 0%nat 1%nat _ _ (Nat.lt_0_1) eq_refl eq_refl (Qeq_refl _)).
      vm_compute in H1. discriminate H1.
    + specialize (H2 0%nat 1%nat _ _ (Nat.lt_0_1) eq_refl eq_refl (Qeq_refl _)).
      vm_compute in H2. discriminate H2.
  - vm_compute. reflexivity.
  - do 2 eexists. repeat split; vm_compute; reflexivity.
Qed.

(** * The roll-up of a region *)

Lemma unique_In (x : string) (l : list string) : In x (Py.unique l) <-> In x l.
Proof.
  induction l as [| y l IH]; [reflexivity |].
  cbn [Py.unique]. split.
  - intros [-> | H]; [now left |].
    apply List.filter_In in H. right. now apply IH.
  - intros [-> | H]; [now left |].
    destruct (String.eqb_spec y x) as [-> | Hne]; [now left |].
    right. apply List.filter_In. split; [now apply IH |].
    destruct (String.eqb_spec y x); [contradiction | reflexivity].
Qed.

Lemma region_rows_nonempty (summary_df : list BoardRow) (region : string) :
  In region (map (fun r => s_region (b_summary r)) summary_df) ->
  Scoring.region_rows summary_df region <> [].
Proof.
  intros Hin Hnil. apply in_map_iff in Hin as (r & Hr & Hin).
  assert (H : In r (Scoring.region_rows summary_df region)).
  { apply List.filter_In. split; [exact Hin |]. rewrite Hr. apply String.eqb_refl. }
  rewrite Hnil in H. destruct H.
Qed.

Lemma region_is_listed (summary_df : list BoardRow) (region : string) :
  In region (map (fun r => s_region (b_summary r)) summary_df) ->
  In region (Py.sort_asc String.leb
               (Py.unique (map (fun r => s_region (b_summary r)) summary_df))).
Proof.
  intros Hin.
  eapply Permutation_in; [symmetry; apply sort_asc_perm |].
  now apply unique_In.
Qed.

(** C4, as amended.  For a region with at least one zone summary, the
    total row of [app_final.py] and the region row of [app_v2.py] are
    there, and each of their percentages is computed from the unweighted
    arithmetic mean of the rates of the zones of the region (not from the
    member counts: frames with the same rates give the same percentages),
    truncated to an integer in [app_final.py] and rounded to one decimal
    place in [app_v2.py]. *)
Theorem region_rollup_spec (summary_df : list BoardRow) (region : string) :
  In region (map (fun r => s_region (b_summary r)) summary_df) ->
  let zones := Scoring.region_rows summary_df region in
  zones <> []
  /\ In (AppFinal.total_row region zones) (AppFinal.region_totals summary_df)
  /\ total_rates (AppFinal.total_row region zones)
     = map (fun col => Py.trunc (unweighted_mean (column_of col zones))) rate_columns
  /\ In (AppV2.region_group region zones) (AppV2.region_summary summary_df)
  /\ group_rates (AppV2.region_group region zones)
     = map (fun col => Py.round1 (unweighted_mean (column_of col zones))) indicator_columns
  /\ (forall other : list BoardRow,
        map (fun r => summary_rates (b_summary r)) other
        = map (fun r => summary_rates (b_summary r)) zones ->
        total_rates (AppFinal.total_row region other)
        = total_rates (AppFinal.total_row region zones)
        /\ group_rates (AppV2.region_group region other)
           = group_rates (AppV2.region_group region zones)).
Proof.
  intros Hin zones.
  pose proof (region_rows_nonempty summary_df region Hin) as Hne.
  pose proof (region_is_listed summary_df region Hin) as Hlisted.
  split; [exact Hne |].
  split.
  { unfold AppFinal.region_totals. apply in_flat_map. exists region.
    split; [exact Hlisted |]. subst zones.
    destruct (Scoring.region_rows summary_df region); [now elim Hne | now left]. }
  split; [reflexivity |].
  split.
  { unfold AppV2.region_summary. apply in_map_iff. exists region. now split. }
  split; [reflexivity |].
  intros other Hsame.
  assert (Hcol : forall col : ZoneSummary -> Z,
             In col rate_columns -> column_of col other = column_of col zones).
  { intros col Hcol. unfold column_of.
    assert (Hnth : exists n, forall s, col s = nth n (summary_rates s) 0%Z).
    { unfold rate_columns in Hcol. simpl in Hcol.
      destruct Hcol as [<- | [<- | [<- | [<- | [<- | [<- | [<- | []]]]]]]];
        [exists 0%nat | exists 1%nat | exists 2%nat | exists 3%nat
         | exists 4%nat | exists 5%nat | exists 6%nat]; reflexivity. }
    destruct Hnth as [n Hn].
    transitivity (map (fun rates => nth n rates 0%Z)
                      (map (fun r => summary_rates (b_summary r)) other)).
    - rewrite map_map. apply map_ext. intros r. apply Hn.
    - rewrite Hsame, map_map. apply map_ext. intros r. symmetry. apply Hn. }
  unfold total_rates, group_rates, AppFinal.total_row, AppV2.region_group,
    AppFinal.column_mean, AppV2.group_mean; simpl.
  fold (column_of s_overall other) (column_of s_inperson other) (column_of s_mysim other)
       (column_of s_ongoing other) (column_of s_outreach other) (column_of s_hanja other)
       (column_of s_tithe other).
  fold (column_of s_overall zones) (column_of s_inperson zones) (column_of s_mysim zones)
       (column_of s_ongoing zones) (column_of s_outreach zones) (column_of s_hanja zones)
       (column_of s_tithe zones).
  rewrite !Hcol by (unfold rate_columns; simpl; tauto).
  split; reflexivity.
Qed.

Lemma region_rollup_spec_witness :
  In "도원" (map (fun r => s_region (b_summary r)) unequal_region)
  /\ total_rates (AppFinal.total_row "도원" (Scoring.region_rows unequal_region "도원"))
     = map (fun col => Py.trunc (unweighted_mean
                                   (column_of col (Scoring.region_rows unequal_region "도원"))))
           rate_columns.
Proof.
  assert (H : In "도원" (map (fun r => s_region (b_summary r)) unequal_region))
    by (simpl; tauto).
  split; [exact H |].
  exact (proj1 (proj2 (proj2 (region_rollup_spec unequal_region "도원" H)))).
Defined.

(** C4, as stated, fails: for zones at 50% and 51% the total row of
    [app_final.py] shows 50, not the mean 50.5 (the member-weighted mean
    of that region would be 50.83); for zones at 50%, 50% and 51% the
    region row of [app_v2.py] shows 50.3, not the mean 151/3. *)
Lemma rollup_is_not_the_exact_mean :
  total_rates (AppFinal.total_row "도원" unequal_region) = [50; 50; 50; 50; 50; 50; 50]%Z
  /\ (unweighted_mean (column_of s_overall unequal_region) == 101 # 2)%Q
  /\ ~ (inject_Z (AppFinal.t_overall (AppFinal.total_row "도원" unequal_region))
        == unweighted_mean (column_of s_overall unequal_region))%Q
  /\ (member_weighted_mean (column_of s_overall unequal_region)
                           (column_of s_members unequal_region) == 610 # 12)%Q
  /\ AppV2.g_overall
       (AppV2.region_group "도원"
          ({| b_summary := flat_summary "3구역" 4 50; b_score := 50; b_rank := Some 3%Z |}
             :: unequal_region))
     = (503 # 10)%Q
  /\ ~ (AppV2.g_overall
          (AppV2.region_group "도원"
             ({| b_summary := flat_summary "3구역" 4 50; b_score := 50; b_rank := Some 3%Z |}
                :: unequal_region))
        == unweighted_mean
             (column_of s_overall
                ({| b_summary := flat_summary "3구역" 4 50; b_score := 50;
                    b_rank := Some 3%Z |} :: unequal_region)))%Q.
Proof.
  repeat split; try reflexivity; intros H; vm_compute in H; discriminate H.
Qed.

(** * Monthly provisioning *)

Example ex_normalize_month :
  AppFinal.normalize_month "11월" = Some "11월"
  /\ AppFinal.normalize_month "11" = Some "11월"
  /\ AppFinal.normalize_month "2024년 11월" = Some "11월"
  /\ AppFinal.normalize_month "2024년11월" = None.
Proof. repeat split; reflexivity. Qed.

Example ex_month_sort_key :
  AppFinal.month_sort_key "11월" = Some 11%Z
  /\ AppFinal.month_sort_key "2024-11" = Some 0%Z
  /\ AppFinal.month_sort_key "십일월" = None.
Proof. repeat split; reflexivity. Qed.

(** C3 fails on the code.  Zone "3구역" has 4 active roster members and
    no sheet yet.  One press of the button of the month-generation tab
    leaves 4 rows for "11월"; a second press with the same arguments
    leaves 8.  The same holds for two calls of [create_monthly_records]
    with the read cache cleared in between.  (With the cache of the first
    call still in place, the second call reads the stale empty frame and
    rewrites the same 4 rows.) *)
Theorem provisioning_twice_duplicates_rows :
  let press := AppFinal.monthly_generation_button sample_roster "11월" "전체" in
  let call w := snd (AppFinal.create_monthly_records sample_roster "11월" "전체" w) in
  let period_rows w :=
    List.filter (fun r => String.eqb (r_date r) "11월") (table w "3구역") in
  List.length (period_rows (press empty_world)) = 4%nat
  /\ List.length (period_rows (press (press empty_world))) = 8%nat
  /\ List.length (period_rows (call (cache_clear (call empty_world)))) = 8%nat
  /\ List.length (period_rows (call (call empty_world))) = 4%nat
  /\ map r_name (period_rows (press (press empty_world)))
     = ["김민준"; "이서윤"; "박지호"; "정도윤"; "김민준"; "이서윤"; "박지호"; "정도윤"].
Proof. repeat split; vm_compute; reflexivity. Qed.

(** * The list of absentees *)

(** C8 fails on the code.  The member attended on 2024-10-06 and is
    absent in November.  With November selected, [main] passes the
    filtered frame to [render_missing_sheep], and the last attendance is
    looked up in that frame only: the entry says "기록 없음", although the
    full history has the attendance of October (looked up in the full
    frame, the same row gives "2024-10-06"). *)
Theorem missing_sheep_looks_in_filtered_frame :
  App.main_missing_sheep sample_flat_df (Some "2024년 11월") "전체" "전체"
  = Some (App.MissingTable
            [ {| App.e_name := "김민준"; App.e_region := "도원"; App.e_zone := "3구역";
                 App.e_role := "청년"; App.e_last_attendance := "기록 없음" |} ])
  /\ (exists r, In r sample_flat_df /\ x_name r = "김민준"
                /\ f_overall (x_flags r) = 1%Z
                /\ x_date r = Some {| year := 2024; month := 10; day := 6 |})
  /\ (forall row, In row (App.filter_data sample_flat_df (Some "2024년 11월") "전체" "전체") ->
                  App.last_attendance sample_flat_df row = Some "2024-10-06").
Proof.
  split; [vm_compute; reflexivity |].
  split.
  - eexists. split; [left; reflexivity |]. repeat split.
  - intros row Hrow. vm_compute in Hrow.
    destruct Hrow as [<- | []]. vm_compute. reflexivity.
Qed.

Example ex_filter_data :
  map x_date (App.filter_data sample_flat_df (Some "2024년 10월") "도원" "3구역")
  = [Some {| year := 2024; month := 10; day := 6 |}]
  /\ App.filter_data sample_flat_df (Some "2024년 10월") "새신" "전체" = []
  /\ App.filter_data sample_flat_df None "전체" "전체" = sample_flat_df.
Proof. repeat split; vm_compute; reflexivity. Qed.

(** * Zone reassignment *)

(** ** Reads and writes through the cache *)

Lemma load_zone_data_spec (zone : string) (w : World) :
  AppFinal.load_zone_data zone w = (Some (loaded w zone), remember zone w).
Proof.
  unfold AppFinal.load_zone_data, remember, loaded.
  destruct (cache w !! zone) as [df |] eqn:E; [| reflexivity].
  f_equal. destruct w as [sh ca]; simpl in *. f_equal.
  symmetry. now apply insert_id.
Qed.

Lemma loaded_remember (zone zone' : string) (w : World) :
  loaded (remember zone w) zone' = loaded w zone'.
Proof.
  unfold loaded at 1, remember; simpl.
  destruct (decide (zone = zone')) as [-> | Hne].
  - now rewrite lookup_insert_eq.
  - rewrite lookup_insert_ne by exact Hne. reflexivity.
Qed.

Lemma loaded_write_remember (zone zone' : string) (df : list ActivityRow) (w : World) :
  loaded (write zone df (remember zone w)) zone' = loaded w zone'.
Proof.
  unfold loaded at 1, write, remember; simpl.
  destruct (decide (zone = zone')) as [-> | Hne].
  - now rewrite lookup_insert_eq.
  - rewrite lookup_insert_ne by exact Hne.
    unfold loaded, AppFinal.read_worksheet; simpl.
    now rewrite lookup_insert_ne by exact Hne.
Qed.

Lemma exclude_from_old_zone_spec (member_name new_zone : string)
    (old_zone : option string) (w : World) :
  AppFinal.exclude_from_old_zone member_name new_zone old_zone w
  = (Some true, after_exclude member_name new_zone old_zone w).
Proof.
  unfold AppFinal.exclude_from_old_zone, after_exclude.
  destruct (AppFinal.zone_changed old_zone new_zone) as [oz |]; [| reflexivity].
  unfold bind. rewrite load_zone_data_spec.
  destruct (loaded w oz); reflexivity.
Qed.

Lemma add_to_new_zone_spec (member_info : Member) (member_name new_zone : string)
    (w : World) :
  AppFinal.add_to_new_zone member_info member_name new_zone w
  = after_add member_info member_name new_zone w.
Proof.
  unfold AppFinal.add_to_new_zone, after_add, records_of.
  unfold bind at 1. rewrite load_zone_data_spec.
  destruct (loaded w new_zone) as [| r df]; [reflexivity |].
  unfold bind, lift.
  destruct (AppFinal.with_sort_key (r :: df)) as [keyed |]; [| reflexivity].
  destruct (List.filter _ (r :: df)); reflexivity.
Qed.

(** the whole of [sync_member_to_zones], for a member of the roster *)
Lemma sync_member_to_zones_spec (master_df : list Member) (member_name new_zone : string)
    (old_zone : option string) (member_info : Member) (w : World) :
  head (List.filter (fun m => String.eqb (m_name m) member_name) master_df)
  = Some member_info ->
  snd (AppFinal.sync_member_to_zones master_df member_name new_zone old_zone w)
  = snd (after_add member_info member_name new_zone
           (after_exclude member_name new_zone old_zone w)).
Proof.
  intros Hinfo.
  unfold AppFinal.sync_member_to_zones, try_except, bind, lift. rewrite Hinfo.
  rewrite exclude_from_old_zone_spec, add_to_new_zone_spec.
  destruct (after_add _ _ _ _) as [[b |] w']; reflexivity.
Qed.

Lemma loaded_after_exclude (member_name new_zone : string) (old_zone : option string)
    (w : World) (zone : string) :
  loaded (after_exclude member_name new_zone old_zone w) zone = loaded w zone.
Proof.
  unfold after_exclude.
  destruct (AppFinal.zone_changed old_zone new_zone) as [oz |]; [| reflexivity].
  destruct (loaded w oz); [apply loaded_remember | apply loaded_write_remember].
Qed.

Lemma loaded_after_add (member_info : Member) (member_name new_zone : string)
    (w : World) (zone : string) :
  loaded (snd (after_add member_info member_name new_zone w)) zone = loaded w zone.
Proof.
  unfold after_add.
  destruct (loaded w new_zone) as [| r df]; [apply loaded_remember |].
  destruct (AppFinal.with_sort_key (r :: df)) as [keyed |]; [| apply loaded_remember].
  destruct (records_of _ _ _); [apply loaded_write_remember | apply loaded_remember].
Qed.

Lemma zone_changed_Some (old_zone : option string) (new_zone oz : string) :
  AppFinal.zone_changed old_zone new_zone = Some oz ->
  old_zone = Some oz /\ oz <> "" /\ oz <> new_zone.
Proof.
  unfold AppFinal.zone_changed. destruct old_zone as [z |]; [| discriminate].
  destruct (String.eqb_spec z ""), (String.eqb_spec z new_zone); simpl;
    try discriminate.
  intros [= <-]. auto.
Qed.

Lemma zone_changed_intro (new_zone oz : string) :
  oz <> "" -> oz <> new_zone -> AppFinal.zone_changed (Some oz) new_zone = Some oz.
Proof.
  intros H1 H2. unfold AppFinal.zone_changed.
  destruct (String.eqb_spec oz ""), (String.eqb_spec oz new_zone); simpl;
    try contradiction; reflexivity.
Qed.

(** the block for the new zone writes no other sheet *)
Lemma sheets_after_add_other (member_info : Member) (member_name new_zone : string)
    (w : World) (zone : string) :
  zone <> new_zone ->
  sheets (snd (after_add member_info member_name new_zone w)) !! zone = sheets w !! zone.
Proof.
  intros Hne. unfold after_add.
  destruct (loaded w new_zone) as [| r df]; [reflexivity |].
  destruct (AppFinal.with_sort_key (r :: df)) as [keyed |]; [| reflexivity].
  destruct (records_of _ _ _); [| reflexivity].
  simpl. now rewrite lookup_insert_ne by congruence.
Qed.

(** ** The old zone *)

Lemma table_after_sync_old_zone (master_df : list Member)
    (member_name new_zone oz : string) (member_info : Member) (w : World) :
  head (List.filter (fun m => String.eqb (m_name m) member_name) master_df)
  = Some member_info ->
  oz <> "" -> oz <> new_zone -> loaded w oz <> [] ->
  sheets (snd (AppFinal.sync_member_to_zones master_df member_name new_zone (Some oz) w))
    !! oz
  = Some (map (AppFinal.exclude member_name) (loaded w oz)).
Proof.
  intros Hinfo Hoz Hne Hrows.
  rewrite (sync_member_to_zones_spec _ _ _ _ _ _ Hinfo).
  rewrite sheets_after_add_other by exact Hne.
  unfold after_exclude. rewrite (zone_changed_intro _ _ Hoz Hne).
  destruct (loaded w oz) as [| r df]; [contradiction |].
  simpl. apply lookup_insert_eq.
Qed.

(** C7, as amended.  When a member of the roster is moved from an old
    zone to a different new zone, and the frame read for the old zone is
    the non-empty table of its sheet, the sheet is rewritten with the
    same rows in the same order, where every row of that member, in every
    period, has 상태 set to "제외" and nothing else changed, and every row
    of another member is unchanged.  No row is dropped. *)
Theorem old_zone_rows_excluded (master_df : list Member)
    (member_name new_zone oz : string) (member_info : Member) (w : World)
    (rows : list ActivityRow) :
  head (List.filter (fun m => String.eqb (m_name m) member_name) master_df)
  = Some member_info ->
  oz <> "" -> oz <> new_zone ->
  table w oz = rows -> loaded w oz = rows -> rows <> [] ->
  let w' := snd (AppFinal.sync_member_to_zones master_df member_name new_zone (Some oz) w) in
  List.length (table w' oz) = List.length rows
  /\ (forall (i : nat) (r : ActivityRow),
        nth_error rows i = Some r ->
        nth_error (table w' oz) i
        = Some (if String.eqb (r_name r) member_name
                then {| r_date := r_date r; r_name := r_name r; r_role := r_role r;
                        r_status := "제외"; r_flags := r_flags r |}
                else r)).
Proof.
  intros Hinfo Hoz Hne Htable Hloaded Hrows w'.
  assert (Hw' : table w' oz = map (AppFinal.exclude member_name) rows).
  { unfold table, w'.
    rewrite (table_after_sync_old_zone _ _ _ _ _ _ Hinfo Hoz Hne)
      by (rewrite Hloaded; exact Hrows).
    now rewrite Hloaded. }
  rewrite Hw'. split; [apply length_map |].
  intros i r Hr. rewrite nth_error_map, Hr. reflexivity.
Qed.

Lemma old_zone_rows_excluded_witness :
  head (List.filter (fun m => String.eqb (m_name m) "이서윤") sample_roster)
  = Some {| m_name := "이서윤"; m_region := "도원"; m_zone := "3구역"; m_role := "청년";
            m_status := "재적"; m_joined := "2024-01-01" |}
  /\ "3구역" <> "" /\ "3구역" <> "5구역"
  /\ table sample_world "3구역" = sample_zone_df
  /\ loaded sample_world "3구역" = sample_zone_df
  /\ sample_zone_df <> []
  /\ List.length
       (table (snd (AppFinal.sync_member_to_zones sample_roster "이서윤" "5구역"
                      (Some "3구역") sample_world)) "3구역")
     = List.length sample_zone_df.
Proof.
  assert (H1 : head (List.filter (fun m => String.eqb (m_name m) "이서윤") sample_roster)
               = Some {| m_name := "이서윤"; m_region := "도원"; m_zone := "3구역";
                         m_role := "청년"; m_status := "재적"; m_joined := "2024-01-01" |})
    by reflexivity.
  assert (H2 : "3구역" <> "") by discriminate.
  assert (H3 : "3구역" <> "5구역") by discriminate.
  assert (H4 : table sample_world "3구역" = sample_zone_df) by reflexivity.
  assert (H5 : loaded sample_world "3구역" = sample_zone_df) by reflexivity.
  assert (H6 : sample_zone_df <> []) by discriminate.
  repeat (split; [assumption |]).
  exact (proj1 (old_zone_rows_excluded sample_roster "이서윤" "5구역" "3구역" _
                  sample_world sample_zone_df H1 H2 H3 H4 H5 H6)).
Defined.

(** C7, as stated, fails: the member has a row for "11월" and a row for
    the earlier "10월" in the old zone; after the move both rows are
    "제외", so the row of the earlier period has changed. *)
Lemma earlier_period_row_is_excluded_too :
  let w' := snd (AppFinal.sync_member_to_zones sample_roster "이서윤" "5구역"
                   (Some "3구역") sample_world) in
  let of_member rows :=
    map (fun r => (r_date r, r_status r))
        (List.filter (fun r => String.eqb (r_name r) "이서윤") rows) in
  of_member (table sample_world "3구역") = [("11월", "재적"); ("10월", "재적")]
  /\ of_member (table w' "3구역") = [("11월", "제외"); ("10월", "제외")]
  /\ (exists r, nth_error (table sample_world "3구역") 5 = Some r
                /\ r_name r = "이서윤" /\ r_date r = "10월"
                /\ nth_error (table w' "3구역") 5 <> Some r).
Proof.
  repeat split; try (vm_compute; reflexivity).
  eexists. split; [reflexivity |]. repeat split. vm_compute. discriminate.
Qed.

(** ** The new zone *)

Lemma with_sort_key_keys (df : list ActivityRow) (keyed : list (Z * ActivityRow)) :
  AppFinal.with_sort_key df = Some keyed ->
  map snd keyed = df
  /\ Forall (fun kr => AppFinal.month_sort_key (r_date (snd kr)) = Some (fst kr)) keyed.
Proof.
  revert keyed. induction df as [| r df IH]; intros keyed H; simpl in H.
  - injection H as <-. split; constructor.
  - destruct (AppFinal.month_sort_key (r_date r)) as [k |] eqn:Hk; [| discriminate].
    destruct (AppFinal.with_sort_key df) as [rest |]; [| discriminate].
    injection H as <-. destruct (IH rest eq_refl) as [Hmap Hall].
    split; [simpl; now rewrite Hmap | now constructor].
Qed.

Lemma with_sort_key_app (df1 df2 : list ActivityRow) (k1 k2 : list (Z * ActivityRow)) :
  AppFinal.with_sort_key df1 = Some k1 -> AppFinal.with_sort_key df2 = Some k2 ->
  AppFinal.with_sort_key (df1 ++ df2)%list = Some (k1 ++ k2)%list.
Proof.
  revert k1. induction df1 as [| r df1 IH]; intros k1 H1 H2; simpl in *.
  - now injection H1 as <-.
  - destruct (AppFinal.month_sort_key (r_date r)) as [k |]; [| discriminate].
    destruct (AppFinal.with_sort_key df1) as [rest |]; [| discriminate].
    injection H1 as <-. now rewrite (IH rest eq_refl H2).
Qed.

Lemma first_max_In (best : Z * ActivityRow) (keyed : list (Z * ActivityRow)) :
  In (AppFinal.first_max best keyed) (best :: keyed).
Proof.
  revert best. induction keyed as [| kr rest IH]; intros best; simpl; [now left |].
  destruct (fst best <? fst kr)%Z.
  - right. apply IH.
  - destruct (IH best) as [H | H]; [now left | now right; right].
Qed.

(** a row appended at the end with a key that is not larger than the
    largest does not become the first largest *)
Lemma first_max_app_le (best x : Z * ActivityRow) (keyed : list (Z * ActivityRow)) :
  (fst x <= fst (AppFinal.first_max best keyed))%Z ->
  AppFinal.first_max best (keyed ++ [x])%list = AppFinal.first_max best keyed.
Proof.
  revert best. induction keyed as [| kr rest IH]; intros best Hle; simpl in *.
  - destruct (Z.ltb_spec (fst best) (fst x)); [lia | reflexivity].
  - destruct (fst best <? fst kr)%Z; now apply IH.
Qed.

Lemma filter_nonblank_fixed (df : list ActivityRow) :
  Forall (fun r => r_date r <> "") df ->
  List.filter (fun r => negb (String.eqb (r_date r) "")) df = df.
Proof.
  induction 1 as [| r df Hr _ IH]; [reflexivity |].
  simpl. destruct (String.eqb_spec (r_date r) ""); [contradiction |].
  simpl. now rewrite IH.
Qed.

Lemma read_worksheet_nonblank (w : World) (zone : string) :
  Forall (fun r => r_date r <> "") (AppFinal.read_worksheet w zone).
Proof.
  unfold AppFinal.read_worksheet. destruct (sheets w !! zone) as [data |]; [| constructor].
  apply List.Forall_forall. intros r Hr. apply List.filter_In in Hr as [_ Hr].
  destruct (String.eqb_spec (r_date r) ""); [discriminate | assumption].
Qed.

Lemma exclude_nonblank (member_name : string) (df : list ActivityRow) :
  Forall (fun r => r_date r <> "") df ->
  Forall (fun r => r_date r <> "") (map (AppFinal.exclude member_name) df).
Proof.
  induction 1 as [| r df Hr _ IH]; [constructor |].
  simpl. constructor; [| exact IH].
  unfold AppFinal.exclude. now destruct (String.eqb (r_name r) member_name).
Qed.

Lemma exclude_twice (member_name : string) (df : list ActivityRow) :
  map (AppFinal.exclude member_name) (map (AppFinal.exclude member_name) df)
  = map (AppFinal.exclude member_name) df.
Proof.
  rewrite map_map. apply map_ext. intros r. unfold AppFinal.exclude.
  destruct (String.eqb (r_name r) member_name) eqn:E; simpl; now rewrite E.
Qed.

(** the frame with the fresh record appended: its keys, its latest
    period and the rows of the member in that period *)
Lemma appended_frame (member_info : Member) (member_name : string)
    (df : list ActivityRow) (keyed : list (Z * ActivityRow)) :
  df <> [] ->
  AppFinal.with_sort_key df = Some keyed ->
  let latest := AppFinal.latest_date keyed in
  let fresh := AppFinal.fresh_record latest member_name member_info in
  (Forall (fun r => r_date r <> "") df -> latest <> "")
  /\ (exists keyed', AppFinal.with_sort_key (df ++ [fresh])%list = Some keyed'
                     /\ AppFinal.latest_date keyed' = latest)
  /\ records_of latest member_name (df ++ [fresh])%list
     = (records_of latest member_name df ++ [fresh])%list.
Proof.
  intros Hne Hkeyed latest fresh.
  destruct (with_sort_key_keys df keyed Hkeyed) as [Hmap Hall].
  destruct keyed as [| kr rest]; [simpl in Hmap; congruence |].
  pose proof (first_max_In kr rest) as Hin.
  assert (Hkey : AppFinal.month_sort_key latest
                 = Some (fst (AppFinal.first_max kr rest))).
  { rewrite List.Forall_forall in Hall. apply (Hall _ Hin). }
  split; [| split].
  - intros Hnb. rewrite List.Forall_forall in Hnb. apply Hnb.
    rewrite <- Hmap. apply in_map_iff. exists (AppFinal.first_max kr rest). now split.
  - exists ((kr :: rest) ++ [(fst (AppFinal.first_max kr rest), fresh)])%list.
    split.
    + apply with_sort_key_app; [exact Hkeyed |].
      simpl. fold latest. now rewrite Hkey.
    + unfold latest. simpl. now rewrite first_max_app_le by (simpl; lia).
  - unfold records_of. rewrite List.filter_app. f_equal.
    simpl. unfold AppFinal.is_member_at. simpl. now rewrite !String.eqb_refl.
Qed.

Lemma sheets_after_exclude (member_name new_zone : string) (old_zone : option string)
    (w : World) :
  sheets (after_exclude member_name new_zone old_zone w)
  = match AppFinal.zone_changed old_zone new_zone with
    | Some oz =>
        match loaded w oz with
        | [] => sheets w
        | (_ :: _) as old_df => <[oz := map (AppFinal.exclude member_name) old_df]> (sheets w)
        end
    | None => sheets w
    end.
Proof.
  unfold after_exclude.
  destruct (AppFinal.zone_changed old_zone new_zone) as [oz |]; [| reflexivity].
  destruct (loaded w oz); reflexivity.
Qed.

Lemma sheets_after_add (member_info : Member) (member_name new_zone : string) (w : World) :
  sheets (snd (after_add member_info member_name new_zone w))
  = match loaded w new_zone with
    | [] => sheets w
    | (_ :: _) as new_df =>
        match AppFinal.with_sort_key new_df with
        | None => sheets w
        | Some keyed =>
            match records_of (AppFinal.latest_date keyed) member_name new_df with
            | [] =>
                <[new_zone :=
                    (new_df ++ [AppFinal.fresh_record (AppFinal.latest_date keyed)
                                                      member_name member_info])%list]>
                  (sheets w)
            | _ :: _ => sheets w
            end
        end
    end.
Proof.
  unfold after_add.
  destruct (loaded w new_zone) as [| r df]; [reflexivity |].
  destruct (AppFinal.with_sort_key (r :: df)) as [keyed |]; [| reflexivity].
  destruct (records_of _ _ _); reflexivity.
Qed.

(** closes an equation between sheet mappings built by insertions *)
Ltac solve_sheets :=
  apply map_eq; intros ?;
  repeat rewrite lookup_insert;
  repeat case_decide; subst; try reflexivity; try congruence.

(** A second call while the frames of the first call are still cached
    reads the same frames and rewrites the same sheets. *)
Lemma sync_again_cached (master_df : list Member) (member_name new_zone : string)
    (old_zone : option string) (member_info : Member) (w : World) :
  head (List.filter (fun m => String.eqb (m_name m) member_name) master_df)
  = Some member_info ->
  let once := snd (AppFinal.sync_member_to_zones master_df member_name new_zone old_zone w) in
  sheets (snd (AppFinal.sync_member_to_zones master_df member_name new_zone old_zone once))
  = sheets once.
Proof.
  intros Hinfo once. unfold once.
  rewrite !(sync_member_to_zones_spec _ _ _ _ _ _ Hinfo).
  set (w1 := after_exclude member_name new_zone old_zone w).
  set (w2 := snd (after_add member_info member_name new_zone w1)).
  rewrite (sheets_after_add _ _ _ (after_exclude _ _ _ w2)).
  rewrite loaded_after_exclude, sheets_after_exclude.
  assert (Hl : forall zone, loaded w2 zone = loaded w zone).
  { intros zone. unfold w2, w1. now rewrite loaded_after_add, loaded_after_exclude. }
  rewrite Hl.
  assert (Hs2 : sheets w2
                = match loaded w new_zone with
                  | [] => sheets w1
                  | (_ :: _) as new_df =>
                      match AppFinal.with_sort_key new_df with
                      | None => sheets w1
                      | Some keyed =>
                          match records_of (AppFinal.latest_date keyed) member_name new_df with
                          | [] =>
                              <[new_zone :=
                                  (new_df ++ [AppFinal.fresh_record
                                                (AppFinal.latest_date keyed)
                                                member_name member_info])%list]>
                                (sheets w1)
                          | _ :: _ => sheets w1
                          end
                      end
                  end).
  { unfold w2. rewrite sheets_after_add. unfold w1. now rewrite loaded_after_exclude. }
  assert (Hs1 : sheets w1 = sheets (after_exclude member_name new_zone old_zone w))
    by reflexivity.
  rewrite sheets_after_exclude in Hs1.
  destruct (AppFinal.zone_changed old_zone new_zone) as [oz |] eqn:Hz.
  - apply zone_changed_Some in Hz as (_ & _ & Hne). rewrite Hl.
    destruct (loaded w oz) as [| r0 df0];
      destruct (loaded w new_zone) as [| r df];
      cbv zeta in *;
      try destruct (AppFinal.with_sort_key (r :: df)) as [keyed |];
      try destruct (records_of _ _ _);
      rewrite Hs2, Hs1; solve_sheets.
  - destruct (loaded w new_zone) as [| r df];
      cbv zeta in *;
      try destruct (AppFinal.with_sort_key (r :: df)) as [keyed |];
      try destruct (records_of _ _ _);
      rewrite Hs2, Hs1; solve_sheets.
Qed.

Lemma loaded_coherent (w : World) (zone : string) :
  coherent w -> loaded w zone = AppFinal.read_worksheet w zone.
Proof.
  intros Hc. unfold loaded. destruct (cache w !! zone) as [df |] eqn:E; [| reflexivity].
  now apply Hc.
Qed.

Lemma loaded_cache_clear (w : World) (zone : string) :
  loaded (cache_clear w) zone = AppFinal.read_worksheet w zone.
Proof. unfold loaded, cache_clear; simpl. now rewrite lookup_empty. Qed.

Lemma read_worksheet_ext (w w' : World) (zone : string) :
  sheets w' !! zone = sheets w !! zone ->
  AppFinal.read_worksheet w' zone = AppFinal.read_worksheet w zone.
Proof. intros H. unfold AppFinal.read_worksheet. now rewrite H. Qed.

Lemma read_worksheet_written (w : World) (zone : string) (df : list ActivityRow) :
  sheets w !! zone = Some df -> Forall (fun r => r_date r <> "") df ->
  AppFinal.read_worksheet w zone = df.
Proof.
  intros H Hnb. unfold AppFinal.read_worksheet. rewrite H.
  now apply filter_nonblank_fixed.
Qed.

(** the block for the old zone, run again on a cleared cache *)
Lemma exclude_again_cleared (member_name new_zone : string) (old_zone : option string)
    (w w2 : World) :
  coherent w ->
  (forall oz, AppFinal.zone_changed old_zone new_zone = Some oz ->
              sheets w2 !! oz
              = sheets (after_exclude member_name new_zone old_zone w) !! oz) ->
  sheets (after_exclude member_name new_zone old_zone (cache_clear w2)) = sheets w2
  /\ loaded (after_exclude member_name new_zone old_zone (cache_clear w2)) new_zone
     = AppFinal.read_worksheet w2 new_zone.
Proof.
  intros Hc Hw2. rewrite loaded_after_exclude, loaded_cache_clear.
  split; [| reflexivity].
  rewrite sheets_after_exclude.
  destruct (AppFinal.zone_changed old_zone new_zone) as [oz |] eqn:Hz; [| reflexivity].
  rewrite loaded_cache_clear.
  specialize (Hw2 oz eq_refl). rewrite sheets_after_exclude, Hz in Hw2.
  rewrite (loaded_coherent _ _ Hc) in Hw2.
  pose proof (read_worksheet_nonblank w oz) as Hnb.
  destruct (AppFinal.read_worksheet w oz) as [| r df] eqn:Hread.
  - assert (Hr2 : AppFinal.read_worksheet w2 oz = []).
    { rewrite <- Hread. now apply read_worksheet_ext. }
    now rewrite Hr2.
  - rewrite lookup_insert_eq in Hw2.
    assert (Hr2 : AppFinal.read_worksheet w2 oz
                  = map (AppFinal.exclude member_name) (r :: df)).
    { apply read_worksheet_written; [exact Hw2 | now apply exclude_nonblank]. }
    rewrite Hr2. cbn [map]. rewrite <- !(map_cons (AppFinal.exclude member_name)).
    rewrite exclude_twice. simpl. now apply insert_id.
Qed.

(** the block for the new zone, run again on a fresh read of the sheets
    it left *)
Lemma add_again_cleared (member_info : Member) (member_name new_zone : string)
    (w1 w3 : World) :
  loaded w1 new_zone = AppFinal.read_worksheet w1 new_zone ->
  sheets w3 = sheets (snd (after_add member_info member_name new_zone w1)) ->
  loaded w3 new_zone
  = AppFinal.read_worksheet (snd (after_add member_info member_name new_zone w1)) new_zone ->
  sheets (snd (after_add member_info member_name new_zone w3))
  = sheets (snd (after_add member_info member_name new_zone w1)).
Proof.
  intros Hl1 Hs3 Hl3.
  rewrite (sheets_after_add _ _ _ w3), Hl3, Hs3.
  pose proof (sheets_after_add member_info member_name new_zone w1) as Hs2.
  rewrite Hl1 in Hs2.
  pose proof (read_worksheet_nonblank w1 new_zone) as Hnb.
  set (w2 := snd (after_add member_info member_name new_zone w1)) in *.
  destruct (AppFinal.read_worksheet w1 new_zone) as [| r df] eqn:Hread.
  { assert (Hr2 : AppFinal.read_worksheet w2 new_zone = []).
    { rewrite <- Hread. apply read_worksheet_ext. now rewrite Hs2. }
    now rewrite Hr2. }
  cbv zeta in Hs2.
  destruct (AppFinal.with_sort_key (r :: df)) as [keyed |] eqn:Hkeyed.
  2: { assert (Hr2 : AppFinal.read_worksheet w2 new_zone = r :: df).
       { rewrite <- Hread. apply read_worksheet_ext. now rewrite Hs2. }
       rewrite Hr2. cbv zeta. now rewrite Hkeyed. }
  destruct (records_of (AppFinal.latest_date keyed) member_name (r :: df))
    as [| e es] eqn:Hex.
  2: { assert (Hr2 : AppFinal.read_worksheet w2 new_zone = r :: df).
       { rewrite <- Hread. apply read_worksheet_ext. now rewrite Hs2. }
       rewrite Hr2. cbv zeta. now rewrite Hkeyed, Hex. }
  assert (Hdf : r :: df <> []) by discriminate.
  destruct (appended_frame member_info member_name (r :: df) keyed Hdf Hkeyed)
    as (Hlatest & (keyed' & Hkeyed' & Hlatest') & Hrecords).
  set (latest := AppFinal.latest_date keyed) in *.
  set (fresh := AppFinal.fresh_record latest member_name member_info) in *.
  assert (Hr2 : AppFinal.read_worksheet w2 new_zone = r :: (df ++ [fresh])%list).
  { change (r :: (df ++ [fresh])%list) with ((r :: df) ++ [fresh])%list.
    apply read_worksheet_written; [rewrite Hs2; apply lookup_insert_eq |].
    apply Forall_app. split; [exact Hnb |].
    constructor; [| constructor]. simpl. now apply Hlatest. }
  rewrite Hr2. cbv zeta.
  change (r :: (df ++ [fresh])%list) with ((r :: df) ++ [fresh])%list.
  rewrite Hkeyed', Hlatest', Hrecords, Hex. reflexivity.
Qed.

(** A second call after the cache has been cleared reads the sheets the
    first call left and rewrites nothing that changes them. *)
Lemma sync_again_cleared (master_df : list Member) (member_name new_zone : string)
    (old_zone : option string) (member_info : Member) (w : World) :
  head (List.filter (fun m => String.eqb (m_name m) member_name) master_df)
  = Some member_info ->
  coherent w ->
  let once := snd (AppFinal.sync_member_to_zones master_df member_name new_zone old_zone w) in
  sheets (snd (AppFinal.sync_member_to_zones master_df member_name new_zone old_zone
                 (cache_clear once)))
  = sheets once.
Proof.
  intros Hinfo Hc once. unfold once.
  rewrite !(sync_member_to_zones_spec _ _ _ _ _ _ Hinfo).
  set (w1 := after_exclude member_name new_zone old_zone w).
  set (w2 := snd (after_add member_info member_name new_zone w1)).
  assert (Hold : forall oz, AppFinal.zone_changed old_zone new_zone = Some oz ->
                            sheets w2 !! oz = sheets w1 !! oz).
  { intros oz Hz. apply zone_changed_Some in Hz as (_ & _ & Hne).
    unfold w2. now apply sheets_after_add_other. }
  destruct (exclude_again_cleared member_name new_zone old_zone w w2 Hc Hold)
    as [Hs3 Hl3].
  apply add_again_cleared; [| exact Hs3 | exact Hl3].
  unfold w1. rewrite loaded_after_exclude, (loaded_coherent _ _ Hc).
  symmetry. apply read_worksheet_ext. rewrite sheets_after_exclude.
  destruct (AppFinal.zone_changed old_zone new_zone) as [oz |] eqn:Hz; [| reflexivity].
  apply zone_changed_Some in Hz as (_ & _ & Hne).
  destruct (loaded w oz); [reflexivity |].
  now rewrite lookup_insert_ne by exact Hne.
Qed.

(** C6, as amended.  A member of the roster is moved into a new zone; the
    cache is coherent, the frame read for the new zone is not empty and
    all its period labels have a sort key.  Then:
    - if the member has no row in the most recent period of that frame,
      the sheet is rewritten as the frame followed by exactly one fresh
      row (that period, 상태 "재적", all flags 0); if the member has a row
      there, whatever its 상태, the sheet is left as it is;
    - a second call with the same arguments, with the cache kept or
      cleared in between, leaves every sheet as the first call left it;
    - if the member had no row in that period before the first call, then
      after one call or two the member has exactly one row in that period
      of the new zone, the fresh one. *)
Theorem new_zone_record_added_once (master_df : list Member)
    (member_name new_zone : string) (old_zone : option string)
    (member_info : Member) (w : World)
    (df : list ActivityRow) (keyed : list (Z * ActivityRow)) :
  head (List.filter (fun m => String.eqb (m_name m) member_name) master_df)
  = Some member_info ->
  coherent w ->
  AppFinal.read_worksheet w new_zone = df -> df <> [] ->
  AppFinal.with_sort_key df = Some keyed ->
  let latest := AppFinal.latest_date keyed in
  let fresh := AppFinal.fresh_record latest member_name member_info in
  let sync w := snd (AppFinal.sync_member_to_zones master_df member_name new_zone old_zone w) in
  (records_of latest member_name df = [] -> table (sync w) new_zone = (df ++ [fresh])%list)
  /\ (records_of latest member_name df <> [] ->
      sheets (sync w) !! new_zone = sheets w !! new_zone)
  /\ sheets (sync (sync w)) = sheets (sync w)
  /\ sheets (sync (cache_clear (sync w))) = sheets (sync w)
  /\ (records_of latest member_name df = [] ->
      records_of latest member_name (table (sync w) new_zone) = [fresh]
      /\ records_of latest member_name (table (sync (sync w)) new_zone) = [fresh]
      /\ records_of latest member_name (table (sync (cache_clear (sync w))) new_zone)
         = [fresh]
      /\ active_records_of latest member_name (table (sync w) new_zone) = [fresh])
  /\ r_status fresh = "재적" /\ r_flags fresh = zero_flags.
Proof.
  intros Hinfo Hc Hread Hdf Hkeyed latest fresh sync.
  assert (Hnz : sheets (sync w) !! new_zone
                = match records_of latest member_name df with
                  | [] => Some (df ++ [fresh])%list
                  | _ :: _ => sheets w !! new_zone
                  end).
  { unfold sync. rewrite (sync_member_to_zones_spec _ _ _ _ _ _ Hinfo).
    rewrite sheets_after_add, loaded_after_exclude, (loaded_coherent _ _ Hc), Hread.
    assert (Hother : sheets (after_exclude member_name new_zone old_zone w) !! new_zone
                     = sheets w !! new_zone).
    { rewrite sheets_after_exclude.
      destruct (AppFinal.zone_changed old_zone new_zone) as [oz |] eqn:Hz; [| reflexivity].
      apply zone_changed_Some in Hz as (_ & _ & Hne).
      destruct (loaded w oz); [reflexivity |].
      now rewrite lookup_insert_ne by exact Hne. }
    destruct df as [| r df']; [contradiction |]. cbv zeta. rewrite Hkeyed.
    fold latest. destruct (records_of latest member_name (r :: df')).
    - fold fresh. apply lookup_insert_eq.
    - exact Hother. }
  assert (Hcached : sheets (sync (sync w)) = sheets (sync w))
    by exact (sync_again_cached _ _ _ _ _ w Hinfo).
  assert (Hcleared : sheets (sync (cache_clear (sync w))) = sheets (sync w))
    by exact (sync_again_cleared _ _ _ _ _ w Hinfo Hc).
  assert (Hone : records_of latest member_name df = [] ->
                 records_of latest member_name (table (sync w) new_zone) = [fresh]).
  { intros Habsent. unfold table. rewrite Hnz, Habsent. simpl.
    destruct (appended_frame member_info member_name df keyed Hdf Hkeyed)
      as (_ & _ & Hrecords).
    fold latest fresh in Hrecords. now rewrite Hrecords, Habsent. }
  split.
  { intros Habsent. unfold table. now rewrite Hnz, Habsent. }
  split.
  { intros Hpresent. rewrite Hnz.
    destruct (records_of latest member_name df); [contradiction | reflexivity]. }
  split; [exact Hcached |].
  split; [exact Hcleared |].
  split; [| split; reflexivity].
  intros Habsent. specialize (Hone Habsent).
  split; [exact Hone |].
  split; [unfold table; rewrite Hcached; exact Hone |].
  split; [unfold table; rewrite Hcleared; exact Hone |].
  unfold active_records_of. rewrite Hone. reflexivity.
Qed.

Lemma coherent_empty_cache (sh : gmap string (list ActivityRow)) :
  coherent {| sheets := sh; cache := ∅ |}.
Proof. intros zone df H. simpl in H. now rewrite lookup_empty in H. Qed.

Lemma new_zone_record_added_once_witness :
  head (List.filter (fun m => String.eqb (m_name m) "이서윤") sample_roster)
  = Some {| m_name := "이서윤"; m_region := "도원"; m_zone := "3구역"; m_role := "청년";
            m_status := "재적"; m_joined := "2024-01-01" |}
  /\ coherent sample_world
  /\ AppFinal.read_worksheet sample_world "5구역" <> []
  /\ AppFinal.with_sort_key (AppFinal.read_worksheet sample_world "5구역")
     = Some [(11%Z, {| r_date := "11월"; r_name := "한지우"; r_role := "리더";
                       r_status := "재적"; r_flags := flags 1 1 1 1 1 1 |})]
  /\ sheets (snd (AppFinal.sync_member_to_zones sample_roster "이서윤" "5구역" (Some "3구역")
                    (snd (AppFinal.sync_member_to_zones sample_roster "이서윤" "5구역"
                            (Some "3구역") sample_world))))
     = sheets (snd (AppFinal.sync_member_to_zones sample_roster "이서윤" "5구역"
                      (Some "3구역") sample_world)).
Proof.
  assert (H1 : head (List.filter (fun m => String.eqb (m_name m) "이서윤") sample_roster)
               = Some {| m_name := "이서윤"; m_region := "도원"; m_zone := "3구역";
                         m_role := "청년"; m_status := "재적"; m_joined := "2024-01-01" |})
    by reflexivity.
  assert (H2 : coherent sample_world) by apply coherent_empty_cache.
  assert (H3 : AppFinal.read_worksheet sample_world "5구역" <> []) by discriminate.
  assert (H4 : AppFinal.with_sort_key (AppFinal.read_worksheet sample_world "5구역")
               = Some [(11%Z, {| r_date := "11월"; r_name := "한지우"; r_role := "리더";
                                 r_status := "재적"; r_flags := flags 1 1 1 1 1 1 |})])
    by reflexivity.
  repeat (split; [assumption |]).
  exact (proj1 (proj2 (proj2 (new_zone_record_added_once sample_roster "이서윤" "5구역"
                                (Some "3구역") _ sample_world _ _ H1 H2 eq_refl H3 H4)))).
Defined.

Example ex_sync_moves_member :
  let w' := snd (AppFinal.sync_member_to_zones sample_roster "이서윤" "5구역"
                   (Some "3구역") sample_world) in
  map (fun r => (r_date r, r_name r, r_status r)) (table w' "5구역")
  = [("11월", "한지우", "재적"); ("11월", "이서윤", "재적")]
  /\ fst (AppFinal.sync_member_to_zones sample_roster "이서윤" "5구역"
            (Some "3구역") sample_world) = true
  /\ fst (AppFinal.sync_member_to_zones sample_roster "없는이름" "5구역"
            (Some "3구역") sample_world) = false.
Proof. repeat split; vm_compute; reflexivity. Qed.

(** C6, as stated, fails: the member was in the new zone before and her
    row of the current period is there with 상태 "제외".  The sync finds a
    row for (member, period), appends nothing and leaves the row
    excluded: after one call or two the member has no active row in the
    current period of the new zone. *)
Lemma returning_member_has_no_active_record :
  let sync w := snd (AppFinal.sync_member_to_zones sample_roster "이서윤" "5구역"
                       (Some "3구역") w) in
  map r_status (records_of "11월" "이서윤" (table returning_world "5구역")) = ["제외"]
  /\ active_records_of "11월" "이서윤" (table (sync returning_world) "5구역") = []
  /\ active_records_of "11월" "이서윤" (table (sync (sync returning_world)) "5구역") = []
  /\ active_records_of "11월" "이서윤"
       (table (sync (cache_clear (sync returning_world))) "5구역") = []
  /\ List.length (active_records_of "11월" "이서윤"
                    (table (sync (sync returning_world)) "5구역")) <> 1%nat.
Proof. repeat split; try (vm_compute; reflexivity). vm_compute. discriminate. Qed.

(** * The read cache and the sheet *)

(** X1.  What [save_zone_data] wrote is what [load_zone_data] returns once
    the read cache has been cleared, less the rows with an empty 날짜
    cell; a frame without such rows comes back as it was saved.  The
    other zones read as before. *)
Theorem saved_frame_read_back (zone : string) (df : list ActivityRow) (w : World) :
  let saved := snd (AppFinal.save_zone_data zone df w) in
  fst (AppFinal.load_zone_data zone (cache_clear saved))
  = Some (List.filter (fun r => negb (String.eqb (r_date r) "")) df)
  /\ (Forall (fun r => r_date r <> "") df ->
      fst (AppFinal.load_zone_data zone (cache_clear saved)) = Some df)
  /\ (forall other, other <> zone ->
      fst (AppFinal.load_zone_data other (cache_clear saved))
      = fst (AppFinal.load_zone_data other (cache_clear w))).
Proof.
  cbv zeta.
  assert (Hread : fst (AppFinal.load_zone_data zone
                         (cache_clear (snd (AppFinal.save_zone_data zone df w))))
                  = Some (List.filter (fun r => negb (String.eqb (r_date r) "")) df)).
  { rewrite load_zone_data_spec. simpl. rewrite loaded_cache_clear.
    unfold AppFinal.read_worksheet. simpl. now rewrite lookup_insert_eq. }
  split; [exact Hread |]. split.
  - intros Hdf. rewrite Hread. now rewrite filter_nonblank_fixed.
  - intros other Hne. rewrite !load_zone_data_spec. simpl. rewrite !loaded_cache_clear.
    unfold AppFinal.read_worksheet. simpl. now rewrite lookup_insert_ne by congruence.
Qed.

(** X2.  [save_zone_data] does not touch the read cache: while the entry
    of a zone is in place, [load_zone_data] keeps returning the frame it
    returned before the save, whatever has been written to the sheet. *)
Theorem cached_frame_survives_save (zone : string) (old df : list ActivityRow)
    (w : World) :
  cache w !! zone = Some old ->
  AppFinal.load_zone_data zone (snd (AppFinal.save_zone_data zone df w))
  = (Some old, snd (AppFinal.save_zone_data zone df w))
  /\ table (snd (AppFinal.save_zone_data zone df w)) zone = df.
Proof.
  intros Hold. split.
  - unfold AppFinal.load_zone_data. simpl. now rewrite Hold.
  - unfold table. simpl. now rewrite lookup_insert_eq.
Qed.

Lemma cached_frame_survives_save_witness :
  cache (snd (AppFinal.load_zone_data "3구역" sample_world)) !! "3구역" = Some sample_zone_df
  /\ table (snd (AppFinal.save_zone_data "3구역" []
                   (snd (AppFinal.load_zone_data "3구역" sample_world)))) "3구역" = [].
Proof.
  assert (H : cache (snd (AppFinal.load_zone_data "3구역" sample_world)) !! "3구역"
              = Some sample_zone_df) by reflexivity.
  split; [exact H |].
  exact (proj2 (cached_frame_survives_save "3구역" sample_zone_df [] _ H)).
Defined.

(** * Sheets sorted by month *)

Lemma key_leb_total (a b : Z * ActivityRow) :
  AppFinal.key_leb a b = true \/ AppFinal.key_leb b a = true.
Proof. unfold AppFinal.key_leb. lia. Qed.

Lemma key_leb_trans (a b c : Z * ActivityRow) :
  AppFinal.key_leb a b = true -> AppFinal.key_leb b c = true -> AppFinal.key_leb a c = true.
Proof. unfold AppFinal.key_leb. lia. Qed.

Lemma filter_none {A : Type} (f : A -> bool) (l : list A) :
  (forall a, In a l -> f a = false) -> List.filter f l = [].
Proof.
  induction l as [| x l IH]; intros H; [reflexivity |].
  simpl. rewrite (H x) by now left. apply IH. intros a Ha. apply H. now right.
Qed.

Lemma with_sort_key_None (df : list ActivityRow) :
  AppFinal.with_sort_key df = None
  <-> Exists (fun r => AppFinal.month_sort_key (r_date r) = None) df.
Proof.
  induction df as [| r df IH]; simpl.
  - split; [discriminate | intros H; inversion H].
  - destruct (AppFinal.month_sort_key (r_date r)) as [k |] eqn:Ek.
    + destruct (AppFinal.with_sort_key df) as [rest |].
      * split; [discriminate |]. intros H. inversion H as [? ? H1 | ? ? H1]; subst.
        -- congruence.
        -- apply IH in H1. discriminate.
      * split; [| reflexivity]. intros _. apply Exists_cons_tl. now apply IH.
    + split; [| reflexivity]. intros _. now apply Exists_cons_hd.
Qed.

(** what the three sorting lines of the source do to a frame *)
Lemma sort_by_month_spec (df sorted : list ActivityRow) :
  AppFinal.sort_by_month df = Some sorted ->
  Permutation sorted df
  /\ StronglySorted not_before sorted.
Proof.
  unfold AppFinal.sort_by_month.
  destruct (AppFinal.with_sort_key df) as [keyed |] eqn:Ek; [| discriminate].
  simpl. intros [= <-].
  destruct (with_sort_key_keys _ _ Ek) as [Hmap Hkeys].
  pose proof (sort_values_desc_perm AppFinal.key_leb keyed) as Hperm.
  assert (Hsk : Forall (fun kr => AppFinal.month_sort_key (r_date (snd kr)) = Some (fst kr))
                       (Py.sort_values_desc AppFinal.key_leb keyed)).
  { eapply Permutation_Forall; [symmetry; exact Hperm | exact Hkeys]. }
  split.
  - rewrite <- Hmap. now apply Permutation_map.
  - eapply strongly_sorted_map;
      [| exact Hsk | apply (sort_values_desc_sorted _ key_leb_total key_leb_trans)].
    intros a b Ha Hb Hab. simpl in *. unfold not_before. rewrite Ha, Hb.
    unfold AppFinal.key_leb in Hab. lia.
Qed.

(** * Monthly provisioning in general *)

Lemma filter_filter_and {A : Type} (f g : A -> bool) (l : list A) :
  List.filter f (List.filter g l) = List.filter (fun x => g x && f x) l.
Proof.
  induction l as [| x l IH]; [reflexivity |].
  simpl. destruct (g x); simpl; [destruct (f x) |]; now rewrite IH.
Qed.

Lemma unique_NoDup (l : list string) : List.NoDup (Py.unique l).
Proof.
  induction l as [| x l IH]; simpl; [constructor |].
  constructor; [| now apply List.NoDup_filter].
  intros Hin. apply List.filter_In in Hin as [_ Hx].
  now rewrite String.eqb_refl in Hx.
Qed.

Section Provisioning.
Context (filtered_df : list Member) (date_str : string).

Local Abbreviation members_of zone :=
  (List.filter (fun m => String.eqb (m_zone m) zone && String.eqb (m_status m) "재적")
               filtered_df).

Local Abbreviation new_rows zone := (map (AppFinal.new_record date_str) (members_of zone)).

Local Abbreviation body := (AppFinal.provision_zone filtered_df date_str).

(** one turn of the loop over the zones *)
Lemma provision_zone_spec (n : Z) (zone : string) (w : World) :
  body n zone w
  = if String.eqb zone "" then (Some n, w)
    else match members_of zone with
         | [] => (Some n, w)
         | _ :: _ =>
             match AppFinal.sort_by_month (new_rows zone ++ loaded w zone)%list with
             | Some sorted => (Some (n + 1)%Z, write zone sorted (remember zone w))
             | None => (None, remember zone w)
             end
         end.
Proof.
  unfold AppFinal.provision_zone.
  destruct (String.eqb zone ""); [reflexivity |].
  destruct (List.filter _ filtered_df) as [| m ms]; [reflexivity |].
  unfold bind at 1. rewrite load_zone_data_spec. cbv zeta.
  destruct (loaded w zone) as [| r rs]; unfold bind, lift.
  - rewrite app_nil_r. destruct (AppFinal.sort_by_month _); reflexivity.
  - destruct (AppFinal.sort_by_month _); reflexivity.
Qed.

Lemma provision_zone_frame (n : Z) (zone : string) (w : World) :
  (forall z, loaded (snd (body n zone w)) z = loaded w z)
  /\ (forall z, z <> zone -> sheets (snd (body n zone w)) !! z = sheets w !! z)
  /\ (zone = "" \/ members_of zone = [] -> snd (body n zone w) = w).
Proof.
  rewrite provision_zone_spec.
  destruct (String.eqb zone "") eqn:Ez.
  { repeat split; reflexivity. }
  destruct (List.filter _ filtered_df) as [| m ms] eqn:Em.
  { repeat split; reflexivity. }
  apply String.eqb_neq in Ez.
  destruct (AppFinal.sort_by_month _) as [sorted |]; simpl.
  - split; [| split].
    + intros z. apply loaded_write_remember.
    + intros z Hz. now rewrite lookup_insert_ne by congruence.
    + intros [H | H]; [contradiction | discriminate].
  - split; [| split].
    + intros z. apply loaded_remember.
    + reflexivity.
    + intros [H | H]; [contradiction | discriminate].
Qed.

(** whatever the loop does, also when it raises: the frames the cache
    serves stay the same, and only sheets of zones with a name and an
    active member are written *)
Lemma for_zones_frame (zones : list string) (n : Z) (w : World) :
  (forall z, loaded (snd (AppFinal.for_zones body n zones w)) z = loaded w z)
  /\ (forall z, ~ In z zones \/ z = "" \/ members_of z = [] ->
                sheets (snd (AppFinal.for_zones body n zones w)) !! z = sheets w !! z).
Proof.
  revert n w. induction zones as [| zone rest IH]; intros n w.
  { split; reflexivity. }
  simpl. unfold bind.
  destruct (provision_zone_frame n zone w) as (Hl & Hs & Hsame).
  destruct (body n zone w) as [[n1 |] w1]; simpl in *.
  - destruct (IH n1 w1) as [IHl IHs]. split.
    + intros z. now rewrite IHl.
    + intros z Hz. rewrite IHs by tauto.
      destruct (String.eqb_spec z zone) as [-> | Hne]; [| now apply Hs].
      rewrite Hsame; [reflexivity |]. tauto.
  - split; [exact Hl |]. intros z Hz.
    destruct (String.eqb_spec z zone) as [-> | Hne]; [| now apply Hs].
    rewrite Hsame; [reflexivity |]. tauto.
Qed.

(** a loop that comes to its end has written every zone that has a name
    and an active member, and counted it *)
Lemma for_zones_rows (zones : list string) (n n' : Z) (w w' : World) :
  List.NoDup zones ->
  AppFinal.for_zones body n zones w = (Some n', w') ->
  (n <= n')%Z
  /\ (forall z, In z zones -> z <> "" -> members_of z <> [] ->
        (n < n')%Z
        /\ exists sorted,
             AppFinal.sort_by_month (new_rows z ++ loaded w z)%list = Some sorted
             /\ sheets w' !! z = Some sorted)
  /\ ((n < n')%Z -> exists z, In z zones /\ z <> "" /\ members_of z <> []).
Proof.
  revert n w. induction zones as [| zone rest IH]; intros n w Hnd Hrun.
  { simpl in Hrun. injection Hrun as <- <-.
    split; [lia |]. split; [intros z [] | lia]. }
  inversion Hnd as [| ? ? Hnotin Hnd']; subst.
  simpl in Hrun. unfold bind in Hrun.
  pose proof (provision_zone_spec n zone w) as Hstep.
  destruct (body n zone w) as [[n1 |] w1] eqn:Ebody; [| discriminate].
  destruct (IH n1 w1 Hnd' Hrun) as (Hle & Hrows & Hsome).
  pose proof (for_zones_frame rest n1 w1) as [_ Hframe]. rewrite Hrun in Hframe.
  simpl in Hframe.
  destruct (String.eqb zone "") eqn:Ez.
  { injection Hstep as -> ->. apply String.eqb_eq in Ez. subst zone.
    split; [exact Hle |]. split.
    - intros z [<- | Hz] Hne Hmem; [contradiction | now apply Hrows].
    - intros Hlt. destruct (Hsome Hlt) as (z & Hz & Hrest). exists z. split; [now right | exact Hrest]. }
  destruct (List.filter _ filtered_df) as [| m ms] eqn:Em.
  { injection Hstep as -> ->.
    split; [exact Hle |]. split.
    - intros z [<- | Hz] Hne Hmem; [now rewrite Em in Hmem | now apply Hrows].
    - intros Hlt. destruct (Hsome Hlt) as (z & Hz & Hrest). exists z. split; [now right | exact Hrest]. }
  destruct (AppFinal.sort_by_month _) as [sorted |] eqn:Esort; [| discriminate].
  injection Hstep as -> ->. apply String.eqb_neq in Ez.
  split; [lia |]. split.
  - intros z [<- | Hz] Hne Hmem.
    + split; [lia |]. exists sorted. rewrite Em. split; [exact Esort |].
      rewrite Hframe by tauto. simpl. now rewrite lookup_insert_eq.
    + destruct (Hrows z Hz Hne Hmem) as (Hlt & sorted' & Hs1 & Hs2).
      split; [lia |]. exists sorted'. split; [| exact Hs2].
      now rewrite loaded_write_remember in Hs1.
  - intros _. exists zone. split; [now left |]. split; [exact Ez |]. now rewrite Em.
Qed.

End Provisioning.

(** the active members of a zone in the filtered roster *)
Lemma members_of_selection (master_df : list Member) (region_filter zone : string) :
  List.filter (fun m => String.eqb (m_zone m) zone && String.eqb (m_status m) "재적")
    (if negb (String.eqb region_filter "전체")
     then List.filter (fun m => String.eqb (m_region m) region_filter) master_df
     else master_df)
  = provisioned_members master_df region_filter zone.
Proof.
  unfold provisioned_members. destruct (String.eqb region_filter "전체"); simpl.
  - reflexivity.
  - rewrite filter_filter_and. apply List.filter_ext. intros m.
    now rewrite andb_assoc.
Qed.

(** X3.  A call of [create_monthly_records] that reports success has
    given every zone of the selection that has a name and an active
    member its new rows: the sheet of the zone holds one zero-flag row
    per such member and every row of the frame that was loaded, no row
    lost or altered, with the latest month on top (in which order the
    rows of one month stand is left to the sort).  The frames the read
    cache serves are still the ones from before the call. *)
Theorem create_monthly_records_rows (master_df : list Member)
    (target_month region_filter date_str zone : string) (w : World) :
  AppFinal.normalize_month target_month = Some date_str ->
  fst (AppFinal.create_monthly_records master_df target_month region_filter w) = true ->
  zone <> "" ->
  provisioned_members master_df region_filter zone <> [] ->
  let w' := snd (AppFinal.create_monthly_records master_df target_month region_filter w) in
  let added := map (AppFinal.new_record date_str)
                   (provisioned_members master_df region_filter zone) in
  Permutation (table w' zone) (added ++ loaded w zone)
  /\ StronglySorted not_before (table w' zone)
  /\ (forall z, loaded w' z = loaded w z).
Proof.
  intros Hmonth Hok Hzone Hmem. cbv zeta.
  unfold AppFinal.create_monthly_records, try_except in *.
  unfold bind at 1 in Hok. unfold bind at 1. unfold lift in *. rewrite Hmonth in *.
  unfold bind in *.
  set (filtered_df := if negb (String.eqb region_filter "전체")
                      then List.filter (fun m => String.eqb (m_region m) region_filter) master_df
                      else master_df) in *.
  pose proof (for_zones_frame filtered_df date_str
                (Py.unique (map m_zone filtered_df)) 0 w) as [Hloaded _].
  destruct (AppFinal.for_zones _ 0%Z (Py.unique (map m_zone filtered_df)) w)
    as [[n' |] w'] eqn:Erun; [| discriminate].
  simpl in *.
  destruct (for_zones_rows _ _ _ _ _ _ _ (unique_NoDup _) Erun) as (_ & Hrows & _).
  assert (Hsel : List.filter (fun m => String.eqb (m_zone m) zone
                                       && String.eqb (m_status m) "재적") filtered_df
                 = provisioned_members master_df region_filter zone)
    by apply members_of_selection.
  assert (Hin : In zone (Py.unique (map m_zone filtered_df))).
  { apply unique_In. destruct (provisioned_members master_df region_filter zone)
      as [| m ms] eqn:Em; [contradiction |].
    assert (Hm : In m (List.filter (fun m => String.eqb (m_zone m) zone
                                             && String.eqb (m_status m) "재적") filtered_df))
      by (rewrite Hsel; now left).
    apply List.filter_In in Hm as [Hm Hz]. apply andb_true_iff in Hz as [Hz _].
    apply String.eqb_eq in Hz. subst zone. now apply in_map. }
  destruct (Hrows zone Hin Hzone) as (_ & sorted & Hsort & Hsheet).
  { now rewrite Hsel. }
  rewrite Hsel in Hsort.
  destruct (sort_by_month_spec _ _ Hsort) as (Hperm & Hsorted).
  unfold table. rewrite Hsheet. simpl.
  repeat split; assumption.
Qed.

Lemma create_monthly_records_rows_witness :
  AppFinal.normalize_month "2024년 11월" = Some "11월"
  /\ fst (AppFinal.create_monthly_records sample_roster "2024년 11월" "도원" sample_world) = true
  /\ "3구역" <> ""
  /\ provisioned_members sample_roster "도원" "3구역" <> []
  /\ Permutation
       (table (snd (AppFinal.create_monthly_records sample_roster "2024년 11월" "도원"
                      sample_world)) "3구역")
       (map (AppFinal.new_record "11월") (provisioned_members sample_roster "도원" "3구역")
        ++ loaded sample_world "3구역").
Proof.
  assert (H1 : AppFinal.normalize_month "2024년 11월" = Some "11월") by reflexivity.
  assert (H2 : fst (AppFinal.create_monthly_records sample_roster "2024년 11월" "도원"
                      sample_world) = true) by (vm_compute; reflexivity).
  assert (H3 : "3구역" <> "") by discriminate.
  assert (H4 : provisioned_members sample_roster "도원" "3구역" <> [])
    by (vm_compute; discriminate).
  repeat (split; [assumption |]).
  exact (proj1 (create_monthly_records_rows sample_roster "2024년 11월" "도원" "11월" "3구역"
                  sample_world H1 H2 H3 H4)).
Defined.

(** X4.  [create_monthly_records] writes no sheet but those of the zones
    that have a name and an active member in the selected region: the
    sheet of any other zone is after the call what it was before, whether
    the call succeeds, fails or raises inside. *)
Theorem create_monthly_records_frame (master_df : list Member)
    (target_month region_filter zone : string) (w : World) :
  zone = "" \/ provisioned_members master_df region_filter zone = [] ->
  sheets (snd (AppFinal.create_monthly_records master_df target_month region_filter w))
    !! zone
  = sheets w !! zone.
Proof.
  intros Hzone.
  unfold AppFinal.create_monthly_records, try_except.
  unfold bind at 1. unfold lift.
  destruct (AppFinal.normalize_month target_month) as [date_str |]; [| reflexivity].
  unfold bind.
  set (filtered_df := if negb (String.eqb region_filter "전체")
                      then List.filter (fun m => String.eqb (m_region m) region_filter) master_df
                      else master_df).
  pose proof (for_zones_frame filtered_df date_str
                (Py.unique (map m_zone filtered_df)) 0 w) as [_ Hframe].
  specialize (Hframe zone).
  unfold filtered_df in Hframe at 2. rewrite members_of_selection in Hframe.
  destruct (AppFinal.for_zones _ 0%Z (Py.unique (map m_zone filtered_df)) w)
    as [[n' |] w'] eqn:Erun; simpl in *; apply Hframe; tauto.
Qed.

Lemma create_monthly_records_frame_witness :
  ("5구역" = "" \/ provisioned_members sample_roster "전체" "5구역" = [])
  /\ sheets (snd (AppFinal.create_monthly_records sample_roster "11월" "전체" sample_world))
       !! "5구역"
     = sheets sample_world !! "5구역".
Proof.
  assert (H : "5구역" = "" \/ provisioned_members sample_roster "전체" "5구역" = [])
    by (right; reflexivity).
  split; [exact H |].
  exact (create_monthly_records_frame sample_roster "11월" "전체" "5구역" sample_world H).
Defined.

(** ** The month label *)

Lemma string_length_app (s t : string) :
  String.length (s ++ t) = (String.length s + String.length t)%nat.
Proof. induction s as [| c s IH]; simpl; [reflexivity | now rewrite IH]. Qed.

Lemma drop_length_app (s t : string) : Py.drop (String.length s) (s ++ t) = t.
Proof.
  induction s as [| c s IH]; simpl; [now destruct t | exact IH].
Qed.

Lemma endswith_app (s suffix : string) : Py.endswith (s ++ suffix) suffix = true.
Proof.
  unfold Py.endswith. rewrite string_length_app.
  replace (String.length s + String.length suffix - String.length suffix)%nat
    with (String.length s) by lia.
  rewrite drop_length_app, String.eqb_refl.
  rewrite andb_true_r. apply Nat.leb_le. lia.
Qed.

(** X5.  The label [create_monthly_records] writes into the 날짜 cells
    always ends in "월", whatever text it was given; a text that has a
    "년" but no "년 " has no label: the call then reports failure and
    writes nothing. *)
Theorem normalize_month_label (master_df : list Member)
    (target_month region_filter : string) (w : World) :
  match AppFinal.normalize_month target_month with
  | Some date_str => Py.endswith date_str "월" = true
  | None =>
      Py.contains "년" target_month = true
      /\ Py.after "년 " target_month = None
      /\ AppFinal.create_monthly_records master_df target_month region_filter w = (false, w)
  end.
Proof.
  destruct (AppFinal.normalize_month target_month) as [date_str |] eqn:E.
  - unfold AppFinal.normalize_month in E.
    destruct (Py.contains "년" target_month).
    + destruct (Py.split_item1 "년 " target_month) as [piece |]; [| discriminate].
      injection E as <-. apply endswith_app.
    + injection E as <-.
      destruct (Py.endswith target_month "월") eqn:Eend; [exact Eend | apply endswith_app].
  - split; [| split].
    + unfold AppFinal.normalize_month in E.
      destruct (Py.contains "년" target_month); [reflexivity | discriminate].
    + unfold AppFinal.normalize_month, Py.split_item1 in E.
      destruct (Py.contains "년" target_month); [| discriminate].
      destruct (Py.after "년 " target_month); [discriminate | reflexivity].
    + unfold AppFinal.create_monthly_records, try_except, bind, lift. now rewrite E.
Qed.

(** X6.  The month-generation tab passes the label [f"{month}월"] for a
    month number from 1 to 12.  Such a label is kept as it is, and the
    number is the key it is sorted by. *)
Theorem generated_month_label (m : Z) :
  (1 <= m <= 12)%Z ->
  AppFinal.normalize_month (pretty m ++ "월") = Some (pretty m ++ "월")
  /\ AppFinal.month_sort_key (pretty m ++ "월") = Some m.
Proof.
  intros Hm.
  assert (H : (m = 1 \/ m = 2 \/ m = 3 \/ m = 4 \/ m = 5 \/ m = 6 \/ m = 7 \/ m = 8
               \/ m = 9 \/ m = 10 \/ m = 11 \/ m = 12)%Z) by lia.
  repeat (destruct H as [-> | H]; [split; vm_compute; reflexivity |]).
  subst m. split; vm_compute; reflexivity.
Qed.

Lemma generated_month_label_witness :
  (1 <= 11 <= 12)%Z /\ AppFinal.month_sort_key (pretty 11%Z ++ "월") = Some 11%Z.
Proof.
  assert (H : (1 <= 11 <= 12)%Z) by lia.
  split; [exact H | exact (proj2 (generated_month_label 11 H))].
Defined.

(** * Zone reassignment: the other cases *)

Lemma head_filter_name_None (master_df : list Member) (member_name : string) :
  head (List.filter (fun m => String.eqb (m_name m) member_name) master_df) = None
  <-> Forall (fun m => m_name m <> member_name) master_df.
Proof.
  induction master_df as [| m l IH]; simpl.
  - split; [constructor | reflexivity].
  - destruct (String.eqb_spec (m_name m) member_name) as [E | E]; simpl.
    + split; [discriminate |]. intros H. inversion H; subst. contradiction.
    + rewrite IH. split.
      * intros H. now constructor.
      * intros H. now inversion H.
Qed.

(** the value [sync_member_to_zones] returns for a member of the roster *)
Lemma sync_outcome (master_df : list Member) (member_name new_zone : string)
    (old_zone : option string) (member_info : Member) (w : World) :
  head (List.filter (fun m => String.eqb (m_name m) member_name) master_df)
  = Some member_info ->
  fst (AppFinal.sync_member_to_zones master_df member_name new_zone old_zone w)
  = match AppFinal.with_sort_key (loaded w new_zone) with
    | Some _ => true
    | None => false
    end.
Proof.
  intros Hinfo.
  unfold AppFinal.sync_member_to_zones, try_except, bind, lift. rewrite Hinfo.
  rewrite exclude_from_old_zone_spec, add_to_new_zone_spec.
  unfold after_add. rewrite loaded_after_exclude.
  destruct (loaded w new_zone) as [| r df]; [reflexivity |].
  destruct (AppFinal.with_sort_key (r :: df)) as [keyed |]; [| reflexivity].
  destruct (records_of _ _ _); reflexivity.
Qed.

(** X7.  For a name that is not in the roster [sync_member_to_zones]
    returns [False] and leaves the spreadsheet and the read cache as they
    were: the lookup of the member raises before any sheet is read. *)
Theorem sync_unknown_member (master_df : list Member) (member_name new_zone : string)
    (old_zone : option string) (w : World) :
  Forall (fun m => m_name m <> member_name) master_df ->
  AppFinal.sync_member_to_zones master_df member_name new_zone old_zone w = (false, w).
Proof.
  intros Hnone. apply head_filter_name_None in Hnone.
  unfold AppFinal.sync_member_to_zones, try_except, bind, lift. now rewrite Hnone.
Qed.

Lemma sync_unknown_member_witness :
  Forall (fun m => m_name m <> "한지우") sample_roster
  /\ AppFinal.sync_member_to_zones sample_roster "한지우" "5구역" (Some "3구역") sample_world
     = (false, sample_world).
Proof.
  assert (H : Forall (fun m => m_name m <> "한지우") sample_roster)
    by (repeat (apply List.Forall_cons; [discriminate |]); apply List.Forall_nil).
  split; [exact H |].
  exact (sync_unknown_member sample_roster "한지우" "5구역" (Some "3구역") sample_world H).
Defined.

(** X8.  [sync_member_to_zones] writes at most two sheets, the one of the
    old zone and the one of the new zone: any other sheet is after the
    call what it was before, whatever the outcome. *)
Theorem sync_touches_two_sheets (master_df : list Member) (member_name new_zone : string)
    (old_zone : option string) (w : World) (zone : string) :
  zone <> new_zone -> old_zone <> Some zone ->
  sheets (snd (AppFinal.sync_member_to_zones master_df member_name new_zone old_zone w))
    !! zone
  = sheets w !! zone.
Proof.
  intros Hnew Hold.
  destruct (head (List.filter (fun m => String.eqb (m_name m) member_name) master_df))
    as [member_info |] eqn:Hinfo.
  - rewrite (sync_member_to_zones_spec _ _ _ _ _ _ Hinfo).
    rewrite sheets_after_add_other by exact Hnew.
    rewrite sheets_after_exclude.
    destruct (AppFinal.zone_changed old_zone new_zone) as [oz |] eqn:Ez; [| reflexivity].
    apply zone_changed_Some in Ez as (-> & _ & _).
    destruct (loaded w oz); [reflexivity |].
    rewrite lookup_insert_ne by congruence. reflexivity.
  - unfold AppFinal.sync_member_to_zones, try_except, bind, lift. now rewrite Hinfo.
Qed.

Lemma sync_touches_two_sheets_witness :
  "3구역" <> "5구역" /\ Some "1구역" <> Some "3구역"
  /\ sheets (snd (AppFinal.sync_member_to_zones sample_roster "이서윤" "5구역" (Some "1구역")
                    sample_world)) !! "3구역"
     = sheets sample_world !! "3구역".
Proof.
  assert (H1 : "3구역" <> "5구역") by discriminate.
  assert (H2 : Some "1구역" <> Some "3구역") by discriminate.
  split; [exact H1 |]. split; [exact H2 |].
  exact (sync_touches_two_sheets sample_roster "이서윤" "5구역" (Some "1구역") sample_world
           "3구역" H1 H2).
Defined.

(** X9.  [sync_member_to_zones] returns [False] in two cases and no
    other: the name is not in the roster, or a row of the frame loaded
    for the new zone has a 날짜 that contains "월" and is no number
    without it. *)
Theorem sync_reports_failure (master_df : list Member) (member_name new_zone : string)
    (old_zone : option string) (w : World) :
  fst (AppFinal.sync_member_to_zones master_df member_name new_zone old_zone w) = false
  <-> (Forall (fun m => m_name m <> member_name) master_df
       \/ Exists (fun r => AppFinal.month_sort_key (r_date r) = None) (loaded w new_zone)).
Proof.
  destruct (head (List.filter (fun m => String.eqb (m_name m) member_name) master_df))
    as [member_info |] eqn:Hinfo.
  - rewrite (sync_outcome _ _ _ _ _ _ Hinfo).
    rewrite <- with_sort_key_None, <- head_filter_name_None, Hinfo.
    destruct (AppFinal.with_sort_key (loaded w new_zone)).
    + split; [discriminate | intros [H | H]; discriminate].
    + split; [now right | reflexivity].
  - pose proof Hinfo as Hnone. apply head_filter_name_None in Hnone.
    unfold AppFinal.sync_member_to_zones, try_except, bind, lift. rewrite Hinfo.
    simpl. tauto.
Qed.

(** X10.  The two writes of [sync_member_to_zones] are not undone by a
    failure.  When the old zone has rows and a label of the new zone's
    frame is no month number, the call returns [False], the new zone's
    sheet is as before, and the old zone's sheet has the member's rows
    set to "제외" all the same. *)
Theorem sync_failure_keeps_exclusion (master_df : list Member)
    (member_name new_zone oz : string) (member_info : Member) (w : World) :
  head (List.filter (fun m => String.eqb (m_name m) member_name) master_df)
  = Some member_info ->
  oz <> "" -> oz <> new_zone -> loaded w oz <> [] ->
  Exists (fun r => AppFinal.month_sort_key (r_date r) = None) (loaded w new_zone) ->
  let result := AppFinal.sync_member_to_zones master_df member_name new_zone (Some oz) w in
  fst result = false
  /\ table (snd result) oz = map (AppFinal.exclude member_name) (loaded w oz)
  /\ sheets (snd result) !! new_zone = sheets w !! new_zone.
Proof.
  intros Hinfo Hoz Hne Hrows Hbad. cbv zeta.
  apply with_sort_key_None in Hbad.
  split; [| split].
  - rewrite (sync_outcome _ _ _ _ _ _ Hinfo). now rewrite Hbad.
  - unfold table. now rewrite (table_after_sync_old_zone _ _ _ _ _ _ Hinfo Hoz Hne Hrows).
  - rewrite (sync_member_to_zones_spec _ _ _ _ _ _ Hinfo).
    assert (Hsame : sheets (after_exclude member_name new_zone (Some oz) w) !! new_zone
                    = sheets w !! new_zone).
    { rewrite sheets_after_exclude, (zone_changed_intro _ _ Hoz Hne).
      destruct (loaded w oz); [reflexivity |].
      now rewrite lookup_insert_ne by exact Hne. }
    rewrite sheets_after_add, loaded_after_exclude.
    destruct (loaded w new_zone) as [| r df]; [exact Hsame |].
    cbv zeta. rewrite Hbad. exact Hsame.
Qed.

Lemma sync_failure_keeps_exclusion_witness :
  head (List.filter (fun m => String.eqb (m_name m) "이서윤") sample_roster)
  = Some {| m_name := "이서윤"; m_region := "도원"; m_zone := "3구역"; m_role := "청년";
            m_status := "재적"; m_joined := "2024-01-01" |}
  /\ "3구역" <> "" /\ "3구역" <> "5구역" /\ loaded garbled_world "3구역" <> []
  /\ Exists (fun r => AppFinal.month_sort_key (r_date r) = None) (loaded garbled_world "5구역")
  /\ fst (AppFinal.sync_member_to_zones sample_roster "이서윤" "5구역" (Some "3구역")
            garbled_world) = false.
Proof.
  assert (H1 : head (List.filter (fun m => String.eqb (m_name m) "이서윤") sample_roster)
               = Some {| m_name := "이서윤"; m_region := "도원"; m_zone := "3구역";
                         m_role := "청년"; m_status := "재적"; m_joined := "2024-01-01" |})
    by reflexivity.
  assert (H2 : "3구역" <> "") by discriminate.
  assert (H3 : "3구역" <> "5구역") by discriminate.
  assert (H4 : loaded garbled_world "3구역" <> []) by (vm_compute; discriminate).
  assert (H5 : Exists (fun r => AppFinal.month_sort_key (r_date r) = None)
                      (loaded garbled_world "5구역"))
    by (apply Exists_cons_hd; reflexivity).
  repeat (split; [assumption |]).
  exact (proj1 (sync_failure_keeps_exclusion sample_roster "이서윤" "5구역" "3구역" _
                  garbled_world H1 H2 H3 H4 H5)).
Defined.

(** X11.  A new zone whose frame is empty (no sheet, a sheet without
    rows, or only rows with an empty 날짜) gets no record: the call
    returns [True] and the sheet of the new zone is what it was. *)
Theorem sync_without_new_sheet (master_df : list Member) (member_name new_zone : string)
    (old_zone : option string) (member_info : Member) (w : World) :
  head (List.filter (fun m => String.eqb (m_name m) member_name) master_df)
  = Some member_info ->
  loaded w new_zone = [] ->
  let result := AppFinal.sync_member_to_zones master_df member_name new_zone old_zone w in
  fst result = true /\ sheets (snd result) !! new_zone = sheets w !! new_zone.
Proof.
  intros Hinfo Hempty. cbv zeta. split.
  - rewrite (sync_outcome _ _ _ _ _ _ Hinfo). now rewrite Hempty.
  - rewrite (sync_member_to_zones_spec _ _ _ _ _ _ Hinfo).
    rewrite sheets_after_add, loaded_after_exclude, Hempty.
    rewrite sheets_after_exclude.
    destruct (AppFinal.zone_changed old_zone new_zone) as [oz |] eqn:Ez; [| reflexivity].
    apply zone_changed_Some in Ez as (_ & _ & Hne).
    destruct (loaded w oz); [reflexivity |].
    now rewrite lookup_insert_ne by exact Hne.
Qed.

Lemma sync_without_new_sheet_witness :
  head (List.filter (fun m => String.eqb (m_name m) "이서윤") sample_roster)
  = Some {| m_name := "이서윤"; m_region := "도원"; m_zone := "3구역"; m_role := "청년";
            m_status := "재적"; m_joined := "2024-01-01" |}
  /\ loaded sample_world "7구역" = []
  /\ sheets (snd (AppFinal.sync_member_to_zones sample_roster "이서윤" "7구역" (Some "3구역")
                    sample_world)) !! "7구역"
     = sheets sample_world !! "7구역".
Proof.
  assert (H1 : head (List.filter (fun m => String.eqb (m_name m) "이서윤") sample_roster)
               = Some {| m_name := "이서윤"; m_region := "도원"; m_zone := "3구역";
                         m_role := "청년"; m_status := "재적"; m_joined := "2024-01-01" |})
    by reflexivity.
  assert (H2 : loaded sample_world "7구역" = []) by reflexivity.
  split; [exact H1 |]. split; [exact H2 |].
  exact (proj2 (sync_without_new_sheet sample_roster "이서윤" "7구역" (Some "3구역") _
                  sample_world H1 H2)).
Defined.

(** ** The latest month of a frame *)

Lemma first_max_split (keyed : list (Z * ActivityRow)) (best : Z * ActivityRow) :
  exists pre post,
    best :: keyed = (pre ++ AppFinal.first_max best keyed :: post)%list
    /\ Forall (fun kr => (fst kr < fst (AppFinal.first_max best keyed))%Z) pre
    /\ Forall (fun kr => (fst kr <= fst (AppFinal.first_max best keyed))%Z) post.
Proof.
  revert best. induction keyed as [| kr rest IH]; intros best; simpl.
  { exists [], []. repeat split; constructor. }
  destruct (fst best <? fst kr)%Z eqn:Elt.
  - destruct (IH kr) as (pre & post & Heq & Hpre & Hpost).
    exists (best :: pre), post. split; [simpl; now rewrite Heq |]. split; [| exact Hpost].
    constructor; [| exact Hpre].
    assert (Hkr : (fst kr <= fst (AppFinal.first_max kr rest))%Z).
    { assert (Hin : In kr (pre ++ AppFinal.first_max kr rest :: post)%list)
        by (rewrite <- Heq; now left).
      rewrite List.Forall_forall in Hpre, Hpost.
      apply in_app_or in Hin as [Hin | [Hin | Hin]].
      - specialize (Hpre _ Hin). simpl in Hpre. lia.
      - rewrite Hin. lia.
      - specialize (Hpost _ Hin). simpl in Hpost. lia. }
    lia.
  - destruct (IH best) as (pre & post & Heq & Hpre & Hpost).
    destruct pre as [| b pre'].
    + simpl in Heq. injection Heq as Hbest Hrest.
      exists [], (kr :: post). split; [simpl; congruence |].
      split; [constructor |]. constructor; [| exact Hpost].
      rewrite <- Hbest. lia.
    + simpl in Heq. injection Heq as <- Hrest.
      exists (best :: kr :: pre'), post. split; [simpl; do 2 f_equal; exact Hrest |].
      split; [| exact Hpost].
      inversion Hpre as [| ? ? Hb Hpre']; subst.
      constructor; [exact Hb |]. constructor; [lia | exact Hpre'].
Qed.

(** X12.  The month [sync_member_to_zones] files the new record under is
    the 날짜 of a row of the frame whose month number is the largest, and
    of the first such row: every row above it has a smaller number, no
    row below it a larger one. *)
Theorem latest_date_is_first_maximum (df : list ActivityRow)
    (keyed : list (Z * ActivityRow)) :
  df <> [] ->
  AppFinal.with_sort_key df = Some keyed ->
  exists (pre post : list ActivityRow) (r : ActivityRow) (k : Z),
    df = (pre ++ r :: post)%list
    /\ AppFinal.latest_date keyed = r_date r
    /\ AppFinal.month_sort_key (r_date r) = Some k
    /\ Forall (fun r' => exists k', AppFinal.month_sort_key (r_date r') = Some k'
                                    /\ (k' < k)%Z) pre
    /\ Forall (fun r' => exists k', AppFinal.month_sort_key (r_date r') = Some k'
                                    /\ (k' <= k)%Z) post.
Proof.
  intros Hne Hkeyed.
  destruct (with_sort_key_keys _ _ Hkeyed) as [Hmap Hkeys].
  destruct keyed as [| kr rest]; [simpl in Hmap; congruence |].
  destruct (first_max_split rest kr) as (pre & post & Heq & Hpre & Hpost).
  rewrite Heq in Hkeys, Hmap.
  apply Forall_app in Hkeys as [Kpre Kmax].
  inversion Kmax as [| ? ? Kbest Kpost]; subst.
  exists (map snd pre), (map snd post), (snd (AppFinal.first_max kr rest)),
         (fst (AppFinal.first_max kr rest)).
  split; [now rewrite map_app in * |]. split; [reflexivity |]. split; [exact Kbest |].
  split.
  - apply List.Forall_map. rewrite List.Forall_forall in *. intros x Hx.
    exists (fst x). split; [now apply Kpre | now apply Hpre].
  - apply List.Forall_map. rewrite List.Forall_forall in *. intros x Hx.
    exists (fst x). split; [now apply Kpost | now apply Hpost].
Qed.

Lemma latest_date_is_first_maximum_witness :
  sample_zone_df <> []
  /\ exists keyed, AppFinal.with_sort_key sample_zone_df = Some keyed
                   /\ AppFinal.latest_date keyed = "11월".
Proof.
  assert (H1 : sample_zone_df <> []) by discriminate.
  split; [exact H1 |].
  eexists. split; [reflexivity |].
  destruct (latest_date_is_first_maximum sample_zone_df _ H1 eq_refl)
    as (pre & post & r & k & _ & _ & _ & _ & _).
  reflexivity.
Defined.

(** * The zone summary in closed form *)

Lemma final_rate_value (col : Flags -> Z) (active_df : list ActivityRow) :
  active_df <> [] ->
  Py.round_int (AppFinal.indicator_rate (AppFinal.column_sum col active_df)
                                        (Z.of_nat (List.length active_df)))
  = Some (rounded_share col active_df).
Proof.
  intros Hne.
  assert (Hpos : (0 < Z.of_nat (List.length active_df))%Z)
    by (destruct active_df; [contradiction | simpl; lia]).
  unfold AppFinal.indicator_rate, rounded_share.
  destruct (Z.ltb_spec 0 (Z.of_nat (List.length active_df))) as [_ | Hle]; [| lia].
  now rewrite (true_divide_positive _ _ Hpos).
Qed.

Lemma leader_name_find (active_df : list ActivityRow) :
  match map r_name (List.filter (fun r => Py.isin (r_role r) ["리더"; "구역장"; "간사"])
                                active_df) with
  | n :: _ => n
  | [] => "-"
  end = first_leader active_df.
Proof.
  unfold first_leader, leader_roles.
  induction active_df as [| r l IH]; [reflexivity |].
  cbn [List.filter List.find].
  destruct (Py.isin (r_role r) ["리더"; "구역장"; "간사"]); [reflexivity | exact IH].
Qed.

(** [calculate_zone_summary] of [app_final.py] as a function of the
    active rows of the month: it never raises, and in the branch that
    computes the rates the count is positive, so that the guard
    [if total_members > 0 else 0] always takes its first arm *)
Lemma final_summary_of_active (zone_df : list ActivityRow)
    (month zone_name region : string) :
  AppFinal.calculate_zone_summary zone_df month zone_name region
  = Some match active_rows month zone_df with
         | [] => None
         | (_ :: _) as active_df =>
             Some {| s_region := region;
                     s_zone := zone_name;
                     s_leader := first_leader active_df;
                     s_members := Z.of_nat (List.length active_df);
                     s_overall := rounded_share f_overall active_df;
                     s_inperson := rounded_share f_inperson active_df;
                     s_mysim := rounded_share f_mysim active_df;
                     s_ongoing := rounded_share f_ongoing active_df;
                     s_outreach := rounded_share f_outreach active_df;
                     s_hanja := rounded_share f_outreach active_df;
                     s_tithe := rounded_share f_tithe active_df |}
         end.
Proof.
  unfold AppFinal.calculate_zone_summary, active_rows.
  destruct zone_df as [| r0 rest]; [reflexivity |].
  destruct (List.filter (fun r => String.eqb (r_date r) month) (r0 :: rest))
    as [| m0 month_rest]; [reflexivity |].
  destruct (List.filter (fun r => String.eqb (r_status r) "재적") (m0 :: month_rest))
    as [| a0 active_rest]; [reflexivity |].
  cbv zeta.
  rewrite !final_rate_value by discriminate.
  rewrite leader_name_find. reflexivity.
Qed.

Lemma active_rows_again (month : string) (zone_df : list ActivityRow) :
  active_rows month (active_rows month zone_df) = active_rows month zone_df.
Proof.
  unfold active_rows. rewrite !filter_filter_and.
  apply List.filter_ext. intros r.
  destruct (String.eqb (r_date r) month), (String.eqb (r_status r) "재적"); reflexivity.
Qed.

(** X13.  [calculate_zone_summary] of [app_final.py] never raises; it
    returns [None] exactly when the month has no active row in the frame;
    and its result is that of the call on the active rows of the month
    alone: the rows of other months and the rows that are not "재적" have
    no part in it. *)
Theorem zone_summary_rows_that_count (zone_df : list ActivityRow)
    (month zone_name region : string) :
  AppFinal.calculate_zone_summary zone_df month zone_name region <> None
  /\ (AppFinal.calculate_zone_summary zone_df month zone_name region = Some None
      <-> active_rows month zone_df = [])
  /\ AppFinal.calculate_zone_summary zone_df month zone_name region
     = AppFinal.calculate_zone_summary (active_rows month zone_df) month zone_name region
  /\ (forall other : list ActivityRow,
        active_rows month other = active_rows month zone_df ->
        AppFinal.calculate_zone_summary other month zone_name region
        = AppFinal.calculate_zone_summary zone_df month zone_name region).
Proof.
  split; [| split; [| split]].
  - rewrite final_summary_of_active. discriminate.
  - rewrite final_summary_of_active.
    destruct (active_rows month zone_df); split; congruence.
  - rewrite (final_summary_of_active (active_rows month zone_df)), active_rows_again.
    apply final_summary_of_active.
  - intros other Hsame. rewrite !final_summary_of_active. now rewrite Hsame.
Qed.

Lemma round_half_even_half (x : Q) :
  (x - (1 # 2) <= inject_Z (Py.round_half_even x) <= x + (1 # 2))%Q.
Proof.
  unfold Py.round_half_even.
  pose proof (Qfloor_le x) as Hlo. pose proof (Qlt_floor x) as Hhi.
  rewrite inject_Z_plus in Hhi. change (inject_Z 1) with 1%Q in Hhi.
  destruct (Qcompare_spec (x - inject_Z (Qfloor x)) (1 # 2)) as [E | L | G].
  - destruct (Z.even (Qfloor x)); rewrite ?inject_Z_plus;
      change (inject_Z 1) with 1%Q; split; lra.
  - split; lra.
  - rewrite inject_Z_plus. change (inject_Z 1) with 1%Q. split; lra.
Qed.

Lemma rounded_share_nearest (col : Flags -> Z) (active_df : list ActivityRow) :
  active_df <> [] ->
  nearest_percent (AppFinal.column_sum col active_df) (Z.of_nat (List.length active_df))
                  (rounded_share col active_df).
Proof.
  intros Hne. unfold nearest_percent, rounded_share.
  set (n := Z.of_nat (List.length active_df)).
  set (sum := AppFinal.column_sum col active_df).
  assert (Hn : (0 < n)%Z) by (subst n; destruct active_df; [contradiction | simpl; lia]).
  set (x := (inject_Z sum / inject_Z n * 100)%Q).
  destruct (round_half_even_half x) as [Hlo Hhi].
  set (v := Py.round_half_even x) in *.
  assert (HnQ : (inject_Z 0 < inject_Z n)%Q) by (rewrite <- Zlt_Qlt; exact Hn).
  change (inject_Z 0) with 0%Q in HnQ.
  assert (Hx : (x * inject_Z n == 100 * inject_Z sum)%Q).
  { unfold x. field. lra. }
  assert (H1 : (inject_Z (2 * (v * n)) <= inject_Z (200 * sum + n))%Q).
  { rewrite inject_Z_plus, !inject_Z_mult.
    change (inject_Z 2) with 2%Q. change (inject_Z 200) with 200%Q. nra. }
  assert (H2 : (inject_Z (200 * sum) <= inject_Z (2 * (v * n) + n))%Q).
  { rewrite inject_Z_plus, !inject_Z_mult.
    change (inject_Z 2) with 2%Q. change (inject_Z 200) with 200%Q. nra. }
  rewrite <- Zle_Qle in H1, H2. lia.
Qed.

(** 23 active rows of 40 is 57.5 percent: 57 and 58 are equally near *)
Example ex_nearest_percent_tie :
  nearest_percent 23 40 57 /\ nearest_percent 23 40 58
  /\ ~ nearest_percent 23 40 56 /\ ~ nearest_percent 23 40 59.
Proof. unfold nearest_percent. repeat split; lia. Qed.

(** X14.  The summary [calculate_zone_summary] of [app_final.py] returns
    for a month: region and zone as given; 재적 the number of active rows
    of the month, which is positive; 구역장 the name in the first of these
    rows that has a leader's role, "-" if none has; each percentage an
    integer nearest to 100 times the column sum over that number, 한자율
    from the 전도 column.  (Where two integers are equally near, which of
    them comes out hangs on the rounding of the float quotient and is not
    stated.) *)
Theorem zone_summary_fields (zone_df : list ActivityRow)
    (month zone_name region : string) (s : ZoneSummary) :
  AppFinal.calculate_zone_summary zone_df month zone_name region = Some (Some s) ->
  s_region s = region /\ s_zone s = zone_name
  /\ s_members s = Z.of_nat (List.length (active_rows month zone_df))
  /\ (0 < s_members s)%Z
  /\ s_leader s = first_leader (active_rows month zone_df)
  /\ Forall2 (fun col v =>
                nearest_percent (AppFinal.column_sum col (active_rows month zone_df))
                                (s_members s) v)
             rate_sources (summary_rates s).
Proof.
  rewrite final_summary_of_active.
  destruct (active_rows month zone_df) as [| a0 active_rest] eqn:Ea; [discriminate |].
  intros [= <-]. cbn [s_region s_zone s_members s_leader].
  repeat split; try reflexivity.
  unfold rate_sources, summary_rates.
  cbn [s_overall s_inperson s_mysim s_ongoing s_outreach s_hanja s_tithe].
  repeat constructor; apply rounded_share_nearest; discriminate.
Qed.

Lemma zone_summary_fields_witness :
  AppFinal.calculate_zone_summary sample_zone_df "11월" "3구역" "도원"
  = Some (Some {| s_region := "도원"; s_zone := "3구역"; s_leader := "김민준";
                  s_members := 3; s_overall := 67; s_inperson := 33; s_mysim := 67;
                  s_ongoing := 0; s_outreach := 33; s_hanja := 33; s_tithe := 67 |})
  /\ 3%Z = Z.of_nat (List.length (active_rows "11월" sample_zone_df)).
Proof.
  assert (H : AppFinal.calculate_zone_summary sample_zone_df "11월" "3구역" "도원"
              = Some (Some {| s_region := "도원"; s_zone := "3구역"; s_leader := "김민준";
                              s_members := 3; s_overall := 67; s_inperson := 33;
                              s_mysim := 67; s_ongoing := 0; s_outreach := 33;
                              s_hanja := 33; s_tithe := 67 |}))
    by (vm_compute; reflexivity).
  split; [exact H |].
  exact (proj1 (proj2 (proj2 (zone_summary_fields sample_zone_df "11월" "3구역" "도원" _ H)))).
Defined.

(** ** The order of the rows *)

Lemma sumZ_perm (l1 l2 : list Z) : Permutation l1 l2 -> Py.sumZ l1 = Py.sumZ l2.
Proof.
  induction 1 as [| x l1 l2 _ IH | x y l | l1 l2 l3 _ IH1 _ IH2]; simpl; lia.
Qed.

Lemma rounded_share_perm (col : Flags -> Z) (l1 l2 : list ActivityRow) :
  Permutation l1 l2 -> rounded_share col l1 = rounded_share col l2.
Proof.
  intros Hp. unfold rounded_share, AppFinal.column_sum.
  rewrite (sumZ_perm _ _ (Permutation_map (fun r => col (r_flags r)) Hp)).
  now rewrite (Permutation_length Hp).
Qed.

(** X15.  The order of the rows of a zone sheet has no influence on the
    count and the percentages of a summary: two frames with the same rows
    in any order have summaries with the same 재적 and the same seven
    rates.  (The 구역장 is the first leader in row order and may differ.) *)
Theorem zone_summary_row_order (df1 df2 : list ActivityRow)
    (month zone_name region : string) (s1 : ZoneSummary) :
  Permutation df1 df2 ->
  AppFinal.calculate_zone_summary df1 month zone_name region = Some (Some s1) ->
  exists s2,
    AppFinal.calculate_zone_summary df2 month zone_name region = Some (Some s2)
    /\ s_members s2 = s_members s1
    /\ summary_rates s2 = summary_rates s1.
Proof.
  intros Hp. rewrite !final_summary_of_active.
  assert (Ha : Permutation (active_rows month df1) (active_rows month df2))
    by (unfold active_rows; now do 2 apply filter_perm).
  destruct (active_rows month df1) as [| a1 l1] eqn:E1; [discriminate |].
  destruct (active_rows month df2) as [| a2 l2] eqn:E2.
  { apply Permutation_length in Ha. discriminate. }
  intros [= <-]. eexists. split; [reflexivity |].
  unfold summary_rates. cbn [s_members s_overall s_inperson s_mysim s_ongoing s_outreach
                               s_hanja s_tithe].
  pose proof (Permutation_length Ha) as Hlen. simpl in Hlen.
  rewrite !(rounded_share_perm _ _ _ Ha).
  split; [f_equal; simpl; lia | reflexivity].
Qed.

Lemma zone_summary_row_order_witness :
  Permutation sample_zone_df (rev sample_zone_df)
  /\ exists s2,
       AppFinal.calculate_zone_summary (rev sample_zone_df) "11월" "3구역" "도원"
       = Some (Some s2)
       /\ s_members s2 = 3%Z.
Proof.
  assert (Hp : Permutation sample_zone_df (rev sample_zone_df)) by apply Permutation_rev.
  assert (H : AppFinal.calculate_zone_summary sample_zone_df "11월" "3구역" "도원"
              = Some (Some {| s_region := "도원"; s_zone := "3구역"; s_leader := "김민준";
                              s_members := 3; s_overall := 67; s_inperson := 33;
                              s_mysim := 67; s_ongoing := 0; s_outreach := 33;
                              s_hanja := 33; s_tithe := 67 |}))
    by (vm_compute; reflexivity).
  split; [exact Hp |].
  destruct (zone_summary_row_order _ _ "11월" "3구역" "도원" _ Hp H) as (s2 & H2 & Hm & _).
  exists s2. split; [exact H2 | exact Hm].
Defined.

(** * The composite score: what it depends on, and its range *)

Lemma score_step_num (row : gmap string cell) (weights : gmap string Q) (sc : Q)
    (ind : string) (r : Q) :
  row !! ind = Some (Num r) ->
  exists sc', Scoring.score_step row weights (Some sc) ind = Some sc'
              /\ (sc' == sc + r * weight_of weights ind / 100)%Q.
Proof.
  intros Hr. unfold Scoring.score_step, weight_of. rewrite Hr.
  destruct (weights !! ind) as [w |]; simpl.
  - eexists. split; [reflexivity |]. field.
  - eexists. split; [reflexivity |]. field.
Qed.

(** the score of a summary for any weight mapping: an indicator without
    a weight counts with the weight 0 *)
Lemma score_of_rates (s : ZoneSummary) (weights : gmap string Q) :
  Scoring.calculate_comprehensive_score (as_dict s) weights
  = Some (composite_score_spec (indicator_rates s)
                               (map (weight_of weights) Scoring.indicators)).
Proof.
  destruct (as_dict_indicators s) as (D1 & D2 & D3 & D4 & D5 & D6).
  unfold Scoring.calculate_comprehensive_score,
    Scoring.indicators.
  cbn [fold_left].
  destruct (score_step_num _ weights 0 _ _ D1) as (a1 & -> & E1).
  destruct (score_step_num _ weights a1 _ _ D2) as (a2 & -> & E2).
  destruct (score_step_num _ weights a2 _ _ D3) as (a3 & -> & E3).
  destruct (score_step_num _ weights a3 _ _ D4) as (a4 & -> & E4).
  destruct (score_step_num _ weights a4 _ _ D5) as (a5 & -> & E5).
  destruct (score_step_num _ weights a5 _ _ D6) as (a6 & -> & E6).
  cbn [option_map]. f_equal. apply round1_comp.
  unfold composite_score_spec, indicator_rates.
  cbn [map combine Py.sumQ fold_right fst snd].
  rewrite E6, E5, E4, E3, E2, E1. field.
Qed.

(** X16.  The composite score of a summary is a function of its six
    indicator rates and of the weights of the six indicators, an absent
    weight counting as 0: 한자율, 재적, the names and any other key of
    the weight mapping have no influence on it. *)
Theorem score_inputs (s1 s2 : ZoneSummary) (w1 w2 : gmap string Q) :
  indicator_rates s1 = indicator_rates s2 ->
  Forall (fun ind => weight_of w1 ind = weight_of w2 ind) Scoring.indicators ->
  Scoring.calculate_comprehensive_score (as_dict s1) w1
  = Scoring.calculate_comprehensive_score (as_dict s2) w2.
Proof.
  intros Hrates Hweights. rewrite !score_of_rates, Hrates.
  do 2 f_equal. apply List.map_ext_in. intros ind Hind.
  rewrite List.Forall_forall in Hweights. now apply Hweights.
Qed.

Lemma score_inputs_witness :
  indicator_rates (full_summary "1구역") = indicator_rates (flat_summary "2구역" 7 100)
  /\ Forall (fun ind => weight_of (delete "전도" (uniform_weights 10)) ind
                        = weight_of (<["전도" := 0%Q]> (<["한자율" := 50%Q]> (uniform_weights 10)))
                                    ind)
            Scoring.indicators
  /\ Scoring.calculate_comprehensive_score (as_dict (full_summary "1구역"))
       (delete "전도" (uniform_weights 10))
     = Scoring.calculate_comprehensive_score (as_dict (flat_summary "2구역" 7 100))
         (<["전도" := 0%Q]> (<["한자율" := 50%Q]> (uniform_weights 10))).
Proof.
  assert (H1 : indicator_rates (full_summary "1구역")
               = indicator_rates (flat_summary "2구역" 7 100)) by reflexivity.
  assert (H2 : Forall (fun ind => weight_of (delete "전도" (uniform_weights 10)) ind
                                  = weight_of (<["전도" := 0%Q]>
                                                 (<["한자율" := 50%Q]> (uniform_weights 10))) ind)
                      Scoring.indicators).
  { unfold Scoring.indicators.
    repeat (apply List.Forall_cons; [vm_compute; reflexivity |]). apply List.Forall_nil. }
  split; [exact H1 |]. split; [exact H2 |].
  exact (score_inputs _ _ _ _ H1 H2).
Defined.

(** ** The range of the score *)

Lemma rate_term_bounds (r : Z) (w : Q) :
  (0 <= r <= 100)%Z -> (0 <= w)%Q ->
  (0 <= inject_Z r * w / 100 /\ inject_Z r * w / 100 <= w)%Q.
Proof.
  intros [Hr0 Hr100] Hw.
  assert (H0 : (inject_Z 0 <= inject_Z r)%Q) by (now rewrite <- Zle_Qle).
  assert (H100 : (inject_Z r <= inject_Z 100)%Q) by (now rewrite <- Zle_Qle).
  change (inject_Z 0) with 0%Q in H0. change (inject_Z 100) with 100%Q in H100.
  assert (Ha : (0 <= inject_Z r * w)%Q) by (now apply Qmult_le_0_compat).
  assert (Hb : (0 <= (100 - inject_Z r) * w)%Q) by (apply Qmult_le_0_compat; lra).
  split.
  - apply Qle_shift_div_l; lra.
  - apply Qle_shift_div_r; lra.
Qed.

Lemma weighted_sum_bounds (rates : list Z) (ws : list Q) :
  List.length rates = List.length ws ->
  Forall (fun v => (0 <= v <= 100)%Z) rates -> Forall (fun w => (0 <= w)%Q) ws ->
  (0 <= Py.sumQ (map (fun rw : Z * Q => inject_Z (fst rw) * snd rw / 100) (combine rates ws))
   /\ Py.sumQ (map (fun rw : Z * Q => inject_Z (fst rw) * snd rw / 100) (combine rates ws))
      <= Py.sumQ ws)%Q.
Proof.
  revert ws. induction rates as [| r rates IH]; intros [| w ws] Hlen Hr Hw;
    try discriminate; simpl.
  { split; lra. }
  inversion Hr; subst. inversion Hw; subst. injection Hlen as Hlen.
  destruct (IH ws Hlen) as [IH0 IH1]; [assumption | assumption |].
  destruct (rate_term_bounds r w) as [T0 T1]; [assumption | assumption |].
  split; lra.
Qed.

Lemma round1_bounds (x : Q) : (0 <= x <= 100)%Q -> (0 <= Py.round1 x <= 100)%Q.
Proof.
  intros [H0 H100]. unfold Py.round1.
  destruct (round_half_even_bounds 0 1000 (x * 10)) as [Z0 Z1000].
  - change (inject_Z 0) with 0%Q. lra.
  - change (inject_Z 1000) with 1000%Q. lra.
  - unfold Qle. simpl. lia.
Qed.

(** X17.  With rates between 0 and 100, no negative weight among the six
    and a sum of the six weights of at most 100, the composite score is a
    number between 0 and 100. *)
Theorem score_in_range (s : ZoneSummary) (weights : gmap string Q) :
  Forall (fun v => (0 <= v <= 100)%Z) (indicator_rates s) ->
  Forall (fun ind => (0 <= weight_of weights ind)%Q) Scoring.indicators ->
  (Py.sumQ (map (weight_of weights) Scoring.indicators) <= 100)%Q ->
  exists sc, Scoring.calculate_comprehensive_score (as_dict s) weights = Some sc
             /\ (0 <= sc <= 100)%Q.
Proof.
  intros Hrates Hweights Hsum. rewrite score_of_rates. eexists. split; [reflexivity |].
  unfold composite_score_spec. apply round1_bounds.
  destruct (weighted_sum_bounds (indicator_rates s)
              (map (weight_of weights) Scoring.indicators)) as [S0 S1].
  - reflexivity.
  - exact Hrates.
  - now apply List.Forall_map.
  - split; lra.
Qed.

Lemma score_in_range_witness :
  Forall (fun v => (0 <= v <= 100)%Z) (indicator_rates (full_summary "1구역"))
  /\ Forall (fun ind => (0 <= weight_of (uniform_weights (50 # 3)) ind)%Q) Scoring.indicators
  /\ (Py.sumQ (map (weight_of (uniform_weights (50 # 3))) Scoring.indicators) <= 100)%Q
  /\ exists sc, Scoring.calculate_comprehensive_score (as_dict (full_summary "1구역"))
                  (uniform_weights (50 # 3)) = Some sc
                /\ (0 <= sc <= 100)%Q.
Proof.
  assert (H1 : Forall (fun v => (0 <= v <= 100)%Z) (indicator_rates (full_summary "1구역")))
    by (repeat (apply List.Forall_cons; [simpl; lia |]); apply List.Forall_nil).
  assert (H2 : Forall (fun ind => (0 <= weight_of (uniform_weights (50 # 3)) ind)%Q)
                      Scoring.indicators).
  { unfold Scoring.indicators.
    repeat (apply List.Forall_cons; [vm_compute; discriminate |]). apply List.Forall_nil. }
  assert (H3 : (Py.sumQ (map (weight_of (uniform_weights (50 # 3))) Scoring.indicators)
                <= 100)%Q) by (vm_compute; discriminate).
  repeat (split; [assumption |]).
  exact (score_in_range _ _ H1 H2 H3).
Defined.

(** ** Higher rates, higher score *)

Lemma round_half_even_near (x : Q) :
  (Qfloor x <= Py.round_half_even x <= Qfloor x + 1)%Z.
Proof.
  unfold Py.round_half_even.
  destruct (x - inject_Z (Qfloor x) ?= 1 # 2)%Q; [destruct (Z.even (Qfloor x)) | |]; lia.
Qed.

Lemma round_half_even_mono (x y : Q) :
  (x <= y)%Q -> (Py.round_half_even x <= Py.round_half_even y)%Z.
Proof.
  intros Hxy.
  pose proof (Qfloor_resp_le _ _ Hxy) as Hf.
  destruct (Z.eq_dec (Qfloor x) (Qfloor y)) as [E | N].
  - unfold Py.round_half_even. rewrite <- E.
    destruct (Qcompare_spec (x - inject_Z (Qfloor x)) (1 # 2)) as [Hx | Hx | Hx];
      destruct (Qcompare_spec (y - inject_Z (Qfloor x)) (1 # 2)) as [Hy | Hy | Hy];
      try destruct (Z.even (Qfloor x)); try lia; lra.
  - pose proof (round_half_even_near x). pose proof (round_half_even_near y). lia.
Qed.

Lemma round1_mono (x y : Q) : (x <= y)%Q -> (Py.round1 x <= Py.round1 y)%Q.
Proof.
  intros Hxy. unfold Py.round1.
  assert (H : (Py.round_half_even (x * 10) <= Py.round_half_even (y * 10))%Z)
    by (apply round_half_even_mono; lra).
  unfold Qle. simpl. lia.
Qed.

Lemma weighted_sum_mono (rates1 rates2 : list Z) (ws : list Q) :
  List.Forall2 Z.le rates1 rates2 -> Forall (fun w => (0 <= w)%Q) ws ->
  (Py.sumQ (map (fun rw : Z * Q => inject_Z (fst rw) * snd rw / 100) (combine rates1 ws))
   <= Py.sumQ (map (fun rw : Z * Q => inject_Z (fst rw) * snd rw / 100) (combine rates2 ws)))%Q.
Proof.
  intros Hr. revert ws. induction Hr as [| r1 r2 l1 l2 Hle _ IH]; intros ws Hw.
  { simpl. lra. }
  destruct ws as [| w ws]; simpl; [lra |].
  inversion Hw; subst. specialize (IH ws ltac:(assumption)).
  assert (Hq : (inject_Z r1 <= inject_Z r2)%Q) by (now rewrite <- Zle_Qle).
  assert (Hm : (0 <= (inject_Z r2 - inject_Z r1) * w)%Q) by (apply Qmult_le_0_compat; lra).
  assert (Ht : (inject_Z r1 * w / 100 <= inject_Z r2 * w / 100)%Q).
  { unfold Qdiv. apply Qmult_le_compat_r; [lra | vm_compute; discriminate]. }
  lra.
Qed.

(** X18.  With no negative weight among the six, a summary whose six
    rates are each at least those of another has a composite score that
    is at least that of the other: raising a rate never lowers the
    score. *)
Theorem score_monotone (s1 s2 : ZoneSummary) (weights : gmap string Q) :
  List.Forall2 Z.le (indicator_rates s1) (indicator_rates s2) ->
  Forall (fun ind => (0 <= weight_of weights ind)%Q) Scoring.indicators ->
  exists a b,
    Scoring.calculate_comprehensive_score (as_dict s1) weights = Some a
    /\ Scoring.calculate_comprehensive_score (as_dict s2) weights = Some b
    /\ (a <= b)%Q.
Proof.
  intros Hrates Hweights. rewrite !score_of_rates. do 2 eexists.
  split; [reflexivity |]. split; [reflexivity |].
  unfold composite_score_spec. apply round1_mono.
  apply weighted_sum_mono; [exact Hrates | now apply List.Forall_map].
Qed.

Lemma score_monotone_witness :
  List.Forall2 Z.le (indicator_rates (flat_summary "1구역" 4 50))
                    (indicator_rates (full_summary "2구역"))
  /\ Forall (fun ind => (0 <= weight_of (uniform_weights 10) ind)%Q) Scoring.indicators
  /\ exists a b,
       Scoring.calculate_comprehensive_score (as_dict (flat_summary "1구역" 4 50))
         (uniform_weights 10) = Some a
       /\ Scoring.calculate_comprehensive_score (as_dict (full_summary "2구역"))
            (uniform_weights 10) = Some b
       /\ (a <= b)%Q.
Proof.
  assert (H1 : List.Forall2 Z.le (indicator_rates (flat_summary "1구역" 4 50))
                                 (indicator_rates (full_summary "2구역")))
    by (repeat (apply List.Forall2_cons; [simpl; lia |]); apply List.Forall2_nil).
  assert (H2 : Forall (fun ind => (0 <= weight_of (uniform_weights 10) ind)%Q)
                      Scoring.indicators).
  { unfold Scoring.indicators.
    repeat (apply List.Forall_cons; [vm_compute; discriminate |]). apply List.Forall_nil. }
  split; [exact H1 |]. split; [exact H2 |].
  exact (score_monotone _ _ _ H1 H2).
Defined.

(** * The score board as a whole *)

Lemma board_summaries_ext (w w' : World) (month : string) (all_zones : list string) :
  (forall z, loaded w' z = loaded w z) ->
  board_summaries w' month all_zones = board_summaries w month all_zones.
Proof.
  intros Hl. unfold board_summaries. apply flat_map_ext. intros zone. now rewrite Hl.
Qed.

(** the loop that collects the summaries reads and never writes *)
Lemma summary_list_spec (all_zones : list string) (selected_month : string) (w : World) :
  exists w',
    AppFinal.summary_list all_zones selected_month w
    = (Some (board_summaries w selected_month all_zones), w')
    /\ sheets w' = sheets w
    /\ (forall z, loaded w' z = loaded w z).
Proof.
  revert w. induction all_zones as [| zone rest IH]; intros w.
  { exists w. repeat split; reflexivity. }
  cbn [AppFinal.summary_list]. unfold bind at 1. rewrite load_zone_data_spec.
  destruct (IH (remember zone w)) as (w1 & Hrun & Hs & Hl).
  rewrite (board_summaries_ext w (remember zone w)) in Hrun
    by (intros z; apply loaded_remember).
  assert (Hl' : forall z, loaded w1 z = loaded w z)
    by (intros z; now rewrite Hl, loaded_remember).
  unfold board_summaries at 1. cbn [flat_map]. fold (board_summaries w selected_month rest).
  fold (region_of zone).
  destruct (loaded w zone) as [| r0 df] eqn:Ez.
  { exists w1. split; [exact Hrun | split; [exact Hs | exact Hl']]. }
  unfold bind, lift.
  destruct (final_summary_defined (r0 :: df) selected_month zone (region_of zone))
    as (res & Hres & _).
  rewrite Hres, Hrun. exists w1.
  split; [| split; [exact Hs | exact Hl']].
  destruct res; reflexivity.
Qed.

Lemma board_summaries_zones (w : World) (month : string) (all_zones : list string) :
  map s_zone (board_summaries w month all_zones)
  = List.filter (has_active_row w month) all_zones.
Proof.
  unfold board_summaries, has_active_row.
  induction all_zones as [| zone rest IH]; [reflexivity |].
  cbn [flat_map List.filter]. rewrite map_app, IH, final_summary_of_active.
  destruct (active_rows month (loaded w zone)); reflexivity.
Qed.

Lemma add_scores_spec (summaries : list ZoneSummary) (weights : gmap string Q) :
  exists rows,
    Scoring.add_scores summaries weights = Some rows
    /\ map b_summary rows = summaries
    /\ Forall (fun r => Scoring.calculate_comprehensive_score (as_dict (b_summary r)) weights
                        = Some (b_score r)) rows.
Proof.
  induction summaries as [| s rest (rows & Hrows & Hsum & Hscore)];
    cbn [Scoring.add_scores].
  { exists []. repeat split. constructor. }
  rewrite score_of_rates, Hrows. eexists. split; [reflexivity |].
  split; [cbn [map b_summary]; now rewrite Hsum |].
  constructor; [cbn [b_summary b_score]; apply score_of_rates | exact Hscore].
Qed.

Lemma rank_zones_unranked (df : list BoardRow) :
  Permutation (map unranked (Scoring.rank_zones df)) (map unranked df).
Proof.
  unfold Scoring.rank_zones, Scoring.assign_ranks.
  rewrite assign_from_unranked. apply Permutation_map, sort_values_desc_perm.
Qed.

Lemma rank_zones_ranks (df : list BoardRow) :
  map b_rank (Scoring.rank_zones df)
  = map (fun i => Some (Z.of_nat i)) (seq 1 (List.length (Scoring.rank_zones df))).
Proof.
  unfold Scoring.rank_zones, Scoring.assign_ranks.
  rewrite assign_from_ranks. do 2 f_equal.
  rewrite length_map, length_combine, length_seq. lia.
Qed.

Lemma strongly_sorted_impl {A : Type} (R R' : A -> A -> Prop) (l : list A) :
  (forall a b, R a b -> R' a b) -> StronglySorted R l -> StronglySorted R' l.
Proof.
  intros HR. induction 1 as [| x l _ IH Hx]; constructor; [exact IH |].
  eapply List.Forall_impl; [| exact Hx]. intros y. apply HR.
Qed.

(** X19.  The score board of [render_scoreboard_tab] never raises and
    writes no sheet.  It has one row for every listed zone that has an
    active row in the selected month, and no other row; the row holds the
    summary of the zone and its composite score; the rows stand in
    descending order of the score and carry the ranks 1, 2, ... in that
    order. *)
Theorem scoreboard_rows (all_zones : list string) (selected_month : string)
    (weights : gmap string Q) (w : World) :
  exists df,
    fst (AppFinal.scoreboard all_zones selected_month weights w) = Some df
    /\ sheets (snd (AppFinal.scoreboard all_zones selected_month weights w)) = sheets w
    /\ Permutation (map b_summary df) (board_summaries w selected_month all_zones)
    /\ Permutation (map (fun r => s_zone (b_summary r)) df)
                   (List.filter (has_active_row w selected_month) all_zones)
    /\ Forall (fun r => Scoring.calculate_comprehensive_score (as_dict (b_summary r)) weights
                        = Some (b_score r)) df
    /\ StronglySorted (fun a b => (b_score b <= b_score a)%Q) df
    /\ map b_rank df = map (fun i => Some (Z.of_nat i)) (seq 1 (List.length df)).
Proof.
  destruct (summary_list_spec all_zones selected_month w) as (w1 & Hrun & Hs & _).
  unfold AppFinal.scoreboard, bind. rewrite Hrun.
  destruct (board_summaries w selected_month all_zones) as [| s0 rest] eqn:Hv.
  { exists []. simpl. rewrite <- board_summaries_zones, Hv.
    repeat split; try constructor. exact Hs. }
  destruct (add_scores_spec (s0 :: rest) weights) as (rows & Hrows & Hsum & Hscore).
  unfold lift. rewrite Hrows. simpl.
  pose proof (rank_zones_unranked rows) as Hperm.
  assert (Hsummaries : Permutation (map b_summary (Scoring.rank_zones rows))
                                   (board_summaries w selected_month all_zones)).
  { rewrite Hv, <- Hsum.
    apply (Permutation_map fst) in Hperm. now rewrite !map_map in Hperm. }
  exists (Scoring.rank_zones rows). split; [reflexivity |]. split; [exact Hs |].
  split; [rewrite <- Hv; exact Hsummaries |]. split; [| split; [| split]].
  - rewrite <- board_summaries_zones.
    apply (Permutation_map s_zone) in Hsummaries. now rewrite map_map in Hsummaries.
  - assert (Hpairs : Forall (fun p : ZoneSummary * Q =>
                               Scoring.calculate_comprehensive_score (as_dict (fst p)) weights
                               = Some (snd p))
                            (map unranked (Scoring.rank_zones rows))).
    { eapply Permutation_Forall; [symmetry; exact Hperm |].
      apply List.Forall_map. exact Hscore. }
    apply List.Forall_map in Hpairs. exact Hpairs.
  - eapply strongly_sorted_impl; [| apply rank_zones_sorted].
    intros a b Hab. unfold Scoring.score_leb in Hab. now apply Qle_bool_iff.
  - apply rank_zones_ranks.
Qed.

(** * The totals of a region *)

Lemma sumZ_app (l1 l2 : list Z) : Py.sumZ (l1 ++ l2) = (Py.sumZ l1 + Py.sumZ l2)%Z.
Proof. induction l1 as [| x l1 IH]; simpl; lia. Qed.

Lemma sumZ_indicator (keys : list string) (k : string) (a : Z) :
  List.NoDup keys ->
  Py.sumZ (map (fun k' => if String.eqb k k' then a else 0%Z) keys)
  = if Py.isin k keys then a else 0%Z.
Proof.
  unfold Py.isin.
  induction 1 as [| k' keys Hnotin _ IH]; [reflexivity |].
  simpl. rewrite IH. destruct (String.eqb_spec k k') as [-> | Hne]; simpl; [| reflexivity].
  assert (Hno : existsb (String.eqb k') keys = false).
  { apply not_true_is_false. intros Hex. apply existsb_exists in Hex as (x & Hx & Heq).
    apply String.eqb_eq in Heq. now subst. }
  rewrite Hno. lia.
Qed.

(** summing group by group is summing over the whole frame *)
Lemma sumZ_by_key {A : Type} (key : A -> string) (f : A -> Z) (keys : list string)
    (l : list A) :
  List.NoDup keys -> (forall x, In x l -> In (key x) keys) ->
  Py.sumZ (map (fun k => Py.sumZ (map f (List.filter (fun x => String.eqb (key x) k) l)))
               keys)
  = Py.sumZ (map f l).
Proof.
  intros Hnd. induction l as [| x l IH]; intros Hkeys.
  { clear. simpl. induction keys as [| k ks IHk]; simpl; lia. }
  simpl.
  assert (Hsplit : forall ks : list string,
             Py.sumZ (map (fun k => Py.sumZ (map f (if String.eqb (key x) k
                                                    then x :: List.filter (fun y => String.eqb (key y) k) l
                                                    else List.filter (fun y => String.eqb (key y) k) l)))
                          ks)
             = (Py.sumZ (map (fun k => if String.eqb (key x) k then f x else 0%Z) ks)
                + Py.sumZ (map (fun k => Py.sumZ (map f (List.filter
                                                           (fun y => String.eqb (key y) k) l)))
                               ks))%Z).
  { induction ks as [| k ks IHk]; simpl; [reflexivity |].
    rewrite IHk. destruct (String.eqb (key x) k); simpl; lia. }
  rewrite Hsplit, IH, sumZ_indicator by (try exact Hnd; intros y Hy; apply Hkeys; now right).
  assert (Hin : Py.isin (key x) keys = true).
  { unfold Py.isin. apply existsb_exists. exists (key x).
    split; [apply Hkeys; now left | apply String.eqb_refl]. }
  now rewrite Hin.
Qed.

Lemma listed_regions (summary_df : list BoardRow) :
  let regions := Py.sort_asc String.leb
                   (Py.unique (map (fun r => s_region (b_summary r)) summary_df)) in
  List.NoDup regions
  /\ (forall r, In r summary_df -> In (s_region (b_summary r)) regions).
Proof.
  cbv zeta. split.
  - eapply Permutation_NoDup; [symmetry; apply sort_asc_perm | apply unique_NoDup].
  - intros r Hr. apply region_is_listed.
    now apply (in_map (fun r => s_region (b_summary r))).
Qed.

Lemma region_totals_map (summary_df : list BoardRow) :
  AppFinal.region_totals summary_df
  = map (fun region => AppFinal.total_row region (Scoring.region_rows summary_df region))
        (Py.sort_asc String.leb
           (Py.unique (map (fun r => s_region (b_summary r)) summary_df))).
Proof.
  unfold AppFinal.region_totals.
  assert (Hall : Forall (fun region => Scoring.region_rows summary_df region <> [])
                        (Py.sort_asc String.leb
                           (Py.unique (map (fun r => s_region (b_summary r)) summary_df)))).
  { apply List.Forall_forall. intros region Hin. apply region_rows_nonempty.
    apply unique_In. eapply Permutation_in; [apply sort_asc_perm | exact Hin]. }
  induction Hall as [| region regions Hne _ IH]; [reflexivity |].
  cbn [flat_map map]. rewrite IH.
  destruct (Scoring.region_rows summary_df region); [contradiction | reflexivity].
Qed.

(** X20.  The regions of the score board partition its zones.  Both
    variants show one line per region that has a zone, the regions in
    ascending order of their names, and the 재적 figures of these lines
    add up to the 재적 of all the zones: every zone is counted in one
    region and in no other. *)
Theorem region_lines_partition (summary_df : list BoardRow) :
  let regions := Py.sort_asc String.leb
                   (Py.unique (map (fun r => s_region (b_summary r)) summary_df)) in
  map AppFinal.t_zone (AppFinal.region_totals summary_df)
  = map (fun region => region ++ "지역 총합") regions
  /\ map AppV2.g_region (AppV2.region_summary summary_df) = regions
  /\ Py.sumZ (map AppFinal.t_members (AppFinal.region_totals summary_df))
     = Py.sumZ (map (fun r => s_members (b_summary r)) summary_df)
  /\ Py.sumZ (map AppV2.g_members (AppV2.region_summary summary_df))
     = Py.sumZ (map (fun r => s_members (b_summary r)) summary_df).
Proof.
  cbv zeta. destruct (listed_regions summary_df) as [Hnd Hin].
  rewrite region_totals_map. unfold AppV2.region_summary. rewrite !map_map.
  cbn [AppFinal.t_zone AppFinal.total_row AppFinal.t_members AppV2.g_region
       AppV2.region_group AppV2.g_members].
  split; [reflexivity |]. split; [apply map_id |].
  unfold Scoring.region_rows.
  split; apply (sumZ_by_key (fun r => s_region (b_summary r))
                            (fun r => s_members (b_summary r)) _ _ Hnd Hin).
Qed.

(** ** The head count under a region *)

Lemma trunc_bounds (x : Q) (b : Z) :
  (0 <= x)%Q -> (x <= inject_Z b)%Q -> (0 <= Py.trunc x <= b)%Z.
Proof.
  unfold Py.trunc, Qle. destruct x as [n d]. simpl. intros Hn Hb.
  rewrite Z.quot_div_nonneg by lia. split.
  - apply Z.div_pos; lia.
  - apply Z.div_le_upper_bound; lia.
Qed.

Lemma mean_bounds (l : list Z) :
  l <> [] -> Forall (fun v => (0 <= v <= 100)%Z) l -> (0 <= Py.mean l <= 100)%Q.
Proof.
  intros Hne Hl. unfold Py.mean.
  assert (Hsum : (0 <= Py.sumZ l <= 100 * Z.of_nat (List.length l))%Z).
  { clear Hne. unfold Py.sumZ.
    induction Hl as [| v l Hv _ IH]; cbn [fold_right List.length]; [lia |].
    rewrite Nat2Z.inj_succ. lia. }
  assert (Hlen : (0 < Z.of_nat (List.length l))%Z)
    by (destruct l; [contradiction | simpl; lia]).
  assert (Hq : (0 < inject_Z (Z.of_nat (List.length l)))%Q)
    by (change 0%Q with (inject_Z 0); now rewrite <- Zlt_Qlt).
  destruct Hsum as [S0 S1]. rewrite Zle_Qle in S0, S1.
  rewrite inject_Z_mult in S1.
  change (inject_Z 0) with 0%Q in S0. change (inject_Z 100) with 100%Q in S1.
  split.
  - apply Qle_shift_div_l; [exact Hq | lra].
  - apply Qle_shift_div_r; [exact Hq | lra].
Qed.

Lemma sumZ_nonneg (l : list Z) : Forall (fun v => (0 <= v)%Z) l -> (0 <= Py.sumZ l)%Z.
Proof.
  unfold Py.sumZ. induction 1 as [| v l Hv _ IH]; cbn [fold_right]; lia.
Qed.

(** X21.  The head count [render_scoreboard_tab] prints under a region
    for an indicator (the 재적 total times the mean rate over 100, cut
    to an integer) lies between 0 and the 재적 total of the region, when
    the rates of the zones are between 0 and 100 and no 재적 is
    negative. *)
Theorem actual_number_bounds (col : ZoneSummary -> Z) (region : string)
    (region_df : list BoardRow) :
  region_df <> [] ->
  Forall (fun r => (0 <= s_members (b_summary r))%Z) region_df ->
  Forall (fun r => (0 <= col (b_summary r) <= 100)%Z) region_df ->
  (0 <= AppFinal.actual_number col region_df
   <= AppFinal.t_members (AppFinal.total_row region region_df))%Z.
Proof.
  intros Hne Hmembers Hrates.
  unfold AppFinal.actual_number, AppFinal.column_mean. cbn [AppFinal.t_members AppFinal.total_row].
  set (total := Py.sumZ (map (fun r => s_members (b_summary r)) region_df)).
  assert (Htotal : (0 <= total)%Z)
    by (apply sumZ_nonneg; now apply List.Forall_map).
  destruct (mean_bounds (map (fun r => col (b_summary r)) region_df)) as [M0 M100].
  - destruct region_df; [contradiction | discriminate].
  - now apply List.Forall_map.
  - set (m := Py.mean (map (fun r => col (b_summary r)) region_df)) in *.
    assert (Hq : (0 <= inject_Z total)%Q)
      by (change 0%Q with (inject_Z 0); now rewrite <- Zle_Qle).
    assert (Ha : (0 <= inject_Z total * m)%Q) by (now apply Qmult_le_0_compat).
    assert (Hb : (0 <= inject_Z total * (100 - m))%Q) by (apply Qmult_le_0_compat; lra).
    apply trunc_bounds.
    + apply Qle_shift_div_l; lra.
    + apply Qle_shift_div_r; lra.
Qed.

Lemma actual_number_bounds_witness :
  unequal_region <> []
  /\ Forall (fun r => (0 <= s_members (b_summary r))%Z) unequal_region
  /\ Forall (fun r => (0 <= s_overall (b_summary r) <= 100)%Z) unequal_region
  /\ (0 <= AppFinal.actual_number s_overall unequal_region
      <= AppFinal.t_members (AppFinal.total_row "도원" unequal_region))%Z.
Proof.
  assert (H1 : unequal_region <> []) by discriminate.
  assert (H2 : Forall (fun r => (0 <= s_members (b_summary r))%Z) unequal_region)
    by (repeat (apply List.Forall_cons; [simpl; lia |]); apply List.Forall_nil).
  assert (H3 : Forall (fun r => (0 <= s_overall (b_summary r) <= 100)%Z) unequal_region)
    by (repeat (apply List.Forall_cons; [simpl; lia |]); apply List.Forall_nil).
  repeat (split; [assumption |]).
  exact (actual_number_bounds s_overall "도원" unequal_region H1 H2 H3).
Defined.

(** * The filters of [app.py] *)

Lemma filter_all {A : Type} (l : list A) : List.filter (fun _ => true) l = l.
Proof. induction l as [| x l IH]; simpl; [reflexivity | now rewrite IH]. Qed.

Lemma filter_again {A : Type} (f : A -> bool) (l : list A) :
  List.filter f (List.filter f l) = List.filter f l.
Proof.
  rewrite filter_filter_and. apply List.filter_ext. intros x. now destruct (f x).
Qed.

Lemma filter_sublist {A : Type} (f : A -> bool) (l : list A) : sublist (List.filter f l) l.
Proof.
  induction l as [| x l IH]; simpl; [constructor |].
  destruct (f x); now constructor.
Qed.

(** the three filters in a row are one filter *)
Lemma filter_data_filter (df : list FlatRow) (month : option string) (region zone : string) :
  App.filter_data df month region zone = List.filter (passes month region zone) df.
Proof.
  unfold App.filter_data.
  set (pm := fun r : FlatRow =>
               match month with
               | Some m =>
                   String.eqb m ""
                   || match x_date r with
                      | Some d => String.eqb (App.strftime_month d) m
                      | None => false
                      end
               | None => true
               end).
  assert (Hm : match month, df with
               | Some m, _ :: _ =>
                   if String.eqb m "" then df
                   else List.filter
                          (fun r => match x_date r with
                                    | Some d => String.eqb (App.strftime_month d) m
                                    | None => false
                                    end) df
               | _, _ => df
               end = List.filter pm df).
  { unfold pm. destruct month as [m |]; [| now rewrite filter_all].
    destruct df as [| r0 df']; [reflexivity |].
    destruct (String.eqb m ""); [now rewrite filter_all | reflexivity]. }
  rewrite Hm.
  assert (Hstage : forall (flag : bool) (test : FlatRow -> bool) (l : list FlatRow),
             (if negb flag then List.filter test l else l)
             = List.filter (fun r => flag || test r) l).
  { intros [|] test l; simpl; [now rewrite filter_all | reflexivity]. }
  rewrite (Hstage (String.eqb region "전체") (fun r => String.eqb (x_region r) region)).
  rewrite (Hstage (String.eqb zone "전체") (fun r => String.eqb (x_zone r) zone)).
  rewrite !filter_filter_and. apply List.filter_ext. intros r.
  unfold passes, pm. now rewrite andb_assoc.
Qed.

(** X22.  [filter_data] keeps exactly the rows that pass the month, the
    region and the zone filter, in their order; filtering its result
    again with the same settings changes nothing; with no month and both
    other filters at "전체" it returns the frame as it is; and the region
    and zone filters can be applied after the month filter with the same
    result. *)
Theorem filter_data_spec (df : list FlatRow) (month : option string) (region zone : string) :
  (forall r, In r (App.filter_data df month region zone)
             <-> In r df /\ passes month region zone r = true)
  /\ sublist (App.filter_data df month region zone) df
  /\ App.filter_data (App.filter_data df month region zone) month region zone
     = App.filter_data df month region zone
  /\ App.filter_data df None "전체" "전체" = df
  /\ App.filter_data (App.filter_data df month "전체" "전체") None region zone
     = App.filter_data df month region zone.
Proof.
  rewrite !filter_data_filter. split; [| split; [| split; [| split]]].
  - intros r. apply List.filter_In.
  - apply filter_sublist.
  - apply filter_again.
  - apply filter_all.
  - rewrite filter_filter_and. apply List.filter_ext. intros r. unfold passes.
    rewrite !String.eqb_refl. cbn [orb andb]. rewrite !andb_true_r.
    now rewrite andb_assoc.
Qed.

(** * The table of absentees in general *)

Lemma date_leb_total (a b : Date) : App.date_leb a b = true \/ App.date_leb b a = true.
Proof.
  unfold App.date_leb.
  rewrite !orb_true_iff, !andb_true_iff, !orb_true_iff, !andb_true_iff,
    !Z.ltb_lt, !Z.eqb_eq, !Z.leb_le. lia.
Qed.

Lemma date_leb_trans (a b c : Date) :
  App.date_leb a b = true -> App.date_leb b c = true -> App.date_leb a c = true.
Proof.
  unfold App.date_leb.
  rewrite !orb_true_iff, !andb_true_iff, !orb_true_iff, !andb_true_iff,
    !Z.ltb_lt, !Z.eqb_eq, !Z.leb_le. lia.
Qed.

Lemma dated_In (df : list FlatRow) (d : Date) (r : FlatRow) :
  In (d, r) (App.dated df) <-> In r df /\ x_date r = Some d.
Proof.
  induction df as [| r0 df IH]; simpl; [tauto |].
  destruct (x_date r0) as [d0 |] eqn:E0; simpl; rewrite IH.
  - split.
    + intros [[= <- <-] | [Hin Hd]]; [split; [now left | exact E0] | split; [now right | exact Hd]].
    + intros [[<- | Hin] Hd]; [left; congruence | right; tauto].
  - split.
    + intros [Hin Hd]. split; [now right | exact Hd].
    + intros [[<- | Hin] Hd]; [congruence | tauto].
Qed.

Lemma dated_nil (df : list FlatRow) :
  App.dated df = [] -> Forall (fun r => x_date r = None) df.
Proof.
  induction df as [| r0 df IH]; simpl; [constructor |].
  destruct (x_date r0) eqn:E0; [discriminate |]. intros H. constructor; auto.
Qed.

Lemma last_attendance_spec (df : list FlatRow) (row : FlatRow) :
  Forall (fun r => f_overall (x_flags r) = 1%Z -> x_date r <> None) df ->
  exists last,
    App.last_attendance df row = Some last
    /\ match attended_rows df (x_name row) with
       | [] => last = "기록 없음"
       | (_ :: _) as history =>
           exists r d,
             In r history /\ x_date r = Some d /\ last = App.strftime_day d
             /\ Forall (fun r' => forall d', x_date r' = Some d' -> App.date_leb d' d = true)
                       history
       end.
Proof.
  intros Hdated. unfold App.last_attendance, App.dates_latest_first.
  fold (attended_rows df (x_name row)).
  assert (Hhist : Forall (fun r => x_date r <> None) (attended_rows df (x_name row))).
  { unfold attended_rows. apply List.Forall_forall. intros r Hr.
    apply List.filter_In in Hr as [Hr Hp]. apply andb_true_iff in Hp as [_ Hp].
    apply Z.eqb_eq in Hp. rewrite List.Forall_forall in Hdated. now apply Hdated. }
  destruct (attended_rows df (x_name row)) as [| h0 history] eqn:Eh.
  { exists "기록 없음". split; reflexivity. }
  set (hist := h0 :: history) in *.
  pose proof (sort_values_desc_perm App.row_date_leb (App.dated hist)) as Hperm.
  pose proof (sort_values_desc_sorted App.row_date_leb
                (fun a b => date_leb_total (fst a) (fst b))
                (fun a b c => date_leb_trans (fst a) (fst b) (fst c))
                (App.dated hist)) as Hsorted.
  destruct (Py.sort_values_desc App.row_date_leb (App.dated hist)) as [| [d r] sorted] eqn:Es.
  { apply Permutation_nil in Hperm. apply dated_nil in Hperm.
    inversion Hperm as [| ? ? Hnone _]; subst. inversion Hhist; subst. contradiction. }
  cbn [map app fst]. exists (App.strftime_day d). split; [reflexivity |].
  assert (Hin : In (d, r) (App.dated hist))
    by (eapply Permutation_in; [exact Hperm | now left]).
  apply dated_In in Hin as [Hr Hd].
  exists r, d. split; [exact Hr |]. split; [exact Hd |]. split; [reflexivity |].
  apply List.Forall_forall. intros r' Hr' d' Hd'.
  assert (Hin' : In (d', r') ((d, r) :: sorted)).
  { eapply Permutation_in; [symmetry; exact Hperm |]. apply dated_In. now split. }
  destruct Hin' as [[= <- <-] | Hin'].
  - destruct (date_leb_total d d); assumption.
  - inversion Hsorted as [| ? ? _ Hall]; subst.
    rewrite List.Forall_forall in Hall. apply (Hall _ Hin').
Qed.

Lemma missing_entries_spec (df missing : list FlatRow) :
  Forall (fun r => f_overall (x_flags r) = 1%Z -> x_date r <> None) df ->
  exists entries,
    App.missing_entries df missing = Some entries
    /\ map entry_identity entries = map row_identity missing
    /\ Forall (latest_attendance_in df) entries.
Proof.
  intros Hdated. induction missing as [| row rest (entries & He & Hid & Hlast)]; simpl.
  { exists []. repeat split. constructor. }
  destruct (last_attendance_spec df row Hdated) as (last & Hl & Hspec).
  rewrite Hl, He. eexists. split; [reflexivity |]. split.
  - simpl. now rewrite Hid.
  - constructor; [| exact Hlast]. unfold latest_attendance_in. simpl.
    destruct (attended_rows df (x_name row)); exact Hspec.
Qed.

(** X23.  When every row that marks a member present has a date,
    [render_missing_sheep] does not raise.  It shows the notice "no data"
    exactly for the empty frame, the notice "everybody attended" exactly
    when no active row has 전체출결 0, and else a table with one line for
    each active row that has 전체출결 0, in row order, with the name,
    region, zone and role of the row; the 최근 출석일 of a line is "기록
    없음" when the frame marks the member present nowhere, and else the
    latest day on which the frame marks the member present. *)
Theorem missing_sheep_table (df : list FlatRow) :
  Forall (fun r => f_overall (x_flags r) = 1%Z -> x_date r <> None) df ->
  exists view,
    App.render_missing_sheep df = Some view
    /\ (view = App.NoData <-> df = [])
    /\ (view = App.AllAttended <-> df <> [] /\ absentees df = [])
    /\ (forall missing_list, view = App.MissingTable missing_list ->
          map entry_identity missing_list = map row_identity (absentees df)
          /\ Forall (latest_attendance_in df) missing_list).
Proof.
  intros Hdated. unfold App.render_missing_sheep.
  destruct df as [| r0 df'] eqn:Edf.
  { exists App.NoData. split; [reflexivity |]. split; [tauto |].
    split; [split; [discriminate | intros [H _]; congruence] | discriminate]. }
  rewrite <- Edf in *. cbv zeta. fold (absentees df).
  destruct (absentees df) as [| a0 rest] eqn:Ea.
  { exists App.AllAttended. split; [reflexivity |].
    split; [split; [discriminate | intros ->; discriminate] |].
    split; [split; [intros _; split; [congruence | reflexivity] | reflexivity] | discriminate]. }
  destruct (missing_entries_spec df (a0 :: rest) Hdated) as (entries & He & Hid & Hlast).
  rewrite He. exists (App.MissingTable entries). split; [reflexivity |].
  split; [split; [discriminate | intros ->; discriminate] |].
  split; [split; [discriminate | intros [_ H]; discriminate] |].
  intros missing_list [= <-]. split; assumption.
Qed.

Lemma missing_sheep_table_witness :
  Forall (fun r => f_overall (x_flags r) = 1%Z -> x_date r <> None) sample_flat_df
  /\ exists view, App.render_missing_sheep sample_flat_df = Some view
                  /\ (view = App.NoData <-> sample_flat_df = []).
Proof.
  assert (H : Forall (fun r => f_overall (x_flags r) = 1%Z -> x_date r <> None) sample_flat_df)
    by (repeat (apply List.Forall_cons; [intros _; discriminate |]); apply List.Forall_nil).
  split; [exact H |].
  destruct (missing_sheep_table sample_flat_df H) as (view & Hv & Hn & _).
  exists view. split; [exact Hv | exact Hn].
Defined.

(** * [app_v2.py]: one row per member *)

Lemma filter_id {A : Type} (f : A -> bool) (l : list A) :
  (forall a, In a l -> f a = true) -> List.filter f l = l.
Proof.
  induction l as [| x l IH]; intros H; [reflexivity |].
  simpl. rewrite (H x) by now left. f_equal. apply IH. intros a Ha. apply H. now right.
Qed.

Lemma unique_NoDup_fixed (l : list string) : List.NoDup l -> Py.unique l = l.
Proof.
  induction 1 as [| x l Hnotin _ IH]; simpl; [reflexivity |].
  rewrite IH. f_equal. apply filter_id. intros y Hy.
  destruct (String.eqb_spec x y) as [-> | Hne]; [contradiction | reflexivity].
Qed.

(** one rounded percentage of [calculate_zone_summary] of [app_v2.py],
    when no name occurs twice *)
Lemma v2_rate_value (col : Flags -> Z) (active_df : list DatedRow) :
  active_df <> [] ->
  List.NoDup (map d_name active_df) ->
  exists v,
    Py.round_int
      (Py.times100
         (Py.true_divide
            (inject_Z (AppV2.column_sum col active_df))
            (inject_Z (Z.of_nat (List.length (Py.unique (map d_name active_df)))))))
    = Some v
    /\ (Forall (fun r => col (d_flags r) = 0%Z \/ col (d_flags r) = 1%Z) active_df ->
        (0 <= v <= 100)%Z).
Proof.
  intros Hne Hnd. rewrite (unique_NoDup_fixed _ Hnd), length_map.
  assert (Hpos : (0 < Z.of_nat (List.length active_df))%Z)
    by (destruct active_df; [contradiction | simpl; lia]).
  rewrite (true_divide_positive _ _ Hpos). simpl. eexists. split; [reflexivity |].
  intros Hflags.
  destruct (percentage_bounds (AppV2.column_sum col active_df)
              (Z.of_nat (List.length active_df))) as [P0 P100].
  - apply (sumZ_flag_bounds (fun r => col (d_flags r))). exact Hflags.
  - exact Hpos.
  - apply (round_half_even_bounds 0 100); assumption.
Qed.

(** X24.  In [app_v2.py] the rates are sums over the active rows of the
    month divided by the number of distinct names.  For a well-formed
    month, 0/1 flags and a frame in which no name occurs twice among the
    active rows of the month, [calculate_zone_summary] does not raise; it
    returns [None] exactly when there is no such row; 재적 is the number
    of these rows and the seven percentages lie between 0 and 100. *)
Theorem v2_summary_distinct_names (zone_df : list DatedRow)
    (month zone_name region : string) (y m : Z) :
  v2_month month = Some (y, m) ->
  Forall (fun r => flags01 (d_flags r)) zone_df ->
  List.NoDup (map d_name (v2_active_rows y m zone_df)) ->
  exists r,
    AppV2.calculate_zone_summary zone_df month zone_name region = Some r
    /\ (r = None <-> v2_active_rows y m zone_df = [])
    /\ (forall s, r = Some s ->
          s_members s = Z.of_nat (List.length (v2_active_rows y m zone_df))
          /\ Forall (fun v => (0 <= v <= 100)%Z) (summary_rates s)).
Proof.
  intros Hmonth Hflags Hnd.
  unfold AppV2.calculate_zone_summary, v2_month, v2_active_rows in *.
  destruct zone_df as [| r0 rest] eqn:Edf.
  { exists None. split; [reflexivity |]. split; [tauto | discriminate]. }
  rewrite <- Edf in *. clear Edf r0 rest.
  destruct (Py.split_pair "년 " month) as [[year_s month_num] |]; [| discriminate].
  cbv zeta.
  destruct (Py.int year_s) as [y' |]; [| discriminate].
  destruct (Py.int (Py.strip (Py.replace_empty "월" month_num))) as [m' |]; [| discriminate].
  injection Hmonth as -> ->.
  assert (Hact : Forall (fun r => flags01 (d_flags r))
                   (List.filter (fun r => String.eqb (d_status r) "재적")
                                (List.filter (AppV2.in_month y m) zone_df)))
    by (now do 2 apply Forall_filter_bool).
  destruct (List.filter (AppV2.in_month y m) zone_df) as [| m0 month_rest].
  { exists None. split; [reflexivity |]. split; [tauto | discriminate]. }
  destruct (List.filter (fun r => String.eqb (d_status r) "재적") (m0 :: month_rest))
    as [| a0 active_rest] eqn:Ea.
  { exists None. split; [reflexivity |]. split; [tauto | discriminate]. }
  cbv beta zeta.
  assert (Hne : a0 :: active_rest <> []) by discriminate.
  assert (Hcol : forall col : Flags -> Z,
             (forall f, flags01 f -> col f = 0%Z \/ col f = 1%Z) ->
             Forall (fun r => col (d_flags r) = 0%Z \/ col (d_flags r) = 1%Z)
                    (a0 :: active_rest)).
  { intros col Hc. eapply List.Forall_impl; [| exact Hact]. intros r Hr. now apply Hc. }
  destruct (v2_rate_value f_overall _ Hne Hnd) as (v1 & -> & H1).
  destruct (v2_rate_value f_inperson _ Hne Hnd) as (v2 & -> & H2).
  destruct (v2_rate_value f_mysim _ Hne Hnd) as (v3 & -> & H3).
  destruct (v2_rate_value f_ongoing _ Hne Hnd) as (v4 & -> & H4).
  destruct (v2_rate_value f_outreach _ Hne Hnd) as (v5 & -> & H5).
  destruct (v2_rate_value f_tithe _ Hne Hnd) as (v6 & -> & H6).
  assert (Hlen : Z.of_nat (List.length (Py.unique (map d_name (a0 :: active_rest))))
                 = Z.of_nat (List.length (a0 :: active_rest)))
    by (now rewrite (unique_NoDup_fixed _ Hnd), length_map).
  simpl. eexists. split; [reflexivity |].
  split; [split; discriminate |].
  intros s [= <-]. split.
  - exact Hlen.
  - unfold summary_rates. simpl.
    repeat (apply List.Forall_cons;
            [ first [apply H1 | apply H2 | apply H3 | apply H4 | apply H5 | apply H6];
              apply Hcol; intros f Hf; apply flags01_col in Hf; tauto | ]).
    apply List.Forall_nil.
Qed.

Lemma v2_summary_distinct_names_witness :
  v2_month "2024년 09월" = Some (2024, 9)%Z
  /\ Forall (fun r => flags01 (d_flags r))
       [ {| d_date := Some {| year := 2024; month := 9; day := 1 |}; d_name := "김민준";
            d_role := "리더"; d_status := "재적"; d_flags := flags 1 1 1 1 1 1 |};
         {| d_date := Some {| year := 2024; month := 9; day := 1 |}; d_name := "이서윤";
            d_role := "청년"; d_status := "재적"; d_flags := flags 0 0 0 0 0 0 |} ]
  /\ List.NoDup (map d_name (v2_active_rows 2024 9
       [ {| d_date := Some {| year := 2024; month := 9; day := 1 |}; d_name := "김민준";
            d_role := "리더"; d_status := "재적"; d_flags := flags 1 1 1 1 1 1 |};
         {| d_date := Some {| year := 2024; month := 9; day := 1 |}; d_name := "이서윤";
            d_role := "청년"; d_status := "재적"; d_flags := flags 0 0 0 0 0 0 |} ]))
  /\ exists r,
       AppV2.calculate_zone_summary
         [ {| d_date := Some {| year := 2024; month := 9; day := 1 |}; d_name := "김민준";
              d_role := "리더"; d_status := "재적"; d_flags := flags 1 1 1 1 1 1 |};
           {| d_date := Some {| year := 2024; month := 9; day := 1 |}; d_name := "이서윤";
              d_role := "청년"; d_status := "재적"; d_flags := flags 0 0 0 0 0 0 |} ]
         "2024년 09월" "1구역" "도원" = Some r.
Proof.
  assert (H1 : v2_month "2024년 09월" = Some (2024, 9)%Z) by reflexivity.
  assert (H2 : Forall (fun r => flags01 (d_flags r))
       [ {| d_date := Some {| year := 2024; month := 9; day := 1 |}; d_name := "김민준";
            d_role := "리더"; d_status := "재적"; d_flags := flags 1 1 1 1 1 1 |};
         {| d_date := Some {| year := 2024; month := 9; day := 1 |}; d_name := "이서윤";
            d_role := "청년"; d_status := "재적"; d_flags := flags 0 0 0 0 0 0 |} ])
    by solve_flags01.
  assert (H3 : List.NoDup (map d_name (v2_active_rows 2024 9
       [ {| d_date := Some {| year := 2024; month := 9; day := 1 |}; d_name := "김민준";
            d_role := "리더"; d_status := "재적"; d_flags := flags 1 1 1 1 1 1 |};
         {| d_date := Some {| year := 2024; month := 9; day := 1 |}; d_name := "이서윤";
            d_role := "청년"; d_status := "재적"; d_flags := flags 0 0 0 0 0 0 |} ]))).
  { vm_compute. repeat constructor; simpl; intuition discriminate. }
  repeat (split; [assumption |]).
  destruct (v2_summary_distinct_names _ "2024년 09월" "1구역" "도원" _ _ H1 H2 H3)
    as (r & Hr & _).
  exists r. exact Hr.
Defined.

(** * The list of months *)

Lemma add_month_labels_In (all_dates : gset string) (data : list ActivityRow)
    (label : string) :
  label ∈ AppFinal.add_month_labels all_dates data
  <-> label ∈ all_dates
      \/ (Py.contains "월" label = true /\ exists r, In r data /\ r_date r = label).
Proof.
  unfold AppFinal.add_month_labels. revert all_dates.
  induction data as [| r0 data IH]; intros all_dates; simpl.
  { split; [now left | intros [H | (_ & r & [] & _)]; exact H]. }
  rewrite IH. destruct (Py.contains "월" (r_date r0)) eqn:Ec.
  - rewrite elem_of_union, elem_of_singleton. split.
    + intros [[-> | H] | (Hc & r & Hr & Hl)].
      * right. split; [exact Ec |]. exists r0. split; [now left | reflexivity].
      * now left.
      * right. split; [exact Hc |]. exists r. split; [now right | exact Hl].
    + intros [H | (Hc & r & [<- | Hr] & Hl)].
      * left. now right.
      * left. left. now symmetry.
      * right. split; [exact Hc |]. now exists r.
  - split.
    + intros [H | (Hc & r & Hr & Hl)]; [now left |].
      right. split; [exact Hc |]. exists r. split; [now right | exact Hl].
    + intros [H | (Hc & r & [<- | Hr] & Hl)]; [now left | congruence |].
      right. split; [exact Hc |]. now exists r.
Qed.

Lemma collect_months_In (w : World) (all_zones : list string) (all_dates : gset string)
    (label : string) :
  label ∈ AppFinal.collect_months w all_zones all_dates
  <-> label ∈ all_dates
      \/ (Py.contains "월" label = true /\ listed_label w all_zones label).
Proof.
  unfold listed_label. revert all_dates.
  induction all_zones as [| zone rest IH]; intros all_dates; simpl.
  { split; [now left | intros [H | (_ & z & d & r & [] & _)]; exact H]. }
  destruct (String.eqb_spec zone "") as [-> | Hzone].
  { rewrite IH. split.
    - intros [H | (Hc & z & d & r & Hz & Hrest)]; [now left |].
      right. split; [exact Hc |]. exists z, d, r. split; [now right | exact Hrest].
    - intros [H | (Hc & z & d & r & [<- | Hz] & Hne & Hrest)]; [now left | congruence |].
      right. split; [exact Hc |]. exists z, d, r. tauto. }
  destruct (sheets w !! zone) as [data |] eqn:Es.
  - rewrite IH, add_month_labels_In. split.
    + intros [[H | (Hc & r & Hr & Hl)] | (Hc & z & d & r & Hz & Hrest)].
      * now left.
      * right. split; [exact Hc |]. exists zone, data, r. split; [now left | tauto].
      * right. split; [exact Hc |]. exists z, d, r. split; [now right | exact Hrest].
    + intros [H | (Hc & z & d & r & [<- | Hz] & Hne & Hsheet & Hr & Hl)].
      * left. now left.
      * left. right. split; [exact Hc |]. exists r. split; [congruence | exact Hl].
      * right. split; [exact Hc |]. exists z, d, r. tauto.
  - rewrite IH. split.
    + intros [H | (Hc & z & d & r & Hz & Hrest)]; [now left |].
      right. split; [exact Hc |]. exists z, d, r. split; [now right | exact Hrest].
    + intros [H | (Hc & z & d & r & [<- | Hz] & Hne & Hsheet & Hrest)];
        [now left | congruence |].
      right. split; [exact Hc |]. exists z, d, r. tauto.
Qed.

Lemma with_month_number_keys (labels : list string) (keyed : list (Z * string)) :
  AppFinal.with_month_number labels = Some keyed ->
  map snd keyed = labels
  /\ Forall (fun kx => AppFinal.month_number (snd kx) = Some (fst kx)) keyed.
Proof.
  revert keyed. induction labels as [| x labels IH]; intros keyed; simpl.
  { intros [= <-]. split; [reflexivity | constructor]. }
  destruct (AppFinal.month_number x) as [k |] eqn:Ek; [| discriminate].
  destruct (AppFinal.with_month_number labels) as [rest |]; [| discriminate].
  intros [= <-]. destruct (IH rest eq_refl) as [Hm Hk].
  split; [simpl; now rewrite Hm | now constructor].
Qed.

Lemma with_month_number_None (labels : list string) :
  AppFinal.with_month_number labels = None
  <-> Exists (fun x => AppFinal.month_number x = None) labels.
Proof.
  induction labels as [| x labels IH]; simpl.
  - split; [discriminate | intros H; inversion H].
  - destruct (AppFinal.month_number x) as [k |] eqn:Ek.
    + destruct (AppFinal.with_month_number labels) as [rest |].
      * split; [discriminate |]. intros H. inversion H as [? ? H1 | ? ? H1]; subst.
        -- congruence.
        -- apply IH in H1. discriminate.
      * split; [| reflexivity]. intros _. apply Exists_cons_tl. now apply IH.
    + split; [| reflexivity]. intros _. now apply Exists_cons_hd.
Qed.

Lemma number_leb_total (a b : Z * string) :
  AppFinal.number_leb a b = true \/ AppFinal.number_leb b a = true.
Proof. unfold AppFinal.number_leb. lia. Qed.

Lemma number_leb_trans (a b c : Z * string) :
  AppFinal.number_leb a b = true -> AppFinal.number_leb b c = true ->
  AppFinal.number_leb a c = true.
Proof. unfold AppFinal.number_leb. lia. Qed.

(** X25.  The list [get_available_months] of [app_final.py] returns has
    no label twice; each of its labels contains "월" and is the 날짜 of a
    row of the sheet of a listed zone; the labels stand in descending
    order of their month numbers.  When every such label is a number
    once "월" is taken out, the list has all of them; a single one that
    is not makes the list empty. *)
Theorem available_months_spec (w : World) (all_zones : list string) :
  let months := AppFinal.get_available_months w all_zones in
  List.NoDup months
  /\ (forall label, In label months ->
        Py.contains "월" label = true /\ listed_label w all_zones label)
  /\ StronglySorted month_not_before months
  /\ ((forall label, listed_label w all_zones label -> Py.contains "월" label = true ->
                     AppFinal.month_number label <> None) ->
      forall label, listed_label w all_zones label -> Py.contains "월" label = true ->
                    In label months)
  /\ (forall label, listed_label w all_zones label -> Py.contains "월" label = true ->
                    AppFinal.month_number label = None -> months = []).
Proof.
  cbv zeta. unfold AppFinal.get_available_months.
  set (all_dates := AppFinal.collect_months w all_zones ∅).
  assert (Hin : forall label, In label (elements all_dates)
                 <-> Py.contains "월" label = true /\ listed_label w all_zones label).
  { intros label. rewrite <- list_elem_of_In, elem_of_elements.
    unfold all_dates. rewrite collect_months_In, elem_of_empty. tauto. }
  assert (Hnd : List.NoDup (elements all_dates))
    by (apply NoDup_ListNoDup, NoDup_elements).
  destruct (elements all_dates) as [| l0 labels] eqn:El.
  { split; [constructor |]. split; [intros label [] |]. split; [constructor |].
    split; [| reflexivity].
    intros _ label Hl Hc. apply (Hin label). now split. }
  rewrite <- El in *. clear El l0 labels.
  destruct (AppFinal.with_month_number (elements all_dates)) as [keyed |] eqn:Ek.
  - destruct (with_month_number_keys _ _ Ek) as [Hmap Hkeys].
    pose proof (sort_values_desc_perm AppFinal.number_leb keyed) as Hperm.
    assert (Hlabels : Permutation (map snd (Py.sort_values_desc AppFinal.number_leb keyed))
                                  (elements all_dates))
      by (rewrite <- Hmap; now apply Permutation_map).
    split; [| split; [| split; [| split]]].
    + eapply Permutation_NoDup; [symmetry; exact Hlabels | exact Hnd].
    + intros label Hl. apply Hin. eapply Permutation_in; [exact Hlabels | exact Hl].
    + eapply strongly_sorted_map;
        [| eapply Permutation_Forall; [symmetry; exact Hperm | exact Hkeys]
         | apply (sort_values_desc_sorted _ number_leb_total number_leb_trans)].
      intros a b Ha Hb Hab. simpl in *. unfold month_not_before. rewrite Ha, Hb.
      unfold AppFinal.number_leb in Hab. lia.
    + intros _ label Hl Hc.
      eapply Permutation_in; [symmetry; exact Hlabels |]. apply Hin. now split.
    + intros label Hl Hc Hbad. exfalso.
      assert (Hx : In label (elements all_dates)) by (apply Hin; now split).
      rewrite <- Hmap in Hx. apply in_map_iff in Hx as (kx & <- & Hkx).
      rewrite List.Forall_forall in Hkeys. specialize (Hkeys _ Hkx). congruence.
  - split; [constructor |]. split; [intros label [] |]. split; [constructor |].
    split; [| reflexivity].
    intros Hall label Hl Hc. exfalso.
    apply with_month_number_None in Ek. apply List.Exists_exists in Ek as (x & Hx & Hbad).
    apply Hin in Hx as [Hxc Hxl]. now apply (Hall x).
Qed.

Example ex_available_months :
  AppFinal.get_available_months sample_world ["3구역"; ""; "7구역"; "5구역"] = ["11월"; "10월"]
  /\ AppFinal.get_available_months garbled_world ["3구역"; "5구역"] = [].
Proof. split; vm_compute; reflexivity. Qed.

(** * The data-input tab *)

Lemma with_sort_key_Some (df : list ActivityRow) :
  Forall (fun r => AppFinal.month_sort_key (r_date r) <> None) df ->
  exists keyed, AppFinal.with_sort_key df = Some keyed.
Proof.
  intros Hall. destruct (AppFinal.with_sort_key df) as [keyed |] eqn:E; [now exists keyed |].
  apply with_sort_key_None, List.Exists_exists in E as (r & Hr & Hbad).
  rewrite List.Forall_forall in Hall. now destruct (Hall r Hr).
Qed.

(** X26.  Saving the data-input tab, for a zone whose frame has rows of
    the selected month and only labels that are month numbers, and an
    editor that leaves the 날짜 of the rows alone (the column is
    disabled): a sheet is saved and the read cache cleared; the rows of
    the selected month in the zone's sheet are the edited rows and the
    rows of every other month are those of the frame, each a row of the
    sheet as often as it was there (in which order the rows of one month
    stand is left to the sort); the sheet has the latest month on top;
    no other sheet is written. *)
Theorem data_input_save_spec (selected_zone selected_month : string)
    (editor : list ActivityRow -> list ActivityRow) (w : World) :
  rows_of_month selected_month (loaded w selected_zone) <> [] ->
  Forall (fun r => AppFinal.month_sort_key (r_date r) <> None) (loaded w selected_zone) ->
  Forall (fun r => r_date r = selected_month)
         (editor (rows_of_month selected_month (loaded w selected_zone))) ->
  let edited_df := editor (rows_of_month selected_month (loaded w selected_zone)) in
  let result := AppFinal.render_data_input_save selected_zone selected_month editor w in
  fst result = Some true
  /\ cache (snd result) = ∅
  /\ (forall zone, zone <> selected_zone -> sheets (snd result) !! zone = sheets w !! zone)
  /\ Permutation (rows_of_month selected_month (table (snd result) selected_zone)) edited_df
  /\ (forall label, label <> selected_month ->
        Permutation (rows_of_month label (table (snd result) selected_zone))
                    (rows_of_month label (loaded w selected_zone)))
  /\ StronglySorted not_before (table (snd result) selected_zone).
Proof.
  intros Hmonth Hkeys Hedited. cbv zeta.
  unfold rows_of_month in *.
  destruct (loaded w selected_zone) as [| r0 df] eqn:Eload; [contradiction |].
  destruct (List.filter (fun r => String.eqb (r_date r) selected_month) (r0 :: df))
    as [| m0 month_rest] eqn:Em; [contradiction |].
  set (others := List.filter (fun r => negb (String.eqb (r_date r) selected_month))
                             (r0 :: df)).
  assert (Hsel : AppFinal.month_sort_key selected_month <> None).
  { assert (Hm0 : In m0 (List.filter (fun r => String.eqb (r_date r) selected_month)
                                     (r0 :: df)))
      by (rewrite Em; now left).
    apply List.filter_In in Hm0 as [Hin Hd]. apply String.eqb_eq in Hd. rewrite <- Hd.
    rewrite List.Forall_forall in Hkeys. now apply Hkeys. }
  assert (Hall : Forall (fun r => AppFinal.month_sort_key (r_date r) <> None)
                        (others ++ editor (m0 :: month_rest))).
  { apply Forall_app. split; [now apply Forall_filter_bool |].
    eapply List.Forall_impl; [| exact Hedited]. intros r ->. exact Hsel. }
  destruct (with_sort_key_Some _ Hall) as (keyed & Hkeyed).
  destruct (AppFinal.sort_by_month (others ++ editor (m0 :: month_rest)))
    as [sorted |] eqn:Esort.
  2: { unfold AppFinal.sort_by_month in Esort. rewrite Hkeyed in Esort. discriminate. }
  destruct (sort_by_month_spec _ _ Esort) as (Hperm & Hsorted).
  assert (Hres : AppFinal.render_data_input_save selected_zone selected_month editor w
                 = (Some true,
                    cache_clear (write selected_zone sorted (remember selected_zone w)))).
  { unfold AppFinal.render_data_input_save. unfold bind at 1.
    rewrite load_zone_data_spec, Eload. cbv beta iota zeta. rewrite Em.
    cbv beta iota zeta. fold others. unfold bind, lift. rewrite Esort. reflexivity. }
  rewrite Hres. cbn [fst snd].
  assert (Htable : table (cache_clear (write selected_zone sorted
                                         (remember selected_zone w))) selected_zone
                   = sorted).
  { unfold table, cache_clear, write. cbn [sheets]. now rewrite lookup_insert_eq. }
  rewrite Htable.
  split; [reflexivity |]. split; [reflexivity |]. split; [| split; [| split]].
  - intros zone Hne. unfold cache_clear, write, remember. cbn [sheets].
    now rewrite lookup_insert_ne by congruence.
  - eapply Permutation_trans; [apply filter_perm; exact Hperm |].
    rewrite List.filter_app. unfold others. rewrite filter_filter_and.
    rewrite (filter_none _ (r0 :: df)), (filter_id _ (editor (m0 :: month_rest)));
      [reflexivity | |].
    + rewrite List.Forall_forall in Hedited. intros r Hr. apply String.eqb_eq.
      now apply Hedited.
    + intros r _. now destruct (String.eqb (r_date r) selected_month).
  - intros label Hne. eapply Permutation_trans; [apply filter_perm; exact Hperm |].
    rewrite List.filter_app. unfold others.
    rewrite filter_filter_and, (filter_none _ (editor (m0 :: month_rest))), app_nil_r.
    + match goal with |- Permutation ?l ?l' => assert (E : l = l') end.
      { apply List.filter_ext. intros r.
        destruct (String.eqb_spec (r_date r) selected_month) as [E | E]; simpl;
          [| reflexivity].
        symmetry. apply String.eqb_neq. congruence. }
      rewrite E. reflexivity.
    + rewrite List.Forall_forall in Hedited. intros r Hr. apply String.eqb_neq.
      rewrite (Hedited r Hr). congruence.
  - exact Hsorted.
Qed.

Lemma data_input_save_spec_witness :
  rows_of_month "11월" (loaded sample_world "3구역") <> []
  /\ Forall (fun r => AppFinal.month_sort_key (r_date r) <> None) (loaded sample_world "3구역")
  /\ Forall (fun r => r_date r = "11월")
       (map (AppFinal.exclude "박지호") (rows_of_month "11월" (loaded sample_world "3구역")))
  /\ fst (AppFinal.render_data_input_save "3구역" "11월" (map (AppFinal.exclude "박지호"))
            sample_world) = Some true.
Proof.
  assert (Hl : loaded sample_world "3구역" = sample_zone_df) by reflexivity.
  assert (H1 : rows_of_month "11월" (loaded sample_world "3구역") <> [])
    by (rewrite Hl; vm_compute; discriminate).
  assert (H2 : Forall (fun r => AppFinal.month_sort_key (r_date r) <> None)
                      (loaded sample_world "3구역")).
  { rewrite Hl. unfold sample_zone_df.
    repeat (apply List.Forall_cons; [vm_compute; discriminate |]). apply List.Forall_nil. }
  assert (H3 : Forall (fun r => r_date r = "11월")
                 (map (AppFinal.exclude "박지호")
                      (rows_of_month "11월" (loaded sample_world "3구역")))).
  { rewrite Hl. vm_compute.
    repeat (apply List.Forall_cons; [reflexivity |]). apply List.Forall_nil. }
  repeat (split; [assumption |]).
  exact (proj1 (data_input_save_spec "3구역" "11월" (map (AppFinal.exclude "박지호"))
                  sample_world H1 H2 H3)).
Defined.

(** * The month a zone is compared with *)

(** X27.  For a selected month from "1월" to "12월" the zone-detail tab
    compares with the month before it, and "1월" with "12월": the label
    it builds is that of month m - 1, or of 12 for m = 1, and this
    label's sort key is that number. *)
Theorem previous_month_wraps (m : Z) :
  (1 <= m <= 12)%Z ->
  let p := if (m =? 1)%Z then 12%Z else (m - 1)%Z in
  AppFinal.previous_month (pretty m ++ "월") = Some (pretty p ++ "월")
  /\ AppFinal.month_sort_key (pretty p ++ "월") = Some p
  /\ (1 <= p <= 12)%Z.
Proof.
  intros Hm. cbv zeta.
  assert (H : (m = 1 \/ m = 2 \/ m = 3 \/ m = 4 \/ m = 5 \/ m = 6 \/ m = 7 \/ m = 8
               \/ m = 9 \/ m = 10 \/ m = 11 \/ m = 12)%Z) by lia.
  repeat (destruct H as [-> | H];
          [split; [vm_compute; reflexivity | split; [vm_compute; reflexivity | simpl; lia]] |]).
  subst m. split; [vm_compute; reflexivity | split; [vm_compute; reflexivity | simpl; lia]].
Qed.

Lemma previous_month_wraps_witness :
  (1 <= 1 <= 12)%Z /\ AppFinal.previous_month (pretty 1%Z ++ "월") = Some (pretty 12%Z ++ "월").
Proof.
  assert (H : (1 <= 1 <= 12)%Z) by lia.
  split; [exact H | exact (proj1 (previous_month_wraps 1 H))].
Defined.

(** * Saving the roster *)

Lemma sync_if_moved_same (edited_df : list Member) (w : World) (rows : Member * Member) :
  AppFinal.sync_if_moved edited_df w rows = w.
Proof.
  unfold AppFinal.sync_if_moved.
  change (Py.isin "name" AppFinal.roster_columns) with false. reflexivity.
Qed.

(** X28.  The save handler of the member-management tab never calls
    [sync_member_to_zones]: the rows of the roster have no column
    "name", so the test ['name' in row] fails for every row.  Whatever
    was edited, also the zone of a member, every zone sheet is after the
    save what it was before; only the read cache is cleared. *)
Theorem save_roster_leaves_zone_sheets (master_df edited_df : list Member) (w : World) :
  sheets (AppFinal.save_roster master_df edited_df w) = sheets w
  /\ cache (AppFinal.save_roster master_df edited_df w) = ∅.
Proof.
  assert (Hloop : forall (pairs : list (Member * Member)) (w0 : World),
             fold_left (AppFinal.sync_if_moved edited_df) pairs w0 = w0).
  { induction pairs as [| rows pairs IH]; intros w0; simpl; [reflexivity |].
    now rewrite sync_if_moved_same. }
  unfold AppFinal.save_roster. rewrite Hloop.
  split; [| reflexivity].
  now destruct (negb (AppFinal.roster_equals master_df edited_df)).
Qed.

Example ex_save_roster_moved_member :
  let moved := {| m_name := "이서윤"; m_region := "새신"; m_zone := "5구역"; m_role := "청년";
                  m_status := "재적"; m_joined := "2024-01-01" |} in
  let edited_df := <[1%nat := moved]> sample_roster in
  AppFinal.roster_equals sample_roster edited_df = false
  /\ table (AppFinal.save_roster sample_roster edited_df sample_world) "5구역"
     = table sample_world "5구역"
  /\ List.length (table (snd (AppFinal.sync_member_to_zones edited_df "이서윤" "5구역"
                                (Some "3구역") sample_world)) "5구역") = 2%nat.
Proof. cbv zeta. repeat split; vm_compute; reflexivity. Qed.

(** * The ranking of [app.py] *)

Lemma sumZ_ones {A : Type} (l : list A) :
  Py.sumZ (map (fun _ => 1%Z) l) = Z.of_nat (List.length l).
Proof.
  unfold Py.sumZ. induction l as [| x l IH]; cbn [map fold_right List.length]; [reflexivity |].
  rewrite IH, Nat2Z.inj_succ. lia.
Qed.

Lemma rank_from_map {B : Type} (f : App.ZoneScore -> B) (i : nat) (l : list App.ZoneScore) :
  (forall j z, f (App.set_rank j z) = f z) ->
  map f (App.rank_from i l) = map f l.
Proof.
  intros Hf. revert i. induction l as [| z l IH]; intros i; simpl; [reflexivity |].
  now rewrite Hf, IH.
Qed.

Lemma rank_from_Forall (P : App.ZoneScore -> Prop) (i : nat) (l : list App.ZoneScore) :
  (forall j z, P z -> P (App.set_rank j z)) ->
  Forall P l -> Forall P (App.rank_from i l).
Proof.
  intros HP Hl. revert i. induction Hl as [| z l Hz _ IH]; intros i; simpl; constructor; auto.
Qed.

Lemma rank_from_sorted (i : nat) (l : list App.ZoneScore) :
  StronglySorted outranks l -> StronglySorted outranks (App.rank_from i l).
Proof.
  intros Hl. revert i. induction Hl as [| z l _ IH Hz]; intros i; simpl; constructor.
  - apply IH.
  - apply rank_from_Forall; [| exact Hz]. intros j b Hb. exact Hb.
Qed.

Lemma rank_from_ranks (i : nat) (l : list App.ZoneScore) :
  map App.z_rank (App.rank_from i l)
  = map (fun j => Some (Z.of_nat j)) (seq i (List.length l)).
Proof.
  revert i. induction l as [| z l IH]; intros i; simpl; [reflexivity |]. now rewrite IH.
Qed.

Lemma rank_from_length (i : nat) (l : list App.ZoneScore) :
  List.length (App.rank_from i l) = List.length l.
Proof. revert i. induction l as [| z l IH]; intros i; simpl; [reflexivity | now rewrite IH]. Qed.

Lemma scored_all (zone_stats : list App.ZoneScore) :
  Forall (fun z => is_Some (App.z_score z)) zone_stats ->
  map snd (App.scored zone_stats) = zone_stats
  /\ Forall (fun qz => App.z_score (snd qz) = Some (fst qz)) (App.scored zone_stats)
  /\ List.filter (fun z => match App.z_score z with None => true | Some _ => false end)
                 zone_stats = [].
Proof.
  induction 1 as [| z l [q Hq] _ (IH1 & IH2 & IH3)]; simpl.
  { repeat split. constructor. }
  rewrite Hq. simpl. rewrite IH1, IH3. repeat split. now constructor.
Qed.

Lemma stat_leb_total (a b : Q * App.ZoneScore) :
  App.stat_leb a b = true \/ App.stat_leb b a = true.
Proof.
  unfold App.stat_leb. rewrite !Qle_bool_iff.
  destruct (Qlt_le_dec (fst b) (fst a)) as [H | H]; [right | left]; lra.
Qed.

Lemma stat_leb_trans (a b c : Q * App.ZoneScore) :
  App.stat_leb a b = true -> App.stat_leb b c = true -> App.stat_leb a c = true.
Proof. unfold App.stat_leb. rewrite !Qle_bool_iff. lra. Qed.

(** sorting rows that all have a score *)
Lemma sort_by_score_spec (zone_stats : list App.ZoneScore) :
  Forall (fun z => is_Some (App.z_score z)) zone_stats ->
  Permutation (App.sort_by_score zone_stats) zone_stats
  /\ StronglySorted outranks (App.sort_by_score zone_stats).
Proof.
  intros Hall. destruct (scored_all _ Hall) as (Hmap & Hkeys & Hnone).
  unfold App.sort_by_score. rewrite Hnone, app_nil_r.
  pose proof (sort_values_desc_perm App.stat_leb (App.scored zone_stats)) as Hperm.
  split.
  - rewrite <- Hmap at 2. now apply Permutation_map.
  - eapply strongly_sorted_map;
      [| eapply Permutation_Forall; [symmetry; exact Hperm | exact Hkeys]
       | apply (sort_values_desc_sorted _ stat_leb_total stat_leb_trans)].
    intros a b Ha Hb Hab. simpl in *. unfold outranks. rewrite Ha, Hb.
    unfold App.stat_leb in Hab. now apply Qle_bool_iff.
Qed.

Lemma score_add_fold (weights : gmap string Q) (cells : list (string * option Q)) (sc : Q) :
  Forall (fun c => is_Some (snd c)) cells ->
  is_Some (fold_left (App.score_add weights) cells (Some sc)).
Proof.
  intros Hall. revert sc.
  induction Hall as [| [ind rate] cells [q Hq] _ IH]; intros sc; cbn [fold_left].
  { now exists sc. }
  simpl in Hq. subst rate.
  change (App.score_add weights (Some sc) (ind, Some q))
    with (Some (sc + q * (default 0%Q (weights !! ind) / 100))%Q).
  apply IH.
Qed.

(** the row of a zone that has an active row *)
Lemma zone_stat_spec (weights : gmap string Q) (active_df : list FlatRow) (zone : string) :
  In zone (map x_zone active_df) ->
  let z := App.zone_stat weights active_df zone in
  (0 < App.z_count z)%Z
  /\ is_Some (App.z_score z)
  /\ (Forall (fun r => flags01 (x_flags r)) active_df ->
      Forall is_percentage (App.z_rates z)).
Proof.
  intros Hin. cbv zeta. unfold App.zone_stat. cbn [App.z_count App.z_score App.z_rates].
  set (group := List.filter (fun r => String.eqb (x_zone r) zone) active_df).
  assert (Hne : group <> []).
  { apply in_map_iff in Hin as (r & Hz & Hr).
    assert (Hg : In r group)
      by (apply List.filter_In; split; [exact Hr | now apply String.eqb_eq]).
    intros E. now rewrite E in Hg. }
  assert (Hpos : (0 < Z.of_nat (List.length group))%Z)
    by (destruct group; [contradiction | simpl; lia]).
  assert (Hrates : Forall (fun rate : option Q => is_Some rate)
                     (map (fun s => option_map Py.round1
                                      (Py.times100
                                         (Py.true_divide (inject_Z s)
                                            (inject_Z (Z.of_nat (List.length group))))))
                          (map (fun col => App.column_sum col group) App.flag_columns))).
  { apply List.Forall_map, List.Forall_map, List.Forall_forall. intros col _.
    rewrite (true_divide_positive _ _ Hpos). simpl. eauto. }
  split; [exact Hpos |]. split.
  - destruct (score_add_fold weights
                (combine Scoring.indicators
                   (map (fun s => option_map Py.round1
                                    (Py.times100
                                       (Py.true_divide (inject_Z s)
                                          (inject_Z (Z.of_nat (List.length group))))))
                        (map (fun col => App.column_sum col group) App.flag_columns))) 0)
      as [q Hq].
    + unfold Scoring.indicators, App.flag_columns in *. cbn [map combine] in *.
      repeat match goal with
             | H : Forall _ (_ :: _) |- _ => inversion H; subst; clear H
             end.
      repeat (apply List.Forall_cons; [assumption |]). apply List.Forall_nil.
    + rewrite Hq. simpl. eauto.
  - intros Hflags.
    assert (Hg : Forall (fun r => flags01 (x_flags r)) group)
      by (now apply Forall_filter_bool).
    apply List.Forall_map, List.Forall_map.
    assert (Hcols : Forall (fun col : Flags -> Z =>
                              forall f, flags01 f -> col f = 0%Z \/ col f = 1%Z)
                           App.flag_columns).
    { unfold App.flag_columns.
      repeat (apply List.Forall_cons; [intros f Hf; apply flags01_col in Hf; tauto |]).
      apply List.Forall_nil. }
    eapply List.Forall_impl; [| exact Hcols]. intros col Hcol.
    rewrite (true_divide_positive _ _ Hpos). simpl.
    eexists. split; [reflexivity |]. apply round1_bounds.
    apply percentage_bounds; [| exact Hpos].
    apply (sumZ_flag_bounds (fun r => col (x_flags r))).
    eapply List.Forall_impl; [| exact Hg]. intros r Hr. now apply Hcol.
Qed.

(** X29.  The ranking [calculate_zone_scores] of [app.py] returns has
    one row for every zone that has an active row in the frame, and no
    other; the 재적수 of a row is the number of active rows of its zone,
    which is positive, and these numbers add up to the number of active
    rows; every row has a score; the rows stand in descending order of
    the score and carry the ranks 1, 2, ... in that order; with 0/1
    flags every rate is a number between 0 and 100. *)
Theorem zone_scores_spec (df : list FlatRow) (weights : gmap string Q) :
  let active_df := List.filter App.is_active df in
  let zone_scores := App.calculate_zone_scores df weights in
  Permutation (map App.z_zone zone_scores) (Py.unique (map x_zone active_df))
  /\ Forall (fun z =>
               App.z_count z
               = Z.of_nat (List.length
                             (List.filter (fun r => String.eqb (x_zone r) (App.z_zone z))
                                          active_df))
               /\ (0 < App.z_count z)%Z /\ is_Some (App.z_score z))
            zone_scores
  /\ Py.sumZ (map App.z_count zone_scores) = Z.of_nat (List.length active_df)
  /\ StronglySorted outranks zone_scores
  /\ map App.z_rank zone_scores
     = map (fun i => Some (Z.of_nat i)) (seq 1 (List.length zone_scores))
  /\ (Forall (fun r => flags01 (x_flags r)) df ->
      Forall (fun z => Forall is_percentage (App.z_rates z)) zone_scores).
Proof.
  cbv zeta. unfold App.calculate_zone_scores.
  destruct df as [| r0 df'] eqn:Edf.
  { repeat split; constructor. }
  rewrite <- Edf. clear Edf r0 df'.
  destruct (List.filter App.is_active df) as [| a0 rest] eqn:Ea.
  { repeat split; constructor. }
  rewrite <- Ea. cbv zeta.
  set (active_df := List.filter App.is_active df).
  set (keys := Py.sort_asc String.leb (Py.unique (map x_zone active_df))).
  set (zone_stats := map (App.zone_stat weights active_df) keys).
  assert (Hkeys : Permutation keys (Py.unique (map x_zone active_df)))
    by apply sort_asc_perm.
  assert (Hkin : forall zone, In zone keys -> In zone (map x_zone active_df)).
  { intros zone Hz. apply unique_In. eapply Permutation_in; [exact Hkeys | exact Hz]. }
  assert (Hstats : Forall (fun z =>
                      App.z_count z
                      = Z.of_nat (List.length
                                    (List.filter
                                       (fun r => String.eqb (x_zone r) (App.z_zone z))
                                       active_df))
                      /\ (0 < App.z_count z)%Z /\ is_Some (App.z_score z))
                     zone_stats).
  { apply List.Forall_map, List.Forall_forall. intros zone Hz.
    destruct (zone_stat_spec weights active_df zone (Hkin zone Hz)) as (Hpos & Hsc & _).
    split; [reflexivity | split; assumption]. }
  assert (Hsome : Forall (fun z => is_Some (App.z_score z)) zone_stats)
    by (eapply List.Forall_impl; [| exact Hstats]; intros z (_ & _ & H); exact H).
  destruct (sort_by_score_spec zone_stats Hsome) as [Hperm Hsorted].
  split; [| split; [| split; [| split; [| split]]]].
  - rewrite rank_from_map by reflexivity.
    rewrite (Permutation_map App.z_zone Hperm). unfold zone_stats.
    rewrite map_map. cbn [App.z_zone App.zone_stat]. now rewrite map_id.
  - apply rank_from_Forall; [intros j z H; exact H |].
    eapply Permutation_Forall; [symmetry; exact Hperm | exact Hstats].
  - rewrite rank_from_map by reflexivity.
    rewrite (sumZ_perm _ _ (Permutation_map App.z_count Hperm)). unfold zone_stats.
    rewrite map_map. cbn [App.z_count App.zone_stat].
    rewrite <- (sumZ_ones active_df).
    rewrite <- (sumZ_by_key x_zone (fun _ => 1%Z) keys active_df).
    + f_equal. apply List.map_ext. intros zone. now rewrite sumZ_ones.
    + eapply Permutation_NoDup; [symmetry; exact Hkeys | apply unique_NoDup].
    + intros r Hr. eapply Permutation_in; [symmetry; exact Hkeys |].
      apply unique_In. now apply in_map.
  - now apply rank_from_sorted.
  - rewrite rank_from_ranks, rank_from_length. reflexivity.
  - intros Hflags. apply rank_from_Forall; [intros j z H; exact H |].
    eapply Permutation_Forall; [symmetry; exact Hperm |].
    apply List.Forall_map, List.Forall_forall. intros zone Hz.
    destruct (zone_stat_spec weights active_df zone (Hkin zone Hz)) as (_ & _ & Hrates).
    apply Hrates. unfold active_df. now apply Forall_filter_bool.
Qed.

Example ex_zone_scores :
  map (fun z => (App.z_zone z, App.z_count z, App.z_score z, App.z_rank z))
      (App.calculate_zone_scores sample_flat_df (uniform_weights (100 # 6)))
  = [("3구역", 2%Z, Some (167 # 10)%Q, Some 1%Z)].
Proof. vm_compute. reflexivity. Qed.

(** * Writing edits back to [Record_DB] *)

Lemma matches_key (d : string) (r : FlatRow) (a a' : App.SheetRow) :
  sheet_key a = sheet_key a' -> App.matches d r a = App.matches d r a'.
Proof. unfold sheet_key, App.matches. now intros [= -> -> -> ->]. Qed.

Lemma to_sheet_row_key (d : string) (r : FlatRow) (a : App.SheetRow) :
  App.matches d r a = true -> sheet_key (App.to_sheet_row d r) = sheet_key a.
Proof.
  unfold App.matches, sheet_key. rewrite !andb_true_iff, !String.eqb_eq.
  intros [[[-> ->] ->] ->]. reflexivity.
Qed.

Lemma Forall2_same {A : Type} (R : A -> A -> Prop) (l : list A) :
  (forall a, R a a) -> List.Forall2 R l l.
Proof. intros HR. induction l; constructor; auto. Qed.

Lemma Forall2_compose {A B C : Type} (P : A -> B -> Prop) (Q : B -> C -> Prop)
    (R : A -> C -> Prop) (l1 : list A) (l2 : list B) (l3 : list C) :
  (forall a b c, P a b -> Q b c -> R a c) ->
  List.Forall2 P l1 l2 -> List.Forall2 Q l2 l3 -> List.Forall2 R l1 l3.
Proof.
  intros H H12. revert l3. induction H12 as [| a b l1 l2 Hab _ IH]; intros l3 H23.
  - inversion H23. constructor.
  - inversion H23 as [| ? c ? l3' Hbc H23']; subst. constructor; eauto.
Qed.

Lemma Forall2_fixed {A : Type} (R : A -> A -> Prop) (l l' : list A) :
  List.Forall2 R l l' -> (forall a b, In a l -> R a b -> b = a) -> l' = l.
Proof.
  induction 1 as [| a b l l' Hab _ IH]; intros Hfix; [reflexivity |].
  rewrite (Hfix a b) by (auto; now left). f_equal. apply IH.
  intros a' b' Ha'. apply Hfix. now right.
Qed.

(** one replacement: a row is left alone or overwritten by the edited
    row that matches it *)
Lemma replace_first_spec (d : string) (r : FlatRow) (l : list App.SheetRow) :
  List.Forall2 (fun a b => b = a \/ (App.matches d r a = true /\ b = App.to_sheet_row d r))
               l (App.replace_first d r l).
Proof.
  induction l as [| a l IH]; simpl; [constructor |].
  destruct (App.matches d r a) eqn:Em.
  - constructor; [now right |]. apply Forall2_same. now left.
  - constructor; [now left | exact IH].
Qed.

Lemma update_loop (df done : list FlatRow) (all_df cur : list App.SheetRow) :
  List.Forall2 (fun a c => sheet_key c = sheet_key a /\ written_over done a c) all_df cur ->
  List.Forall2 (fun a c => sheet_key c = sheet_key a /\ written_over (done ++ df) a c)
               all_df (fold_left App.update_row df cur).
Proof.
  revert done cur. induction df as [| r df IH]; intros done cur Hinv; simpl.
  { now rewrite app_nil_r. }
  replace (done ++ r :: df)%list with ((done ++ [r]) ++ df)%list
    by (now rewrite <- app_assoc).
  apply IH. unfold App.update_row.
  destruct (x_date r) as [d |] eqn:Ed.
  - eapply Forall2_compose; [| exact Hinv | apply replace_first_spec].
    intros a c c' [Hkey Hover] [-> | [Hm ->]].
    + split; [exact Hkey |].
      destruct Hover as [-> | (r1 & d1 & Hr1 & Hrest)]; [now left |].
      right. exists r1, d1. split; [apply in_or_app; now left | exact Hrest].
    + split; [rewrite (to_sheet_row_key _ _ _ Hm); exact Hkey |].
      right. exists r, d. split; [apply in_or_app; right; now left |].
      split; [exact Ed |]. split; [| reflexivity].
      now rewrite <- (matches_key _ _ _ _ Hkey).
  - eapply List.Forall2_impl; [| exact Hinv].
    intros a c [Hkey Hover]. split; [exact Hkey |].
    destruct Hover as [-> | (r1 & d1 & Hr1 & Hrest)]; [now left |].
    right. exists r1, d1. split; [apply in_or_app; now left | exact Hrest].
Qed.

(** X30.  [update_data_to_gsheet] rewrites [Record_DB] row for row: the
    sheet keeps its number of rows, and the 날짜, 이름, 지역 and 구역 of
    every row; a row is left as it was, or holds the values of an edited
    row that has a date and the same four cells.  Edited rows that match
    no row of the sheet (rows added in the editor, or rows whose key was
    edited) leave no trace: if none matches, the sheet is written back
    unchanged. *)
Theorem update_keeps_rows (df : list FlatRow) (all_df : list App.SheetRow) :
  let written := App.update_data_to_gsheet df all_df in
  List.Forall2 (written_over df) all_df written
  /\ List.length written = List.length all_df
  /\ map sheet_key written = map sheet_key all_df
  /\ ((forall r d a, In r df -> x_date r = Some d -> In a all_df ->
                     App.matches (App.strftime_day d) r a = false) ->
      written = all_df).
Proof.
  cbv zeta. unfold App.update_data_to_gsheet.
  assert (Hinv : List.Forall2 (fun a c => sheet_key c = sheet_key a /\ written_over df a c)
                              all_df (fold_left App.update_row df all_df)).
  { apply (update_loop df [] all_df all_df). apply Forall2_same.
    intros a. split; [reflexivity | now left]. }
  assert (Hover : List.Forall2 (written_over df) all_df (fold_left App.update_row df all_df))
    by (eapply List.Forall2_impl; [| exact Hinv]; intros a c [_ H]; exact H).
  split; [exact Hover |]. split; [| split].
  - symmetry. eapply Forall2_length. exact Hover.
  - clear Hover. induction Hinv as [| a c l l' [Hkey _] _ IH]; simpl; [reflexivity |].
    now rewrite Hkey, IH.
  - intros Hnone. apply (Forall2_fixed _ _ _ Hover).
    intros a b Ha [-> | (r & d & Hr & Hd & Hm & _)]; [reflexivity |].
    rewrite (Hnone r d a Hr Hd Ha) in Hm. discriminate.
Qed.

Example ex_update_data :
  let sheet :=
    [ {| App.w_date := "2024-10-06"; App.w_name := "김민준"; App.w_region := "도원";
         App.w_zone := "3구역"; App.w_role := "청년"; App.w_status := "재적";
         App.w_flags := flags 0 0 0 0 0 0 |};
      {| App.w_date := "2024-11-3"; App.w_name := "김민준"; App.w_region := "도원";
         App.w_zone := "3구역"; App.w_role := "청년"; App.w_status := "재적";
         App.w_flags := flags 1 1 1 1 1 1 |} ] in
  map (fun a => (App.w_date a, App.w_flags a)) (App.update_data_to_gsheet sample_flat_df sheet)
  = [("2024-10-06", flags 1 1 0 0 0 0); ("2024-11-3", flags 1 1 1 1 1 1)].
Proof. vm_compute. reflexivity. Qed.
